(* ===== verification/_CoqProject ===== *)
-Q . S2P
Prelude.v
Frame.v
Classify.v
Effects.v
Inspection.v
Sentiment.v
Select.v
Grouping.v
Stats.v
Menu.v
