(* ===== verification/Prelude.v ===== *)
(** * A verification development of the Special_Course_Data_Mini_Project EDA tool

    ** The program

    The repository is an interactive exploratory-data-analysis tool in
    Python over pandas, scipy and three NLP libraries:
    - [src/main.py]: [main] loads a CSV file and runs the main menu loop;
      four sub-menus build an analysis object from the loaded table.
    - [src/data_inspection.py], class [DataInspection]: works on a copy
      of the table.  Per column, it applies the missing-value policy
      (drop when more than half missing, else fill with the median or
      [mode()[0]]), attempts a dtype conversion, and reports a central
      tendency.
    - [src/data_analysis1.py], class [DataAnalysis1]: a column
      classifier (threshold 20 on [nunique()]), a selector that re-prompts
      until the choice is valid, and the normality, skewness and
      ANOVA-or-Kruskal-Wallis dispatch.
    - [src/data_analysis2.py], class [DataAnalysis2]: a second classifier
      (threshold 10 on [len(unique())], text labels swapped), a selector
      that raises when nothing is eligible, regression on truncated
      samples, the t-test-or-Mann-Whitney dispatch and the chi-square test.
    - [src/sentiment_analysis.py], class [SentimentAnalysis]: text column
      listing and three sentiment labellers (VADER, TextBlob,
      transformers).

    ** Files, in dependency order ([_CoqProject])

    - [Prelude.v] (this file): shared imports (stdpp, Stdlib rationals),
      the scope [eda_scope], hint databases [eda] and [eda_rw], Python
      dicts as insertion-ordered association lists ([dict_set],
      [dict_get]), [py_in], and generic lemmas on filters and on sorted
      lists of distinct elements.
    - [Frame.v]: the pandas data model.  A column is numeric ([NumCol],
      cells [option Qc], [None] = NaN) or object ([ObjCol], cells
      [option string]); a [frame] is the ordered list of named columns.
      It defines the Series operations the code calls ([dropna],
      [isnull_sum], [nunique], [unique_len], [median], [mean],
      [mode_first], [fillna]) and the frame operations ([frame_get],
      [frame_set], [frame_drop]), with their lemmas.
    - [Classify.v]: both [list_column_types] methods (modules [Analysis1],
      [Analysis2]), refined to one abstract classifier [Spec.classify]
      with two configurations.
    - [Effects.v]: the monad [M S] of the methods.  A [world] holds the
      object state, the remaining input lines and the printed or plotted
      [event]s; results are [exn + A].  It also defines [input], [emit],
      [for_each], [while True] as [while_], and object construction or
      copy as [with_state].  Two run properties, [consumes] (only input
      prefixes are read) and [no_oof] (the iteration bound is never
      exhausted), have hint databases and tactics.  A third, [stays_at],
      is a Hoare-style invariant: the object state is unchanged and every
      emitted event satisfies a predicate.  Its rules for return, raise,
      input, emit, bind, get and [while_] are combined by [solve_stays].
    - [Inspection.v], module [Inspection]: [handle_missing_values],
      [check_data_types], [classify_and_calculate], [classify_columns],
      [numeric_columns] and [ordinal_columns], with [pd.to_numeric] as a
      section parameter.  The central-tendency report of
      [classify_and_calculate] is [report_central].  The four plot methods
      read their columns (raising [KeyError]) and emit one plot event, and
      [load_csv] replaces the frame or raises.  [clean_column] is the pure
      effect of one column on the frame.
    - [Sentiment.v], module [Sentiment]: the object ([sentiment_analysis]),
      labellers, analyses and [get_text_columns], with the NLP backends
      as section parameters.
    - [Select.v], module [Select]: the object of either analysis class
      ([analysis], built by [init1], [init2] as in [__init__]), both
      [select_variable] methods and their input loop [read_valid].
    - [Grouping.v], module [Grouping]: the pandas row selections the
      tests receive: cells as keys ([value]), [df[[x, k]].dropna()]
      ([present_pairs]), [groupby] with its sorted keys, and
      [pd.crosstab] ([crosstab], a [table] of counts).
    - [Stats.v]: the test dispatchers of both analysis classes against
      the class [StatsLib] of [scipy.stats] functions;
      [chi2_contingency] receives the counts of the crosstab.
    - [Menu.v], module [Menu]: [main], the four menus and their loop
      bodies, against the class [Runtime] ([read_csv], [to_numeric], the
      Series statistics, the NLP backends).

    ** What the theorems show

    - Data inspection: [classify_columns] terminates without raising
      and refines the pure fold of [clean_column].  The policy, the
      imputation values and the loop invariant hold: the kept columns,
      same length, no missing cell.  The report of
      [classify_and_calculate] returns what it prints, with the plot of
      its branch.
    - Classification: both dict-building loops implement the abstract
      classifier.  The thresholds are exact ([< 20] on [nunique], [<= 10]
      on [len(unique())], which counts NaN), and the two meanings of
      ['nominal'] are disjoint.  Both dicts are well typed: one key per
      column, in order, and a numeric label exactly for numeric columns.
    - Selection: the first eligible line is returned and earlier lines
      are rejected.  With nothing eligible, [DataAnalysis2] returns
      [None] when skipping is allowed and otherwise raises [ValueError]
      before reading, and [DataAnalysis1] rejects the rest of the input.
    - Tests: the normality dispatch is the same in both classes (Shapiro
      up to the limit).  [hypothesis_test] runs Kruskal-Wallis iff the
      column is skewed, on groups that partition the complete rows;
      [t_test_or_mannwhitney] has one group per present key, its
      non-empty groups being those of [hypothesis_test].
      [chi_square_test] runs on the crosstab of its two columns, which
      keeps every complete row and has no zero margin.  Above 2000
      samples the t-test dispatch always raises [ValueError].
      Regression samples are equal-length prefixes, row aligned when
      NaNs are in the same rows, and misaligned from the first row where
      only [x] is missing.
    - Sentiment: the three threshold labellings (one theorem), and the
      two loops of [get_text_columns] equal to the summary of the text
      columns written out in one pass.
    - Program: [main] terminates on every input.  The script ([script],
      the [__main__] entry) exits with status 1 on a file that does not
      load, and otherwise runs the main menu; invalid choices re-prompt;
      exit works.  With no nominal column, Analysis 2 ends the
      program.  With no interval column, Analysis 1 never returns to a
      menu.  A missing transformers library is reported and recovered.
      A header-only text column first in the table ends the program
      from Data Inspection with [KeyError: 0] ([mode()[0]]).
    - Composition: the Data Inspection loop is safe on every input: it
      never changes the cleaned table, and it plots or computes only on
      columns of the right dtype.  Option 2 of Statistical Analysis 1
      runs Kruskal-Wallis exactly when the chosen interval column's
      skewness exceeds 1 in absolute value.  Option 3 of Statistical
      Analysis 2 accepts the same nominal column twice and tests it
      against itself on a diagonal table.  The sentiment tables are
      row-aligned.  A concrete session ([inspection_cleans_a_copy])
      shows that Data Inspection cleans a copy that the analyses never
      see.

    ** Bounds and fuel

    The input loops of the selectors recurse on the list of remaining
    input lines, so they are structurally total.  A [while True] menu loop
    is [loop_fuel] with one iteration more than the number of input lines
    left.  Every menu body reads its choice before it asks to continue,
    so that bound is never reached ([while_no_oof]), and [while_unfold]
    gives the loop its Python meaning.  Numbers are exact rationals
    ([Qc], canonical so that equality is Leibniz).  The t-test size limit
    2000 and the thresholds 20 and 10 are the constants of the code.

    ** Not modelled

    Floating-point rounding of pandas and scipy; the matplotlib and
    seaborn calls inside the plot methods (a plot is one event, and is
    not rendered); the numeric results of the statistical tests and NLP
    models (abstract functions); CSV parsing ([read_csv] is abstract),
    the parsing rules of [pd.to_numeric] and the numeric Series
    statistics [corr], [std], [kurt], [skew] (fields of [Runtime]); the
    import lines, which only bind library names;
    [DataInspection.__init__] ([self.df = None]), since [main.py] sets
    [di.df] before any method runs and [with_state] starts from that
    table.
    [DataInspection.load_csv] is modelled, but [main.py] never calls it.
    Printed messages are events, not strings.  Strings are lists of
    bytes, so an entry's length is Python's [len] only for ASCII text.
    [pd.to_numeric] turns a present string into a number or fails; its
    mapping of [''] to NaN is not represented, since a default
    [read_csv] never yields an empty string.  The chained in-place
    [self.df[col].fillna(..., inplace=True)] is modelled as updating
    [self.df], which pandas 2 does and pandas 3 (copy-on-write) does not.
    scipy's own errors on fewer than two groups are not represented.
*)

From stdpp Require Export base list sets strings numbers sorting.
From Stdlib Require Export QArith Qcanon.

(** [Qcanon] opens [Qc_scope] globally; numbers of the model are written
    with an explicit [%Qc], and [nat] stays the default elsewhere. *)
Close Scope Qc_scope.
Close Scope Q_scope.
Open Scope nat_scope.

Declare Scope eda_scope.
Delimit Scope eda_scope with eda.
Open Scope eda_scope.

Create HintDb eda.
Create Rewrite HintDb eda_rw.

(** ** Python dictionaries as insertion-ordered association lists *)

(** A Python [dict] keeps its keys in insertion order; [d[k] = v] on a
    present key replaces the value in place. *)
Section Dict.
Context {K V : Type} `{EqDecision K}.
Implicit Types (d : list (K * V)) (k : K) (v : V).

Fixpoint dict_set d k v : list (K * V) :=
  match d with
  | [] => [(k, v)]
  | (k', v') :: d' =>
      if decide (k = k') then (k, v) :: d' else (k', v') :: dict_set d' k v
  end.

Fixpoint dict_get d k : option V :=
  match d with
  | [] => None
  | (k', v') :: d' => if decide (k = k') then Some v' else dict_get d' k
  end.

Definition dict_keys d : list K := map fst d.
End Dict.

(** Python's [x in xs] on a list. *)
Definition py_in {A} `{EqDecision A} (x : A) (xs : list A) : bool :=
  bool_decide (x ∈ xs).

(** Case analysis on every [bool_decide] and [decide] of the goal. *)
Ltac eda_cases :=
  repeat first [case_bool_decide | case_decide | case_match];
  simplify_eq/=.

(** ** Lemmas on dictionaries *)
Section DictLemmas.
Context {K V : Type} `{EqDecision K}.
Implicit Types (d : list (K * V)) (k : K) (v : V).

Lemma dict_get_set_eq d k v : dict_get (dict_set d k v) k = Some v.
Proof.
  induction d as [|[k' v'] d IH]; simpl; [by rewrite decide_True|].
  case_decide; simpl; [by rewrite decide_True|].
  by rewrite decide_False.
Qed.

Lemma dict_get_set_ne d k k2 v :
  k ≠ k2 → dict_get (dict_set d k v) k2 = dict_get d k2.
Proof.
  intros Hne. induction d as [|[k' v'] d IH]; simpl.
  - by rewrite decide_False.
  - case_decide as Hk; simplify_eq; simpl.
    + by rewrite !decide_False.
    + by case_decide.
Qed.

Lemma dict_keys_set_in d k v :
  k ∈ dict_keys d → dict_keys (dict_set d k v) = dict_keys d.
Proof.
  induction d as [|[k' v'] d IH]; simpl; [by intros ?%elem_of_nil|].
  intros Hin. case_decide; simplify_eq; simpl; [done|].
  rewrite IH; [done|]. apply elem_of_cons in Hin as [->|]; [done|done].
Qed.

Lemma dict_keys_set_notin d k v :
  k ∉ dict_keys d → dict_keys (dict_set d k v) = dict_keys d ++ [k].
Proof.
  induction d as [|[k' v'] d IH]; simpl; [done|].
  intros Hin. rewrite decide_False; [|set_solver]. simpl.
  rewrite IH; [done|set_solver].
Qed.

Lemma dict_set_notin d k v : k ∉ dict_keys d → dict_set d k v = d ++ [(k, v)].
Proof.
  induction d as [|[k' v'] d IH]; simpl; [done|].
  intros Hk. rewrite decide_False by set_solver. rewrite IH; [done|set_solver].
Qed.

Lemma dict_get_elem d k v : NoDup (dict_keys d) → (k, v) ∈ d → dict_get d k = Some v.
Proof.
  induction d as [|[k' v'] d IH]; simpl; [by intros _ ?%elem_of_nil|].
  intros Hnd Hin. apply NoDup_cons in Hnd as [Hk' Hnd].
  apply elem_of_cons in Hin as [Heq|Hin]; [simplify_eq; by rewrite decide_True|].
  rewrite decide_False; [by apply IH|].
  intros ->. apply Hk'. apply list_elem_of_fmap. by eexists (_, v).
Qed.

Lemma dict_get_Some_elem d k v : dict_get d k = Some v → (k, v) ∈ d.
Proof.
  induction d as [|[k' v'] d IH]; simpl; [done|].
  case_decide; intros Hg; simplify_eq; [left|right; auto].
Qed.

Lemma dict_set_get d k v : dict_get d k = Some v → dict_set d k v = d.
Proof.
  induction d as [|[k' v'] d IH]; simpl; [done|].
  case_decide; intros Hg; simplify_eq; [done|]. by rewrite IH.
Qed.

Lemma dict_set_set d k v v' : dict_set (dict_set d k v) k v' = dict_set d k v'.
Proof.
  induction d as [|[k' w] d IH]; simpl; [by rewrite decide_True|].
  case_decide; simpl; [by rewrite decide_True|]. rewrite decide_False by done. by rewrite IH.
Qed.

Lemma dict_get_cons k' v' d k :
  dict_get ((k', v') :: d) k = if decide (k = k') then Some v' else dict_get d k.
Proof. done. Qed.

(** [del]-like removal of every entry of a key. *)
Lemma dict_get_filter_key d k k2 :
  dict_get (filter (λ p : K * V, p.1 ≠ k) d) k2 = if decide (k = k2) then None else dict_get d k2.
Proof.
  induction d as [|[k' v'] d IH]; [simpl; by case_decide|].
  rewrite filter_cons. destruct (decide ((k', v').1 ≠ k)) as [Hk|Hk];
    rewrite ?dict_get_cons, IH, ?dict_get_cons; simpl in Hk.
  - repeat case_decide; congruence.
  - assert (k' = k) as -> by (destruct (decide (k' = k)); [done|tauto]).
    repeat case_decide; congruence.
Qed.

End DictLemmas.

(** [for k in src.keys(): d[k] = f(src[k])], starting from an empty
    dict, over a source whose keys are distinct: one entry per key, in
    the source's order. *)
Lemma dict_fold_lookup {K V W} `{EqDecision K} (src : list (K * W)) (f : W → V) :
  NoDup (dict_keys src) →
  foldl (λ acc k, match dict_get src k with
                  | Some w => dict_set acc k (f w) | None => acc end) [] (dict_keys src)
  = map (λ p, (p.1, f p.2)) src.
Proof.
  intros Hnd.
  cut (∀ l acc, (∀ p, p ∈ l → dict_get src p.1 = Some p.2) →
                NoDup (dict_keys acc ++ map fst l) →
                foldl (λ acc k, match dict_get src k with
                                | Some w => dict_set acc k (f w) | None => acc end)
                      acc (map fst l) = acc ++ map (λ p, (p.1, f p.2)) l).
  { intros Hgen. apply Hgen; [|done]. intros [k w] Hin. by apply dict_get_elem. }
  induction l as [|[k w] l IH]; intros acc Hl Hnd'; simpl; [by rewrite app_nil_r|].
  pose proof (Hl (k, w) ltac:(left)) as Hkw. simpl in Hkw, Hnd'. rewrite Hkw.
  rewrite dict_set_notin.
  - rewrite IH, <-app_assoc; [done| |].
    + intros p Hp. apply Hl. by right.
    + unfold dict_keys in *. by rewrite map_app, <-app_assoc.
  - intros Hin. apply NoDup_app in Hnd' as (_ & Hdis & _). apply (Hdis k Hin). left.
Qed.

#[export] Hint Rewrite @dict_get_set_eq : eda_rw.

(** ** Generic list facts shared by the components *)

#[export] Hint Resolve list.length_filter : eda.

Lemma py_in_true {A} `{EqDecision A} (x : A) xs : py_in x xs = true ↔ x ∈ xs.
Proof. unfold py_in. apply bool_decide_eq_true. Qed.

#[export] Hint Rewrite @py_in_true : eda_rw.


Lemma filter_all_true {A} (P : A → Prop) `{∀ x, Decision (P x)} (l : list A) :
  (∀ x, x ∈ l → P x) → filter P l = l.
Proof.
  induction l as [|x l IH]; intros Hall; [done|].
  rewrite filter_cons_True by (apply Hall; left). f_equal. apply IH. intros y Hy. apply Hall. by right.
Qed.

Lemma filter_ext_in {A} (P1 P2 : A → Prop) `{∀ x, Decision (P1 x)} `{∀ x, Decision (P2 x)}
    (l : list A) :
  (∀ x, x ∈ l → P1 x ↔ P2 x) → filter P1 l = filter P2 l.
Proof.
  induction l as [|x l IH]; intros Hall; [done|]. rewrite !filter_cons.
  assert (P1 x ↔ P2 x) as Hx by (apply Hall; left).
  rewrite IH by (intros y Hy; apply Hall; by right).
  destruct (decide (P1 x)), (decide (P2 x)); naive_solver.
Qed.

(** ** Sorted lists of distinct elements *)

(** Under a total order, a sorted list is determined by its elements:
    sorting commutes with filtering, and two duplicate-free lists with
    the same members sort to the same list. *)
Section SortedSets.
Context {A : Type} (R : relation A) `{!base.PartialOrder R, !Total R, !RelDecision R}.

Lemma StronglySorted_filter (P : A → Prop) `{∀ x, Decision (P x)} l :
  StronglySorted R l → StronglySorted R (filter P l).
Proof.
  induction 1 as [|x l _ IH Hx]; [constructor|]. rewrite filter_cons.
  case_decide; [|done]. constructor; [done|].
  apply Forall_forall. intros y [_ Hy]%list_elem_of_filter. by eapply Forall_forall.
Qed.

Lemma StronglySorted_merge_sort' l : StronglySorted R (merge_sort R l).
Proof. apply Sorted_StronglySorted, Sorted_merge_sort; apply _. Qed.

Lemma filter_merge_sort (P : A → Prop) `{∀ x, Decision (P x)} l :
  filter P (merge_sort R l) = merge_sort R (filter P l).
Proof.
  apply (StronglySorted_unique R); [by apply StronglySorted_filter, StronglySorted_merge_sort'
    |apply StronglySorted_merge_sort'|].
  by rewrite !merge_sort_Permutation.
Qed.

Lemma merge_sort_set_eq l1 l2 :
  NoDup l1 → NoDup l2 → (∀ x, x ∈ l1 ↔ x ∈ l2) → merge_sort R l1 = merge_sort R l2.
Proof.
  intros ???. apply (StronglySorted_unique R); [apply StronglySorted_merge_sort'..|].
  rewrite !merge_sort_Permutation. by apply NoDup_Permutation.
Qed.

End SortedSets.

(** [[f(k) for k in keys if f(k)]]-style filtering after a map. *)
Lemma filter_map_comm {A B} (P : B → Prop) `{∀ x, Decision (P x)} (f : A → B) l :
  filter P (map f l) = map f (filter (λ x, P (f x)) l).
Proof. induction l as [|x l IH]; [done|]. simpl. rewrite !filter_cons. case_decide; simpl; by f_equal. Qed.

(** Splitting rows by a key over a duplicate-free list of keys that
    covers them is a permutation of the rows. *)
Lemma concat_filter_by {A B} `{EqDecision B} (f : A → B) (l : list A) (keys : list B) :
  NoDup keys → (∀ x, x ∈ l → f x ∈ keys) →
  concat (map (λ k, filter (λ x, f x = k) l) keys) ≡ₚ l.
Proof.
  revert l. induction keys as [|k ks IH]; intros l Hnd Hcov; simpl.
  - destruct l as [|x l]; [done|]. destruct (not_elem_of_nil (f x)). apply Hcov. left.
  - apply NoDup_cons in Hnd as [Hk Hnd].
    rewrite (map_ext_in _ (λ k', filter (λ x, f x = k') (filter (λ x, ¬ f x = k) l))).
    + rewrite IH; [by rewrite filter_app_complement|done|].
      intros x [Hne Hx]%list_elem_of_filter. apply Hcov, elem_of_cons in Hx as [|]; tauto.
    + intros k' Hk'. rewrite list_filter_filter. apply filter_ext_in. intros x _.
      split; [|tauto]. intros Heq. split; [done|]. intros Heq'. apply Hk.
      rewrite <-Heq', Heq. by apply list_elem_of_In.
Qed.

Lemma concat_filter_keys {A B} `{EqDecision B} (rows : list (A * B)) (keys : list B) :
  NoDup keys → (∀ r, r ∈ rows → r.2 ∈ keys) →
  concat (map (λ k, filter (λ r : A * B, r.2 = k) rows) keys) ≡ₚ rows.
Proof. apply (concat_filter_by snd). Qed.

Lemma sum_list_with_map {A B} (f : B → nat) (g : A → B) (l : list A) :
  sum_list_with f (map g l) = sum_list_with (f ∘ g) l.
Proof. induction l as [|x l IH]; simpl; [done|]. by rewrite IH. Qed.

Lemma sum_list_with_ext_in {A} (f g : A → nat) (l : list A) :
  (∀ x, x ∈ l → f x = g x) → sum_list_with f l = sum_list_with g l.
Proof.
  induction l as [|x l IH]; intros Hfg; simpl; [done|].
  rewrite Hfg, IH; [done| |left]. intros y Hy. apply Hfg. by right.
Qed.

(** A filter keeps a witness, so it is not empty. *)
Lemma filter_length_pos {A} (P : A → Prop) `{∀ x, Decision (P x)} (l : list A) x :
  x ∈ l → P x → 0 < length (filter P l).
Proof.
  intros Hx HP. destruct (filter P l) eqn:E; simpl; [|lia].
  by destruct (filter_nil_not_elem_of P l x E).
Qed.

(** Counting the elements of [l] by a key: over distinct keys that
    cover [l], the counts add up to [length l]. *)
Lemma count_by_keys {A B} `{EqDecision B} (f : A → B) (l : list A) (keys : list B) :
  NoDup keys → (∀ x, x ∈ l → f x ∈ keys) →
  sum_list_with (λ k, length (filter (λ x, f x = k) l)) keys = length l.
Proof.
  intros Hnd Hcov. transitivity (length (concat (map (λ k, filter (λ x, f x = k) l) keys))).
  - clear. induction keys as [|k ks IH]; simpl; [done|]. by rewrite length_app, IH.
  - by rewrite (concat_filter_by f l keys Hnd Hcov).
Qed.

(** [omap] through a [filter], a [map] and pointwise equal functions. *)
Lemma omap_filter {A B} (P : A → Prop) `{∀ x, Decision (P x)} (f : A → option B) (l : list A) :
  omap f (filter P l) = omap (λ x, if decide (P x) then f x else None) l.
Proof.
  induction l as [|x l IH]; [done|]. rewrite filter_cons.
  case_decide; simpl; rewrite ?decide_True, ?decide_False by done;
    [destruct (f x)|]; first [exact IH | f_equal; exact IH].
Qed.

Lemma omap_map {A B C} (f : B → option C) (h : A → B) (l : list A) :
  omap f (map h l) = omap (f ∘ h) l.
Proof. induction l as [|x l IH]; [done|]. simpl. destruct (f (h x)); [f_equal|]; exact IH. Qed.

Lemma omap_ext_in {A B} (f g : A → option B) (l : list A) :
  (∀ x, x ∈ l → f x = g x) → omap f l = omap g l.
Proof.
  induction l as [|x l IH]; intros Hfg; [done|]. simpl.
  assert (omap f l = omap g l) as Hl by (apply IH; intros y Hy; apply Hfg; by right).
  rewrite Hfg by left. destruct (g x); [f_equal|]; exact Hl.
Qed.

(** A decidable proposition about concrete data, settled by evaluation. *)
Ltac eval_decide := apply (bool_decide_unpack _); vm_compute; reflexivity.
