(* ===== verification/Frame.v ===== *)
(** * Frame: the pandas data model

    A pandas [Series] is a column of cells; a [DataFrame] an ordered list
    of named columns.  Only the two storage kinds the program
    distinguishes are modelled: numeric columns (int64/float64, where
    pandas stores a missing value as NaN, here [None]) and object
    columns of strings (missing value [None]).  This file defines the
    Series and DataFrame operations that [src/] calls ([isnull().sum()],
    [nunique()], [unique()], [median()], [mean()], [mode()[0]],
    [fillna], [drop], [df[col] = ...]) and the lemmas the components
    share about them. *)

From S2P Require Import Prelude.

Module Series.

(** A column with its dtype: [pd.api.types.is_numeric_dtype] holds
    exactly of [NumCol]; [dtype == object] exactly of [ObjCol]. *)
Inductive column : Type :=
| NumCol (cells : list (option Qc))
| ObjCol (cells : list (option string)).

Definition is_numeric_dtype (c : column) : bool :=
  match c with NumCol _ => true | ObjCol _ => false end.

Definition col_len (c : column) : nat :=
  match c with NumCol xs => length xs | ObjCol xs => length xs end.

(** [s.dropna()]: the non-missing values, in order. *)
Fixpoint dropna {A} (xs : list (option A)) : list A :=
  match xs with
  | [] => []
  | Some x :: xs' => x :: dropna xs'
  | None :: xs' => dropna xs'
  end.

(** [s.isnull().sum()]. *)
Definition isnull_sum {A} (xs : list (option A)) : nat :=
  length (filter (λ o, o = None) xs).

(** [s.nunique()]: distinct non-missing values ([dropna=True]). *)
Definition nunique {A} `{EqDecision A} (xs : list (option A)) : nat :=
  length (remove_dups (dropna xs)).

(** [len(s.unique())]: distinct values, NaN counted once as a value. *)
Definition unique_len {A} `{EqDecision A} (xs : list (option A)) : nat :=
  length (remove_dups xs).

Definition col_isnull_sum (c : column) : nat :=
  match c with NumCol xs => isnull_sum xs | ObjCol xs => isnull_sum xs end.

Definition col_nunique (c : column) : nat :=
  match c with NumCol xs => nunique xs | ObjCol xs => nunique xs end.

Definition col_unique_len (c : column) : nat :=
  match c with NumCol xs => unique_len xs | ObjCol xs => unique_len xs end.

(** [s.median()] over the non-missing values: the middle element of
    the sorted values, or the mean of the two middle ones; NaN
    ([None]) for no values. *)
Definition median (xs : list Qc) : option Qc :=
  let s := merge_sort Qcle xs in
  let n := length s in
  match n with
  | 0 => None
  | _ =>
      if Nat.odd n then s !! (n / 2)
      else match s !! (n / 2 - 1), s !! (n / 2) with
           | Some a, Some b => Some (Qcdiv (a + b) (Q2Qc 2))%Qc
           | _, _ => None
           end
  end.

(** [s.mean()] over the non-missing values; NaN for no values. *)
Definition mean (xs : list Qc) : option Qc :=
  match xs with
  | [] => None
  | _ => Some (Qcdiv (foldr Qcplus 0%Qc xs) (Qc_of_Z (Z.of_nat (length xs))))
  end.

(** [s.mode()]: the values of maximal multiplicity, sorted; [mode()[0]]
    is the least of them and raises on an empty result ([None]). *)
Section Mode.
Context {A : Type} `{EqDecision A} (R : relation A) `{!RelDecision R}.

Definition occurrences (x : A) (l : list A) : nat :=
  length (filter (λ y, y = x) l).

Definition max_occurrences (l : list A) : nat :=
  foldr (λ x m, occurrences x l `max` m) 0 l.

Definition modes (l : list A) : list A :=
  merge_sort R (remove_dups (filter (λ x, occurrences x l = max_occurrences l) l)).

Definition mode_first (l : list A) : option A := head (modes l).
End Mode.

(** [s.fillna(v)]: every missing cell replaced by [v]; filling with NaN
    ([v = None]) changes nothing. *)
Definition fillna {A} (v : option A) (xs : list (option A)) : list (option A) :=
  map (λ o, match o with None => v | Some x => Some x end) xs.

End Series.

Module DataFrame.
Import Series.

(** A frame: its columns in order, [df.columns] being the names. *)
Definition frame : Type := list (string * column).

Definition columns (df : frame) : list string := map fst df.

(** [df[c]]: [None] is the [KeyError] of a missing label. *)
Definition frame_get (df : frame) (c : string) : option column := dict_get df c.

(** [df[c] = v]: replaces the column in place. *)
Definition frame_set (df : frame) (c : string) (v : column) : frame := dict_set df c v.

(** [df.drop(columns=[c], inplace=True)]. *)
Definition frame_drop (df : frame) (c : string) : frame :=
  filter (λ p : string * column, p.1 ≠ c) (df : list (string * column)) : list (string * column).

(** Every column has [n] rows. *)
Definition rectangular (n : nat) (df : frame) : Prop :=
  Forall (λ p, col_len p.2 = n) df.

(** A table used by the examples of the development: a numeric column
    with a missing cell, and a text column. *)
Definition example_ages : column := NumCol [Some (Qc_of_Z 22); Some (Qc_of_Z 25); None].
Definition example_cities : column := ObjCol [Some "Oslo"; Some "Rome"; Some "Oslo"]%string.
Definition example_frame : frame := [("age", example_ages); ("city", example_cities)]%string.

End DataFrame.

(** ** Lemmas on the Series operations *)

Module SeriesFacts.
Import Series.

Lemma length_fillna {A} (v : option A) xs : length (fillna v xs) = length xs.
Proof. apply length_map. Qed.

(** Filling with a value leaves no missing cell. *)
Lemma fillna_no_null {A} (v : A) xs : None ∉ fillna (Some v) xs.
Proof.
  unfold fillna. rewrite list_elem_of_fmap. intros (o & Ho & _).
  destruct o; discriminate.
Qed.

Lemma isnull_sum_fillna {A} (v : A) xs : isnull_sum (fillna (Some v) xs) = 0.
Proof.
  unfold isnull_sum, fillna. induction xs as [|[x|] xs IH]; simpl; [done| |];
    rewrite filter_cons; case_decide; done.
Qed.

(** Present values are kept, in place. *)
Lemma fillna_lookup {A} (v : option A) xs i x :
  xs !! i = Some (Some x) → fillna v xs !! i = Some (Some x).
Proof. unfold fillna. rewrite list_lookup_fmap. by intros ->. Qed.

Lemma fillna_lookup_None {A} (v : option A) xs i :
  xs !! i = Some None → fillna v xs !! i = Some v.
Proof. unfold fillna. rewrite list_lookup_fmap. by intros ->. Qed.

Lemma elem_of_dropna {A} (x : A) xs : x ∈ dropna xs ↔ Some x ∈ xs.
Proof.
  induction xs as [|[y|] xs IH]; simpl; rewrite ?elem_of_cons, ?IH;
    [split; intros ?%not_elem_of_nil; done|naive_solver|naive_solver].
Qed.

Lemma dropna_fillna_None {A} (xs : list (option A)) : fillna None xs = xs.
Proof. unfold fillna. induction xs as [|[] xs IH]; simpl; by rewrite ?IH. Qed.

#[export] Hint Rewrite @length_fillna @isnull_sum_fillna @dropna_fillna_None : eda_rw.

(** The distinct cells of a column are its distinct present values,
    plus NaN once when some cell is missing. *)
Lemma remove_dups_options {A} `{EqDecision A} (xs : list (option A)) :
  remove_dups xs ≡ₚ (if bool_decide (None ∈ xs) then [None] else [])
                      ++ map Some (remove_dups (dropna xs)).
Proof.
  apply NoDup_Permutation; [apply NoDup_remove_dups| |].
  - apply NoDup_app. split_and!.
    + case_bool_decide; [apply NoDup_singleton|apply NoDup_nil_2].
    + intros o Ho. case_bool_decide; [|set_solver].
      apply list_elem_of_singleton in Ho as ->. rewrite list_elem_of_fmap.
      intros (y & ? & _); discriminate.
    + apply NoDup_fmap; [congruence|apply NoDup_remove_dups].
  - intros o. rewrite elem_of_remove_dups, elem_of_app, list_elem_of_fmap.
    setoid_rewrite elem_of_remove_dups. setoid_rewrite elem_of_dropna.
    destruct o as [x|]; case_bool_decide; set_solver.
Qed.

Theorem unique_len_nunique {A} `{EqDecision A} (xs : list (option A)) :
  unique_len xs = nunique xs + (if bool_decide (None ∈ xs) then 1 else 0).
Proof.
  unfold unique_len, nunique. rewrite (Permutation_length (remove_dups_options xs)).
  rewrite length_app, length_map. case_bool_decide; simpl; lia.
Qed.

Lemma nunique_le_unique_len {A} `{EqDecision A} (xs : list (option A)) :
  nunique xs ≤ unique_len xs.
Proof. rewrite unique_len_nunique. lia. Qed.

(** The sorted values depend only on the multiset of values. *)
Lemma merge_sort_Qcle_perm (xs ys : list Qc) :
  xs ≡ₚ ys → merge_sort Qcle xs = merge_sort Qcle ys.
Proof.
  intros Hp. apply (Sorted_unique Qcle); [apply Sorted_merge_sort, Qc_le_total..|].
  eapply Permutation_trans; [apply merge_sort_Permutation|].
  eapply Permutation_trans; [exact Hp|].
  apply Permutation_sym, merge_sort_Permutation.
Qed.

(** [median] does not depend on the order of the rows. *)
Theorem median_Permutation (xs ys : list Qc) : xs ≡ₚ ys → median xs = median ys.
Proof. intros Hp. unfold median. by rewrite (merge_sort_Qcle_perm xs ys Hp). Qed.

Lemma median_None (xs : list Qc) : median xs = None ↔ xs = [].
Proof.
  unfold median. split; [|by intros ->].
  pose proof (merge_sort_Permutation Qcle xs) as Hp.
  destruct (merge_sort Qcle xs) as [|a s]; [intros _; by apply Permutation_nil|].
  intros Hm. exfalso. revert Hm.
  change (length (a :: s)) with (S (length s)). cbv zeta iota.
  remember (S (length s)) as n eqn:Hn. assert (n / 2 < n) by (apply Nat.div_lt; lia).
  destruct (Nat.odd n).
  - intros Hm%lookup_ge_None. cbn [length] in Hm. lia.
  - destruct ((a :: s) !! (n / 2 - 1)) eqn:E1; [|apply lookup_ge_None in E1; cbn [length] in E1; lia].
    destruct ((a :: s) !! (n / 2)) eqn:E2; [discriminate|].
    apply lookup_ge_None in E2; cbn [length] in E2; lia.
Qed.

(** Every cell is either missing or a present value. *)
Lemma isnull_sum_dropna {A} (xs : list (option A)) :
  isnull_sum xs + length (dropna xs) = length xs.
Proof.
  unfold isnull_sum. induction xs as [|[x|] xs IH]; [done| |];
    rewrite filter_cons; case_decide; try congruence; cbn [dropna length]; lia.
Qed.

Lemma fillna_None_free {A} (v : option A) xs :
  (v = None → None ∉ xs) → None ∉ fillna v xs.
Proof.
  intros Hv. unfold fillna. rewrite list_elem_of_fmap. intros ([x|] & Ho & Hin); [done|].
  subst v. by apply Hv.
Qed.

Lemma isnull_sum_0 {A} (xs : list (option A)) : isnull_sum xs = 0 ↔ None ∉ xs.
Proof.
  unfold isnull_sum. rewrite length_zero_iff_nil. split.
  - intros Hf Hin. by eapply filter_nil_not_elem_of; [exact Hf| |exact Hin].
  - induction xs as [|o xs IH]; [done|]. rewrite not_elem_of_cons. intros [Ho Hn].
    rewrite filter_cons. case_decide; [done|]. by apply IH.
Qed.

(** Some element reaches the maximum of a nonempty list of counts. *)
Lemma foldr_max_reached {A} (f : A → nat) (l : list A) :
  l ≠ [] → ∃ x, x ∈ l ∧ f x = foldr (λ x m, f x `max` m) 0 l.
Proof.
  induction l as [|y l IH]; [done|]. intros _. simpl.
  destruct l as [|z l].
  - exists y. split; [left|simpl; lia].
  - destruct IH as (x & Hx & Hfx); [done|].
    destruct (Nat.max_spec (f y) (foldr (λ x m, f x `max` m) 0 (z :: l))) as [[? ->]|[? ->]].
    + exists x. split; [by right|done].
    + exists y. split; [left|done].
Qed.

Lemma foldr_max_bound {A} (f : A → nat) (l : list A) x :
  x ∈ l → f x ≤ foldr (λ x m, f x `max` m) 0 l.
Proof.
  induction l as [|y l IH]; [by intros ?%not_elem_of_nil|].
  rewrite elem_of_cons. intros [->|Hx]; simpl; [lia|]. specialize (IH Hx). lia.
Qed.

Section ModeFacts.
Context {A : Type} `{EqDecision A} (R : relation A) `{!RelDecision R}
  `{!base.PartialOrder R} `{!Total R}.

Lemma elem_of_modes (l : list A) x :
  x ∈ modes R l ↔ x ∈ l ∧ occurrences x l = max_occurrences l.
Proof.
  unfold modes. rewrite (merge_sort_Permutation R _), elem_of_remove_dups, list_elem_of_filter.
  naive_solver.
Qed.

(** [mode()[0]] exists for a nonempty list. *)
Lemma mode_first_Some (l : list A) : l ≠ [] → is_Some (mode_first R l).
Proof.
  intros Hl. destruct (foldr_max_reached (λ x, occurrences x l) l Hl) as (x & Hx & Hmax).
  assert (x ∈ modes R l) as Hm by (apply elem_of_modes; split; [done|apply Hmax]).
  unfold mode_first. destruct (modes R l); [by apply not_elem_of_nil in Hm|]. by eexists.
Qed.

(** [mode()[0]] is a most frequent value, and the least of those. *)
Lemma mode_first_spec (l : list A) m :
  mode_first R l = Some m →
  m ∈ l ∧ (∀ y, y ∈ l → occurrences y l ≤ occurrences m l) ∧
  (∀ y, y ∈ l → occurrences y l = occurrences m l → R m y).
Proof.
  unfold mode_first. intros Hh.
  assert (m ∈ modes R l) as Hm.
  { destruct (modes R l); simplify_eq/=. left. }
  apply elem_of_modes in Hm as [Hin Hocc]. split_and!; [done| |].
  - intros y Hy. rewrite Hocc. by apply (foldr_max_bound (λ x, occurrences x l)).
  - intros y Hy Hyo. assert (y ∈ modes R l) as Hym by (apply elem_of_modes; split; [done|lia]).
    pose proof (StronglySorted_merge_sort R
      (remove_dups (filter (λ x, occurrences x l = max_occurrences l) l))) as Hs.
    unfold modes in Hh, Hym. destruct (merge_sort R _) as [|h t]; simplify_eq/=.
    apply elem_of_cons in Hym as [->|Hyt]; [reflexivity|].
    apply StronglySorted_inv in Hs as [_ Hall]. rewrite Forall_forall in Hall. by apply Hall.
Qed.
End ModeFacts.

End SeriesFacts.

(** ** Lemmas on the frame operations *)

Module FrameFacts.
Import Series DataFrame.

Lemma frame_get_set_eq (df : frame) c v : frame_get (frame_set df c v) c = Some v.
Proof. apply dict_get_set_eq. Qed.

Lemma frame_get_set_ne (df : frame) c c' v :
  c ≠ c' → frame_get (frame_set df c v) c' = frame_get df c'.
Proof. apply dict_get_set_ne. Qed.

Lemma frame_get_drop (df : frame) c c' :
  frame_get (frame_drop df c) c' = if decide (c = c') then None else frame_get df c'.
Proof. apply dict_get_filter_key. Qed.

Lemma frame_set_get (df : frame) c v : frame_get df c = Some v → frame_set df c v = df.
Proof. apply dict_set_get. Qed.

Lemma frame_set_set (df : frame) c v v' : frame_set (frame_set df c v) c v' = frame_set df c v'.
Proof. apply dict_set_set. Qed.

Lemma frame_get_elem (df : frame) c v : frame_get df c = Some v → (c, v) ∈ df.
Proof. apply dict_get_Some_elem. Qed.

Lemma frame_get_None (df : frame) c : frame_get df c = None ↔ c ∉ columns df.
Proof.
  unfold frame_get, columns. induction df as [|[k v] df IH]; simpl.
  - split; [intros _; apply not_elem_of_nil|done].
  - rewrite not_elem_of_cons. case_decide; [naive_solver|]. rewrite IH. naive_solver.
Qed.

Lemma frame_get_in (df : frame) c : c ∈ columns df → ∃ v, frame_get df c = Some v.
Proof.
  intros Hin. destruct (frame_get df c) eqn:Hg; [by eexists|].
  by apply frame_get_None in Hg.
Qed.

Lemma rectangular_get n (df : frame) c v : rectangular n df → frame_get df c = Some v → col_len v = n.
Proof.
  unfold rectangular. rewrite Forall_forall. intros Hr Hg%frame_get_elem. by apply (Hr (c, v)).
Qed.

Lemma columns_set_in (df : frame) c v : c ∈ columns df → columns (frame_set df c v) = columns df.
Proof. apply dict_keys_set_in. Qed.

Lemma columns_drop (df : frame) c : columns (frame_drop df c) = filter (λ k, k ≠ c) (columns df).
Proof.
  unfold columns, frame_drop. induction df as [|[k v] df IH]; [done|].
  rewrite filter_cons. cbn [map]. rewrite filter_cons.
  destruct (decide ((k, v).1 ≠ c)) as [H1|H1]; destruct (decide (k ≠ c)) as [H2|H2];
    simpl in *; try tauto; cbn [map fst]; by rewrite IH.
Qed.

Lemma elem_of_frame_set (df : frame) c v p : p ∈ frame_set df c v → p = (c, v) ∨ p ∈ df.
Proof.
  unfold frame_set. induction df as [|[k w] df IH]; simpl.
  - rewrite list_elem_of_singleton. auto.
  - case_decide; rewrite !elem_of_cons; [naive_solver|]. intros [->|?%IH]; naive_solver.
Qed.

Lemma elem_of_frame_drop (df : frame) c p : p ∈ frame_drop df c ↔ p ∈ df ∧ p.1 ≠ c.
Proof. unfold frame_drop. rewrite list_elem_of_filter. naive_solver. Qed.

Lemma NoDup_columns_set (df : frame) c v :
  c ∈ columns df → NoDup (columns df) → NoDup (columns (frame_set df c v)).
Proof. intros Hin Hnd. by rewrite columns_set_in. Qed.

Lemma NoDup_columns_drop (df : frame) c :
  NoDup (columns df) → NoDup (columns (frame_drop df c)).
Proof. intros Hnd. rewrite columns_drop. by apply NoDup_filter. Qed.

(** Setting or dropping preserves a property of all columns as long as
    the new column has it. *)
Lemma Forall_frame_set (P : string * column → Prop) (df : frame) c v :
  Forall P df → P (c, v) → Forall P (frame_set df c v).
Proof.
  rewrite !Forall_forall. intros Hall Hcv p Hp.
  apply elem_of_frame_set in Hp as [->|]; auto.
Qed.

Lemma Forall_frame_drop (P : string * column → Prop) (df : frame) c :
  Forall P df → Forall P (frame_drop df c).
Proof. rewrite !Forall_forall. intros Hall p Hp%elem_of_frame_drop. naive_solver. Qed.

End FrameFacts.
