(* ===== verification/Classify.v ===== *)
(** * Classify: the two column classifiers

    [DataAnalysis1.list_column_types] ([src/data_analysis1.py]) and
    [DataAnalysis2.list_column_types] ([src/data_analysis2.py]) each build
    a dict from column name to one of four labels.  They differ in the
    threshold (strictly below 20 against at most 10), in the count
    ([nunique()], which skips NaN, against [len(unique())], which counts
    NaN as a value) and in which text label means low cardinality.
    [Spec] states the classifier of the specification (section 4.1) as a
    configuration; both source classifiers are shown to be instances of
    it. *)

From S2P Require Import Prelude Frame.
Import Series DataFrame.

(** The labels written into [column_types]. *)
Inductive col_type : Type :=
| NumericOrdinal      (** ['numeric ordinal'] *)
| Interval            (** ['interval'] *)
| NonNumericOrdinal   (** ['non-numeric ordinal'] *)
| Nominal.            (** ['nominal'] *)

#[export] Instance col_type_eq_dec : EqDecision col_type.
Proof. solve_decision. Defined.

(** ** The specification's classifier, with its parameters explicit *)
Module Spec.
Record config : Type := {
  threshold : nat;             (** low cardinality: count < threshold *)
  count : column → nat;        (** the distinct-value count used *)
  low_text : col_type;         (** label of a low-cardinality text column *)
  high_text : col_type         (** label of a high-cardinality text column *)
}.

Definition classify (cfg : config) (c : column) : col_type :=
  if is_numeric_dtype c then
    if bool_decide (count cfg c < threshold cfg) then NumericOrdinal else Interval
  else
    if bool_decide (count cfg c < threshold cfg) then low_text cfg else high_text cfg.

(** The mapping the specification promises: every column, in order,
    with its label. *)
Definition classify_frame (cfg : config) (df : frame) : list (string * col_type) :=
  map (λ p, (p.1, classify cfg p.2)) df.
End Spec.

(** ** [DataAnalysis1.list_column_types] *)
Module Analysis1.
Definition classify_column (c : column) : col_type :=
  if is_numeric_dtype c then
    if bool_decide (col_nunique c < 20) then NumericOrdinal else Interval
  else
    if bool_decide (col_nunique c < 20) then NonNumericOrdinal else Nominal.

(** [for column in self.df.columns: column_types[column] = ...] *)
Definition list_column_types (df : frame) : list (string * col_type) :=
  foldl (λ acc name,
           match frame_get df name with
           | Some c => dict_set acc name (classify_column c)
           | None => acc
           end) [] (columns df).

Definition config : Spec.config :=
  {| Spec.threshold := 20; Spec.count := col_nunique;
     Spec.low_text := NonNumericOrdinal; Spec.high_text := Nominal |}.
End Analysis1.

(** ** [DataAnalysis2.list_column_types] *)
Module Analysis2.
Definition classify_column (c : column) : col_type :=
  if is_numeric_dtype c then
    if bool_decide (col_unique_len c ≤ 10) then NumericOrdinal else Interval
  else
    if bool_decide (col_unique_len c ≤ 10) then Nominal else NonNumericOrdinal.

Definition list_column_types (df : frame) : list (string * col_type) :=
  foldl (λ acc name,
           match frame_get df name with
           | Some c => dict_set acc name (classify_column c)
           | None => acc
           end) [] (columns df).

Definition config : Spec.config :=
  {| Spec.threshold := 11; Spec.count := col_unique_len;
     Spec.low_text := Nominal; Spec.high_text := NonNumericOrdinal |}.
End Analysis2.

(** The labels meant for numeric columns. *)
Definition numeric_label (t : col_type) : bool :=
  match t with NumericOrdinal | Interval => true | NonNumericOrdinal | Nominal => false end.

(** ** Both loops build one entry per column, in column order *)
Section ColumnLoop.
Context (f : column → col_type).

Lemma column_loop_map (df : frame) :
  NoDup (columns df) →
  foldl (λ acc name, match frame_get df name with
                     | Some c => dict_set acc name (f c) | None => acc end) [] (columns df)
  = map (λ p, (p.1, f p.2)) df.
Proof. intros Hnd. by apply (dict_fold_lookup (V := col_type)). Qed.

Lemma column_loop_lookup (df : frame) name c :
  NoDup (columns df) → frame_get df name = Some c →
  dict_get (map (λ p, (p.1, f p.2)) df) name = Some (f c).
Proof.
  intros Hnd Hget. apply dict_get_elem.
  - unfold dict_keys. by rewrite map_map.
  - apply dict_get_Some_elem in Hget. apply list_elem_of_fmap. by exists (name, c).
Qed.
End ColumnLoop.

Lemma classify_frame_keys cfg (df : frame) : dict_keys (Spec.classify_frame cfg df) = columns df.
Proof. unfold dict_keys, Spec.classify_frame, columns. by rewrite map_map. Qed.

(** C5 The dict [DataAnalysis1.list_column_types] builds is the
    specification's classification with threshold 20 on [nunique()]:
    one entry per column, in column order, labelled by
    [Spec.classify Analysis1.config]. *)
Theorem analysis1_refines_spec (df : frame) :
  NoDup (columns df) →
  Analysis1.list_column_types df = Spec.classify_frame Analysis1.config df.
Proof. intros Hnd. by apply column_loop_map. Qed.

(** C14 The dict [DataAnalysis2.list_column_types] builds is the
    specification's classification with threshold 11 (that is, at most
    10) on [len(unique())], with the text labels in the opposite roles. *)
Theorem analysis2_refines_spec (df : frame) :
  NoDup (columns df) →
  Analysis2.list_column_types df = Spec.classify_frame Analysis2.config df.
Proof.
  intros Hnd. unfold Analysis2.list_column_types. rewrite column_loop_map by done.
  apply map_ext. intros [name c]. f_equal. unfold Analysis2.classify_column, Spec.classify; simpl.
  assert (bool_decide (col_unique_len c ≤ 10) = bool_decide (col_unique_len c < 11)) as ->
    by (apply bool_decide_ext; lia).
  done.
Qed.

Lemma analysis1_lookup (df : frame) name c :
  NoDup (columns df) → frame_get df name = Some c →
  dict_get (Analysis1.list_column_types df) name = Some (Analysis1.classify_column c).
Proof. intros Hnd Hget. unfold Analysis1.list_column_types. rewrite column_loop_map by done.
  by apply column_loop_lookup. Qed.

Lemma analysis2_lookup (df : frame) name c :
  NoDup (columns df) → frame_get df name = Some c →
  dict_get (Analysis2.list_column_types df) name = Some (Analysis2.classify_column c).
Proof. intros Hnd Hget. unfold Analysis2.list_column_types. rewrite column_loop_map by done.
  by apply column_loop_lookup. Qed.

(** C6 Threshold behaviour of both classifiers, read through the dict
    they build: a column is labelled ['numeric ordinal'] by
    [DataAnalysis1] exactly when it is numeric with fewer than 20
    distinct non-missing values, and by [DataAnalysis2] exactly when it
    is numeric with at most 10 values in [unique()]. *)
Theorem numeric_ordinal_threshold (df : frame) name c :
  NoDup (columns df) → frame_get df name = Some c →
  (dict_get (Analysis1.list_column_types df) name = Some NumericOrdinal ↔
     is_numeric_dtype c = true ∧ col_nunique c < 20) ∧
  (dict_get (Analysis2.list_column_types df) name = Some NumericOrdinal ↔
     is_numeric_dtype c = true ∧ col_unique_len c ≤ 10).
Proof.
  intros Hnd Hget. rewrite (analysis1_lookup _ _ c), (analysis2_lookup _ _ c) by done.
  unfold Analysis1.classify_column, Analysis2.classify_column.
  destruct (is_numeric_dtype c); split; split; eda_cases; naive_solver.
Qed.

(** C32 [DataAnalysis2] counts a missing value as one more distinct value:
    a numeric column is ['numeric ordinal'] there exactly when its
    distinct non-missing values, plus one if some cell is NaN, are at
    most 10. *)
Theorem analysis2_counts_nan (xs : list (option Qc)) :
  Analysis2.classify_column (NumCol xs) = NumericOrdinal ↔
  nunique xs + (if bool_decide (None ∈ xs) then 1 else 0) ≤ 10.
Proof.
  unfold Analysis2.classify_column; simpl. rewrite SeriesFacts.unique_len_nunique.
  case_bool_decide; naive_solver.
Qed.

(** C33 The two classifiers use ['nominal'] for opposite cardinalities, so
    no column is ['nominal'] for both: [DataAnalysis1] needs at least 20
    distinct values, [DataAnalysis2] at most 10 values in [unique()]. *)
Theorem nominal_labels_disjoint (c : column) :
  Analysis1.classify_column c = Nominal → Analysis2.classify_column c ≠ Nominal.
Proof.
  unfold Analysis1.classify_column, Analysis2.classify_column.
  assert (col_nunique c ≤ col_unique_len c)
    by (destruct c; apply SeriesFacts.nunique_le_unique_len).
  destruct (is_numeric_dtype c); repeat case_bool_decide; intros ??; simplify_eq; lia.
Qed.

Lemma classify_column_labels c :
  numeric_label (Analysis1.classify_column c) = is_numeric_dtype c ∧
  numeric_label (Analysis2.classify_column c) = is_numeric_dtype c.
Proof.
  unfold Analysis1.classify_column, Analysis2.classify_column.
  destruct (is_numeric_dtype c); split; by case_bool_decide.
Qed.

Lemma list_column_types_keys (f : column → col_type) (df : frame) :
  NoDup (columns df) →
  dict_keys (foldl (λ acc name, match frame_get df name with
                                | Some c => dict_set acc name (f c) | None => acc end)
                   [] (columns df)) = columns df.
Proof. intros Hnd. rewrite column_loop_map by done. unfold dict_keys, columns. by rewrite map_map. Qed.

(** C10 The dicts of both classifiers are well typed: each has exactly
    one key per column, in column order, and gives every numeric column
    a numeric label (['numeric ordinal'] or ['interval']) and every text
    column a text label. *)
Theorem column_types_well_typed (df : frame) :
  NoDup (columns df) →
  dict_keys (Analysis1.list_column_types df) = columns df ∧
  dict_keys (Analysis2.list_column_types df) = columns df ∧
  (∀ name c, frame_get df name = Some c →
     (∃ t, dict_get (Analysis1.list_column_types df) name = Some t ∧
           numeric_label t = is_numeric_dtype c) ∧
     (∃ t, dict_get (Analysis2.list_column_types df) name = Some t ∧
           numeric_label t = is_numeric_dtype c)).
Proof.
  intros Hnd. split_and!; [by apply list_column_types_keys..|].
  intros name c Hg. destruct (classify_column_labels c) as [H1 H2].
  split; [exists (Analysis1.classify_column c)|exists (Analysis2.classify_column c)];
    split; auto using analysis1_lookup, analysis2_lookup.
Qed.

(** ** The theorems at the example table *)

Lemma analysis1_refines_spec_witness :
  NoDup (columns example_frame) ∧
  Analysis1.list_column_types example_frame = Spec.classify_frame Analysis1.config example_frame.
Proof.
  assert (NoDup (columns example_frame)) as Hnd by eval_decide.
  split; [exact Hnd|apply analysis1_refines_spec; exact Hnd].
Defined.

Lemma analysis2_refines_spec_witness :
  NoDup (columns example_frame) ∧
  Analysis2.list_column_types example_frame = Spec.classify_frame Analysis2.config example_frame.
Proof.
  assert (NoDup (columns example_frame)) as Hnd by eval_decide.
  split; [exact Hnd|apply analysis2_refines_spec; exact Hnd].
Defined.

Lemma numeric_ordinal_threshold_witness :
  NoDup (columns example_frame) ∧ frame_get example_frame "age" = Some example_ages ∧
  (dict_get (Analysis1.list_column_types example_frame) "age" = Some NumericOrdinal ↔
     is_numeric_dtype example_ages = true ∧ col_nunique example_ages < 20).
Proof.
  assert (NoDup (columns example_frame)) as Hnd by eval_decide.
  assert (frame_get example_frame "age" = Some example_ages) as Hg by reflexivity.
  split_and!; [exact Hnd|exact Hg|apply (numeric_ordinal_threshold _ _ _ Hnd Hg)].
Defined.

(** Twenty distinct one-letter names: a high-cardinality text column. *)
Lemma nominal_labels_disjoint_witness :
  let c := ObjCol (map (λ n, Some (String (Ascii.ascii_of_nat (65 + n)) EmptyString)) (seq 0 20)) in
  Analysis1.classify_column c = Nominal ∧ Analysis2.classify_column c ≠ Nominal.
Proof.
  intros c. assert (Analysis1.classify_column c = Nominal) as Hc by (vm_compute; reflexivity).
  split; [exact Hc|apply nominal_labels_disjoint, Hc].
Defined.

Lemma column_types_well_typed_witness :
  NoDup (columns example_frame) ∧
  dict_keys (Analysis1.list_column_types example_frame) = columns example_frame ∧
  dict_keys (Analysis2.list_column_types example_frame) = columns example_frame ∧
  (∀ name c, frame_get example_frame name = Some c →
     (∃ t, dict_get (Analysis1.list_column_types example_frame) name = Some t ∧
           numeric_label t = is_numeric_dtype c) ∧
     (∃ t, dict_get (Analysis2.list_column_types example_frame) name = Some t ∧
           numeric_label t = is_numeric_dtype c)).
Proof.
  assert (NoDup (columns example_frame)) as Hnd by eval_decide.
  split; [exact Hnd|exact (column_types_well_typed _ Hnd)].
Defined.
