(* ===== verification/Effects.v ===== *)
(** * Effects: the monad the Python methods run in

    A method of the program reads and mutates an object ([self.df]),
    reads lines from standard input ([input()]), prints or plots
    (observable events), and may raise.  [M S A] threads a [world S]
    (the mutable state [S], the remaining input lines, the events so
    far) and returns either an exception or a value; the world is
    returned in both cases because Python keeps the mutations made
    before a [raise].  Bind and return are stdpp's [MBind] and [MRet]
    instances, so methods are written with [x ← m; k] and [m ;; k]. *)

From S2P Require Import Prelude Classify.

(** The exceptions the modelled code can raise or let escape. *)
Inductive exn : Type :=
| KeyError (key : string)     (** [df[col]] of a missing label; [s.mode()[0]] of an empty
                                 result is the label lookup [KeyError: 0] *)
| ValueError (msg : string)   (** [raise ValueError(...)] *)
| ImportError                 (** the transformers pipeline is absent *)
| EOFError                    (** [input()] at the end of the input *)
| TypeError                   (** a test called with the wrong number of samples *)
| SystemExit (code : nat)     (** [sys.exit(code)] *)
| ReadError (path : string)   (** what [pd.read_csv] raises on a file it cannot load *)
| OutOfFuel.                  (** never raised by the program: a [while True] loop
                                  out of its iteration bound (see [while_]) *)

(** The named tests of [scipy.stats] the dispatchers choose between. *)
Inductive test_name : Type :=
| ShapiroWilk | AndersonDarling | KruskalWallis | ANOVA | TTest | MannWhitneyU | ChiSquare.

(** What a dispatcher prints as its p-value: a number, or the array of
    critical values [stats.anderson(...)[:2]] binds to [p_value]. *)
Inductive pvalue : Type :=
| PValue (p : Qc)
| CriticalValues (cs : list Qc).

(** The menus of [src/main.py]. *)
Inductive menu : Type := MainMenu | InspectionMenu | Analysis1Menu | Analysis2Menu.

(** The observable outputs: prints and plots, with the data they show. *)
Inductive event : Type :=
| EvProcessing (col : string)
| EvDropped (col : string)
| EvFilledMedian (col : string) (v : option Qc)
| EvFilledMode (col : string) (v : string)
| EvConverted (col : string)
| EvRemainsObject (col : string)
| EvMean (col : string) (v : option Qc)
| EvMedianOrdinal (col : string) (v : option Qc)
| EvModeNominal (col : string) (v : string)
| PlotHistogram (col : string)
| PlotBoxplot (x_col y_col : string)
| PlotBarChart (col : string)
| PlotScatter (x_col y_col : string)
| EvAvailable (vars : list string)
| EvInvalidChoice
| EvTest (t : test_name) (stat : Qc) (p : pvalue)
| EvSkewness (v : option Qc)
| EvRegression (slope intercept r_squared p_value std_err : Qc)
| PlotQQHistogram (col : string)
| EvMenu (m : menu)
| EvColumns (cols : list string)
| EvInvalidColumns
| EvInvalidColumn
| EvStatistic (name col : string) (v : option Qc)
| EvCorrelation (col1 col2 : string) (v : option Qc)
| EvNoCategorical
| EvExit
| EvTextColumns (rows : list (string * option Qc * nat))
| EvInvalidColumnName
| EvNotText
| EvSentimentTable (texts : list string) (scores : list Qc) (labels : list string)
                   (subjectivity : option (list Qc))
| EvTransformersMissing
| EvInvalidAnalysis
| EvColumnTypes (types : list (string * col_type))
| EvLoaded
| EvLoadError.

Record world (S : Type) : Type := mk_world {
  w_state : S;
  w_input : list string;
  w_log : list event
}.
Arguments mk_world {_} _ _ _.
Arguments w_state {_} _.
Arguments w_input {_} _.
Arguments w_log {_} _.

Definition M (S A : Type) : Type := world S → (exn + A) * world S.

#[export] Instance M_ret S : MRet (M S) := λ A a w, (inr a, w).
#[export] Instance M_bind S : MBind (M S) := λ A B f m w,
  match m w with
  | (inr a, w') => f a w'
  | (inl e, w') => (inl e, w')
  end.

Definition raise {S A} (e : exn) : M S A := λ w, (inl e, w).

Definition get {S} : M S S := λ w, (inr (w_state w), w).

Definition put {S} (s : S) : M S unit :=
  λ w, (inr tt, mk_world s (w_input w) (w_log w)).

Definition modify {S} (f : S → S) : M S unit :=
  λ w, (inr tt, mk_world (f (w_state w)) (w_input w) (w_log w)).

Definition emit {S} (e : event) : M S unit :=
  λ w, (inr tt, mk_world (w_state w) (w_input w) (w_log w ++ [e])).

(** [input()]: the next line, or [EOFError]. *)
Definition input {S} : M S string :=
  λ w, match w_input w with
       | [] => (inl EOFError, w)
       | l :: ls => (inr l, mk_world (w_state w) ls (w_log w))
       end.

(** [for x in xs: f(x)]. *)
Fixpoint for_each {S A} (xs : list A) (f : A → M S unit) : M S unit :=
  match xs with
  | [] => mret tt
  | x :: xs' => f x;; for_each xs' f
  end.

(** [while True:] with a body that answers whether to go on ([False]
    for [break]).  The iterations are bounded by [fuel]; [while_] gives
    one more iteration than there are input lines left, which is enough
    for a body that reads a line on every iteration it continues
    ([loop_terminates] below), so [OutOfFuel] is never the outcome. *)
Fixpoint loop_fuel {St} (fuel : nat) (body : M St bool) : M St unit :=
  match fuel with
  | O => raise OutOfFuel
  | Datatypes.S n => body ≫= λ continue : bool, if continue then loop_fuel n body else mret tt
  end.

Definition while_ {St} (body : M St bool) : M St unit :=
  λ w, loop_fuel (Datatypes.S (length (w_input w))) body w.

(** [obj = Cls(); ...]: run [m] on a state of its own (a new object or
    a copy), keeping the input and output it shares with the caller. *)
Definition with_state {St St' A} (s : St') (m : M St' A) : M St A :=
  λ w, let '(r, w') := m (mk_world s (w_input w) (w_log w)) in
       (r, mk_world (w_state w) (w_input w') (w_log w')).

(** ** Reasoning about runs *)

Lemma bind_inr {S A B} (m : M S A) (f : A → M S B) w a w' :
  m w = (inr a, w') → (m ≫= f) w = f a w'.
Proof. intros Hm. unfold mbind, M_bind. by rewrite Hm. Qed.

Lemma bind_inl {S A B} (m : M S A) (f : A → M S B) w e w' :
  m w = (inl e, w') → (m ≫= f) w = (inl e, w').
Proof. intros Hm. unfold mbind, M_bind. by rewrite Hm. Qed.

Lemma emit_bind {S A} e (f : unit → M S A) w :
  (emit e ≫= f) w = f tt (mk_world (w_state w) (w_input w) (w_log w ++ [e])).
Proof. done. Qed.

(** A bind succeeds exactly when both of its parts do. *)
Lemma bind_inr_inv {S A B} (m : M S A) (f : A → M S B) w b w'' :
  (m ≫= f) w = (inr b, w'') → ∃ a w', m w = (inr a, w') ∧ f a w' = (inr b, w'').
Proof.
  unfold mbind, M_bind. destruct (m w) as [[e|a] w']; [discriminate|]. eauto.
Qed.

(** The input only shrinks: a run consumes a prefix of the lines. *)
Definition consumes {S A} (m : M S A) : Prop :=
  ∀ w, suffix (w_input (m w).2) (w_input w).

Lemma consumes_ret {S A} (a : A) : consumes (mret a : M S A).
Proof. intros w. done. Qed.

Lemma consumes_bind {S A B} (m : M S A) (f : A → M S B) :
  consumes m → (∀ a, consumes (f a)) → consumes (m ≫= f).
Proof.
  intros Hm Hf w. unfold mbind, M_bind.
  pose proof (Hm w) as Hw. destruct (m w) as [[e|a] w'] eqn:E; simpl in *; [done|].
  etrans; [apply Hf|done].
Qed.

Lemma consumes_raise {S A} e : consumes (raise e : M S A).
Proof. intros w. done. Qed.

Lemma consumes_get {S} : consumes (@get S).
Proof. intros w. done. Qed.

Lemma consumes_put {S} (s : S) : consumes (put s).
Proof. intros w. done. Qed.

Lemma consumes_modify {S} (f : S → S) : consumes (modify f).
Proof. intros w. done. Qed.

Lemma consumes_emit {S} e : consumes (@emit S e).
Proof. intros w. done. Qed.

Lemma consumes_input {S} : consumes (@input S).
Proof. intros [s [|l ls] lg]; simpl; [done|]. by apply suffix_cons_r. Qed.

Lemma consumes_for_each {S A} (xs : list A) (f : A → M S unit) :
  (∀ x, consumes (f x)) → consumes (for_each xs f).
Proof.
  intros Hf. induction xs as [|x xs IH]; simpl;
    [apply consumes_ret|apply consumes_bind; auto].
Qed.

Create HintDb consumes.
#[export] Hint Resolve consumes_ret consumes_bind consumes_raise consumes_get consumes_put
  consumes_modify consumes_emit consumes_input consumes_for_each : consumes.

Lemma consumes_with_state {St St' A} (s : St') (m : M St' A) :
  consumes m → consumes (with_state (St:=St) s m).
Proof.
  intros Hm w. unfold with_state. pose proof (Hm (mk_world s (w_input w) (w_log w))) as Hw.
  destruct (m _) as [r w']. done.
Qed.

Lemma consumes_loop_fuel {St} n (body : M St bool) : consumes body → consumes (loop_fuel n body).
Proof.
  intros Hb. induction n as [|n IH]; simpl; [apply consumes_raise|].
  apply consumes_bind; [done|]. intros []; [done|apply consumes_ret].
Qed.

Lemma consumes_while {St} (body : M St bool) : consumes body → consumes (while_ body).
Proof. intros Hb w. apply consumes_loop_fuel, Hb. Qed.

#[export] Hint Resolve consumes_with_state consumes_while : consumes.

(** ** Termination of the [while True] loops *)

(** A run that never exhausts its iteration bound. *)
Definition no_oof {St A} (m : M St A) : Prop := ∀ w w', m w ≠ (inl OutOfFuel, w').

(** A body that reads a line on every iteration it continues. *)
Definition shrinks {St} (body : M St bool) : Prop :=
  ∀ w w', body w = (inr true, w') → length (w_input w') < length (w_input w).

Lemma no_oof_ret {St A} (a : A) : no_oof (mret a : M St A).
Proof. intros w w'. done. Qed.

Lemma no_oof_bind {St A B} (m : M St A) (f : A → M St B) :
  no_oof m → (∀ a, no_oof (f a)) → no_oof (m ≫= f).
Proof.
  intros Hm Hf w w'. unfold mbind, M_bind.
  destruct (m w) as [[e|a] w1] eqn:E; [|apply Hf]. intros [= -> ->]. by eapply Hm.
Qed.

Lemma no_oof_raise {St A} e : e ≠ OutOfFuel → no_oof (raise e : M St A).
Proof. intros He w w' [= ->]. done. Qed.

Lemma no_oof_get {St} : no_oof (@get St).
Proof. intros w w'. done. Qed.

Lemma no_oof_put {St} (s : St) : no_oof (put s).
Proof. intros w w'. done. Qed.

Lemma no_oof_modify {St} (f : St → St) : no_oof (modify f).
Proof. intros w w'. done. Qed.

Lemma no_oof_emit {St} e : no_oof (@emit St e).
Proof. intros w w'. done. Qed.

Lemma no_oof_input {St} : no_oof (@input St).
Proof. intros [s [|l ls] lg] w'; simpl; done. Qed.

Lemma no_oof_for_each {St A} (xs : list A) (f : A → M St unit) :
  (∀ x, no_oof (f x)) → no_oof (for_each xs f).
Proof. intros Hf. induction xs; simpl; [apply no_oof_ret|by apply no_oof_bind]. Qed.

Lemma no_oof_with_state {St St' A} (s : St') (m : M St' A) :
  no_oof m → no_oof (with_state (St:=St) s m).
Proof.
  intros Hm w w'. unfold with_state. destruct (m _) as [r w1] eqn:E.
  intros [= -> _]. by eapply Hm.
Qed.

Lemma shrinks_input {St} (f : string → M St bool) :
  (∀ c, consumes (f c)) → shrinks (input ≫= f).
Proof.
  intros Hf [s [|l ls] lg] w'; unfold mbind, M_bind; simpl; [done|].
  intros Hrun. pose proof (Hf l (mk_world s ls lg)) as Hc. rewrite Hrun in Hc.
  apply suffix_length in Hc. simpl in *. lia.
Qed.

(** A menu iteration: print the menu, read the choice, act on it. *)
Lemma shrinks_emit_input {St} e (f : string → M St bool) :
  (∀ c, consumes (f c)) → shrinks (emit e;; input ≫= f).
Proof.
  intros Hf w w' Hrun. apply (shrinks_input f Hf (mk_world (w_state w) (w_input w) (w_log w ++ [e]))).
  exact Hrun.
Qed.

Section Loops.
Context {St : Type} (body : M St bool) (Hno : no_oof body) (Hshr : shrinks body).

(** More than one iteration per remaining input line is never used. *)
Lemma loop_fuel_enough n m w :
  length (w_input w) < n → n ≤ m → loop_fuel m body w = loop_fuel n body w.
Proof.
  revert m w. induction n as [|n IH]; intros m w Hlt Hle; [lia|].
  destruct m as [|m]; [lia|]. simpl. unfold mbind, M_bind.
  destruct (body w) as [[e|[]] w'] eqn:E; [done| |done].
  apply Hshr in E. apply IH; lia.
Qed.

Lemma loop_fuel_no_oof n w w' :
  length (w_input w) < n → loop_fuel n body w ≠ (inl OutOfFuel, w').
Proof.
  revert w. induction n as [|n IH]; intros w Hlt; [lia|]. simpl. unfold mbind, M_bind.
  destruct (body w) as [[e|[]] w1] eqn:E.
  - intros [= -> ->]. by eapply Hno.
  - apply Hshr in E. apply IH. lia.
  - done.
Qed.

Theorem while_no_oof : no_oof (while_ body).
Proof. intros w w'. apply loop_fuel_no_oof. lia. Qed.

(** [while True:] unfolds to one iteration followed by the loop. *)
Lemma while_unfold w :
  while_ body w = (body ≫= λ continue : bool, if continue then while_ body else mret tt) w.
Proof.
  unfold while_ at 1. simpl. unfold mbind, M_bind.
  destruct (body w) as [[e|[]] w'] eqn:E; [done| |done].
  unfold while_. apply Hshr in E. apply loop_fuel_enough; lia.
Qed.

End Loops.

Create HintDb no_oof.
#[export] Hint Resolve no_oof_ret no_oof_bind no_oof_get no_oof_put no_oof_emit no_oof_input
  no_oof_for_each no_oof_with_state : no_oof.

(** The two properties follow the structure of a method: binds, returns,
    the primitive operations, and case analysis on its conditions. *)
Ltac solve_consumes :=
  repeat first
    [ progress intros
    | solve [eauto with consumes]
    | apply consumes_bind | apply consumes_ret | apply consumes_raise | apply consumes_get
    | apply consumes_put | apply consumes_modify | apply consumes_emit | apply consumes_input
    | apply consumes_for_each | apply consumes_with_state | apply consumes_while
    | progress (eauto with consumes)
    | case_match ].

Ltac solve_no_oof :=
  repeat first
    [ progress intros
    | solve [eauto with no_oof]
    | apply no_oof_bind | apply no_oof_ret | apply no_oof_raise; discriminate
    | apply no_oof_get | apply no_oof_put | apply no_oof_modify | apply no_oof_emit
    | apply no_oof_input
    | apply no_oof_for_each | apply no_oof_with_state
    | progress (eauto with no_oof)
    | case_match ].

#[export] Hint Extern 2 (no_oof (while_ _)) => apply while_no_oof; eauto : no_oof.

(** ** Runs that leave the state alone and only emit allowed events *)

(** [stays_at s Q m]: run from state [s], [m] ends in state [s] (whether
    it returns or raises) and every event it adds satisfies [Q]; the
    rules below follow the structure of the code, as Hoare-logic rules
    follow that of commands. *)
Definition stays_at {S A} (s : S) (Q : event → Prop) (m : M S A) : Prop :=
  ∀ w r w', w_state w = s → m w = (r, w') →
    w_state w' = s ∧ ∃ evs, w_log w' = w_log w ++ evs ∧ Forall Q evs.

Section Stays.
Context {S : Type} (s : S) (Q : event → Prop).

Lemma stays_ret {A} (a : A) : stays_at s Q (mret a).
Proof. intros w r w' Hs [= <- <-]. split; [done|]. exists []. by rewrite app_nil_r. Qed.

Lemma stays_raise {A} e : stays_at s Q (raise e : M S A).
Proof. intros w r w' Hs [= <- <-]. split; [done|]. exists []. by rewrite app_nil_r. Qed.

Lemma stays_input : stays_at s Q input.
Proof.
  intros [s0 [|l ls] lg] r w' Hs; simpl; intros [= <- <-]; (split; [done|]);
    exists []; by rewrite app_nil_r.
Qed.

Lemma stays_emit e : Q e → stays_at s Q (emit e).
Proof. intros He w r w' Hs [= <- <-]. split; [done|]. exists [e]. split; [done|by constructor]. Qed.

Lemma stays_bind {A B} (m : M S A) (f : A → M S B) :
  stays_at s Q m → (∀ a, stays_at s Q (f a)) → stays_at s Q (m ≫= f).
Proof.
  intros Hm Hf w r w' Hs. unfold mbind, M_bind.
  destruct (m w) as [[e|a] w1] eqn:E; destruct (Hm _ _ _ Hs E) as (Hs1 & evs1 & Hl1 & Hq1).
  - intros [= <- <-]. split; [done|]. by exists evs1.
  - intros Hf1. destruct (Hf a _ _ _ Hs1 Hf1) as (Hs2 & evs2 & Hl2 & Hq2).
    split; [done|]. exists (evs1 ++ evs2). rewrite Hl2, Hl1, app_assoc.
    split; [done|by apply Forall_app].
Qed.

(** Reading the state gives [s]. *)
Lemma stays_get {A} (f : S → M S A) : stays_at s Q (f s) → stays_at s Q (get ≫= f).
Proof. intros Hf w r w' Hs. unfold mbind, M_bind, get. simpl. rewrite Hs. by apply Hf. Qed.

(** The loop rule: an invariant of the body is one of [while True]. *)
Lemma stays_loop_fuel n (body : M S bool) :
  stays_at s Q body → stays_at s Q (loop_fuel n body).
Proof.
  intros Hb. induction n as [|n IH]; simpl; [apply stays_raise|].
  apply stays_bind; [done|]. intros []; [done|apply stays_ret].
Qed.

Lemma stays_while (body : M S bool) : stays_at s Q body → stays_at s Q (while_ body).
Proof. intros Hb w. by apply stays_loop_fuel. Qed.

End Stays.

(** Structural proof of a [stays_at] goal; [side] discharges the
    conditions on emitted events. *)
Ltac solve_stays side :=
  repeat first
    [ progress intros
    | progress cbv beta zeta
    | apply stays_get | apply stays_bind | apply stays_ret | apply stays_raise
    | apply stays_input | apply stays_while
    | apply stays_emit; side
    | case_match ].
