(* ===== verification/Inspection.v ===== *)
(** * Inspection: the class [DataInspection] of [src/data_inspection.py]

    The object's state is its frame [self.df]; every method runs in
    [M frame].  [pd.to_numeric] on one string is a parameter of the
    section ([to_numeric]), since its parsing rules belong to pandas.
    The plot methods read the columns they draw from [self.df] (a
    [KeyError] when one is absent) and emit one of the events
    [PlotHistogram], [PlotBoxplot], [PlotBarChart], [PlotScatter];
    matplotlib itself is not modelled.  [load_csv] takes [pd.read_csv] as
    an argument.  [mode()[0]] of an empty result raises [KeyError: 0],
    the label lookup pandas does on the [RangeIndex] of [mode()].

    [clean_column] is the abstract effect of [classify_and_calculate] on
    the frame (drop, or fill then convert); the lemmas show that the
    method implements it, and the theorems on [classify_columns] show
    what the whole loop leaves: only columns that had at most half of
    their cells missing, none of them with a missing cell, all with the
    original number of rows. *)

From S2P Require Import Prelude Frame Effects.
Import Series DataFrame.

(** The value [classify_and_calculate] returns: a number (NaN as
    [None]) or a string. *)
Inductive central : Type :=
| CNum (v : option Qc)
| CStr (s : string).

Module Inspection.
Section WithParser.
Context (to_numeric : string → option Qc).

(** [missing_percentage = (total_missing / total) * 100] and the test
    [missing_percentage > 50], exactly; for [total = 0] the percentage is
    NaN and the test is false. *)
Definition more_than_half_missing (total_missing total : nat) : bool :=
  bool_decide (total ≠ 0 ∧ 50 * total < 100 * total_missing).

(** [self.df[col]], raising [KeyError] on a missing label. *)
Definition get_col (col : string) : M frame column :=
  df ← get;
  match frame_get df col with
  | Some c => mret c
  | None => raise (KeyError col)
  end.

(** [self.df[col] = ...], or an in-place [fillna] on that column. *)
Definition set_col (col : string) (c : column) : M frame unit :=
  modify (λ df, frame_set df col c).

Definition handle_missing_values (col : string) : M frame bool :=
  c ← get_col col;
  if more_than_half_missing (col_isnull_sum c) (col_len c) then
    modify (λ df, frame_drop df col);;
    emit (EvDropped col);;
    mret false
  else
    match c with
    | NumCol xs =>
        let median_value := median (dropna xs) in
        set_col col (NumCol (fillna median_value xs));;
        emit (EvFilledMedian col median_value);;
        mret true
    | ObjCol xs =>
        match mode_first String.le (dropna xs) with
        | None => raise (KeyError "0")
        | Some mode_value =>
            set_col col (ObjCol (fillna (Some mode_value) xs));;
            emit (EvFilledMode col mode_value);;
            mret true
        end
    end.

(** [pd.to_numeric(self.df[col])]: every present string must parse, a
    missing cell stays missing; [None] is the [ValueError]. *)
Definition to_numeric_cells (xs : list (option string)) : option (list (option Qc)) :=
  mapM (λ o, match o with None => Some None | Some s => Some <$> to_numeric s end) xs.

Definition check_data_types (col : string) : M frame unit :=
  c ← get_col col;
  match c with
  | ObjCol xs =>
      match to_numeric_cells xs with
      | Some ys => set_col col (NumCol ys);; emit (EvConverted col)
      | None => emit (EvRemainsObject col)
      end
  | NumCol _ => mret tt
  end.

(** The plots: each looks its columns up ([KeyError] on a missing
    label) and draws; the drawing is the event. *)
Definition plot_histogram (col : string) : M frame unit :=
  _ ← get_col col; emit (PlotHistogram col).

(** [self.df.boxplot(column=y_col, by=x_col)] *)
Definition plot_boxplot (x_col y_col : string) : M frame unit :=
  _ ← get_col y_col; _ ← get_col x_col; emit (PlotBoxplot x_col y_col).

(** [self.df[col].value_counts().plot(kind='bar')] *)
Definition plot_bar_chart (col : string) : M frame unit :=
  _ ← get_col col; emit (PlotBarChart col).

(** [plt.scatter(self.df[x_col], self.df[y_col])] *)
Definition plot_scatter (x_col y_col : string) : M frame unit :=
  _ ← get_col x_col; _ ← get_col y_col; emit (PlotScatter x_col y_col).

(** The second half of [classify_and_calculate]: [nunique()], the
    central tendency of the column's kind, its message and its plot. *)
Definition report_central (col : string) : M frame (option central) :=
  c ← get_col col;
  let unique_values := col_nunique c in
  match c with
  | NumCol xs =>
      if bool_decide (10 < unique_values) then
        let central_tendency := mean (dropna xs) in
        emit (EvMean col central_tendency);;
        plot_histogram col;;
        mret (Some (CNum central_tendency))
      else
        let central_tendency := median (dropna xs) in
        emit (EvMedianOrdinal col central_tendency);;
        plot_boxplot col col;;
        mret (Some (CNum central_tendency))
  | ObjCol xs =>
      match mode_first String.le (dropna xs) with
      | None => raise (KeyError "0")
      | Some central_tendency =>
          emit (EvModeNominal col central_tendency);;
          plot_bar_chart col;;
          mret (Some (CStr central_tendency))
      end
  end.

Definition classify_and_calculate (col : string) : M frame (option central) :=
  kept ← handle_missing_values col;
  if negb kept then (mret None : M frame (option central)) else
  check_data_types col;;
  report_central col.

(** [load_csv]: [self.df = pd.read_csv(file_path)] and its message; the
    reader is a parameter, [None] being the error it raises. *)
Definition load_csv (read_csv : string → option frame) (file_path : string) : M frame unit :=
  match read_csv file_path with
  | Some df => put df;; emit EvLoaded
  | None => raise (ReadError file_path)
  end.

(** [for col in self.df.columns]: the loop runs over the labels the frame
    had when it started, whichever of them get dropped on the way. *)
Definition classify_columns : M frame unit :=
  df ← get;
  for_each (columns df) (λ col,
    emit (EvProcessing col);;
    _ ← classify_and_calculate col;
    mret tt).

(** [[col for col in self.df.columns if is_numeric_dtype(self.df[col])]] *)
Definition numeric_columns (df : frame) : list string :=
  filter (λ col, is_numeric_dtype <$> frame_get df col = Some true) (columns df).

(** [[col for col in self.df.columns if not is_numeric_dtype(self.df[col])]] *)
Definition ordinal_columns (df : frame) : list string :=
  filter (λ col, is_numeric_dtype <$> frame_get df col = Some false) (columns df).

(** ** The abstract effect of [classify_and_calculate] on the frame *)

Definition fill_column (c : column) : column :=
  match c with
  | NumCol xs => NumCol (fillna (median (dropna xs)) xs)
  | ObjCol xs => ObjCol (fillna (mode_first String.le (dropna xs)) xs)
  end.

Definition convert_column (c : column) : column :=
  match c with
  | ObjCol xs =>
      match to_numeric_cells xs with Some ys => NumCol ys | None => ObjCol xs end
  | NumCol xs => NumCol xs
  end.

Definition keeps (c : column) : bool :=
  negb (more_than_half_missing (col_isnull_sum c) (col_len c)).

(** What becomes of a column: [None] when it is dropped. *)
Definition cleaned (c : column) : option column :=
  if keeps c then Some (convert_column (fill_column c)) else None.

(** The columns [classify_and_calculate] processes without raising:
    dropped ones, numeric ones, and object ones with at least one row. *)
Definition cleanable (c : column) : Prop :=
  keeps c = false ∨ is_numeric_dtype c = true ∨ col_len c ≠ 0.

(** The columns [report_central] reports on without raising: numeric
    ones, and object ones with a present value ([mode()[0]] exists). *)
Definition reportable (c : column) : Prop :=
  match c with NumCol _ => True | ObjCol xs => dropna xs ≠ [] end.

Definition clean_column (df : frame) (col : string) : frame :=
  match frame_get df col with
  | None => df
  | Some c =>
      if keeps c then frame_set df col (convert_column (fill_column c))
      else frame_drop df col
  end.

(** ** Runs of the methods on a given frame *)

Implicit Types (w : world frame).

Lemma get_col_run w col c :
  frame_get (w_state w) col = Some c → get_col col w = (inr c, w).
Proof. intros Hget. unfold get_col. erewrite bind_inr by done. simpl. by rewrite Hget. Qed.

Lemma get_col_missing w col :
  frame_get (w_state w) col = None → get_col col w = (inl (KeyError col), w).
Proof. intros Hget. unfold get_col. erewrite bind_inr by done. simpl. by rewrite Hget. Qed.

Lemma handle_missing_values_run w col c :
  frame_get (w_state w) col = Some c →
  handle_missing_values col w =
  if more_than_half_missing (col_isnull_sum c) (col_len c) then
    (inr false, mk_world (frame_drop (w_state w) col) (w_input w) (w_log w ++ [EvDropped col]))
  else
    match c with
    | NumCol xs =>
        (inr true, mk_world (frame_set (w_state w) col (NumCol (fillna (median (dropna xs)) xs)))
                     (w_input w) (w_log w ++ [EvFilledMedian col (median (dropna xs))]))
    | ObjCol xs =>
        match mode_first String.le (dropna xs) with
        | None => (inl (KeyError "0"), w)
        | Some m => (inr true, mk_world (frame_set (w_state w) col (ObjCol (fillna (Some m) xs)))
                                 (w_input w) (w_log w ++ [EvFilledMode col m]))
        end
    end.
Proof.
  intros Hget. unfold handle_missing_values. erewrite bind_inr by (by apply get_col_run).
  destruct (more_than_half_missing _ _); [done|].
  destruct c as [xs|xs]; [done|]. by destruct (mode_first _ _).
Qed.

Lemma to_numeric_cells_spec xs ys :
  to_numeric_cells xs = Some ys → length ys = length xs ∧ (None ∈ ys ↔ None ∈ xs).
Proof.
  unfold to_numeric_cells. rewrite mapM_Some. intros Hf. split; [symmetry; by eapply Forall2_length|].
  induction Hf as [|[s|] y xs' ys' Hy Hf IH]; [split; by intros ?%not_elem_of_nil| |];
    rewrite !elem_of_cons, IH; [|simplify_eq/=; naive_solver].
  destruct (to_numeric s); simplify_eq/=; naive_solver.
Qed.

Lemma check_data_types_run w col c :
  frame_get (w_state w) col = Some c →
  ∃ w', check_data_types col w = (inr tt, w') ∧
        w_state w' = frame_set (w_state w) col (convert_column c) ∧ w_input w' = w_input w.
Proof.
  intros Hget. unfold check_data_types. erewrite bind_inr by (by apply get_col_run).
  destruct c as [xs|xs]; simpl.
  - eexists. split; [done|]. by rewrite FrameFacts.frame_set_get.
  - destruct (to_numeric_cells xs); (eexists; split; [done|]); simpl; [done|].
    by rewrite FrameFacts.frame_set_get.
Qed.

(** A kept column with at least one row has a present value. *)
Lemma kept_has_value {A} (xs : list (option A)) :
  more_than_half_missing (isnull_sum xs) (length xs) = false → length xs ≠ 0 → dropna xs ≠ [].
Proof.
  unfold more_than_half_missing. rewrite bool_decide_eq_false. intros Hm Hn Hd.
  pose proof (SeriesFacts.isnull_sum_dropna xs) as Hs. rewrite Hd in Hs. simpl in Hs. lia.
Qed.

Lemma get_col_bind {A} w col c (f : column → M frame A) :
  frame_get (w_state w) col = Some c → (get_col col ≫= f) w = f c w.
Proof. intros Hg. by apply bind_inr, get_col_run. Qed.

(** The plots of present columns draw and change nothing else. *)
Lemma plot_runs w x y cx cy :
  frame_get (w_state w) x = Some cx → frame_get (w_state w) y = Some cy →
  let w' e := mk_world (w_state w) (w_input w) (w_log w ++ [e]) in
  plot_histogram x w = (inr tt, w' (PlotHistogram x)) ∧
  plot_bar_chart x w = (inr tt, w' (PlotBarChart x)) ∧
  plot_boxplot x y w = (inr tt, w' (PlotBoxplot x y)) ∧
  plot_scatter x y w = (inr tt, w' (PlotScatter x y)).
Proof.
  intros Hx Hy w'. unfold plot_histogram, plot_bar_chart, plot_boxplot, plot_scatter.
  split_and!; repeat first [ progress cbv beta | rewrite (get_col_bind _ x cx) by done
                           | rewrite (get_col_bind _ y cy) by done ]; done.
Qed.

Lemma report_central_run w col c :
  frame_get (w_state w) col = Some c → reportable c →
  ∃ r w', report_central col w = (inr r, w') ∧ w_state w' = w_state w ∧ w_input w' = w_input w.
Proof.
  intros Hg Hr. unfold report_central. rewrite (get_col_bind _ _ c) by done.
  pose proof (λ e, plot_runs (mk_world (w_state w) (w_input w) (w_log w ++ [e])) col col c c Hg Hg)
    as Hp.
  destruct c as [xs|xs].
  - case_bool_decide; rewrite emit_bind; erewrite bind_inr by apply Hp;
      eexists _, _; split_and!; reflexivity.
  - destruct (SeriesFacts.mode_first_Some String.le (dropna xs) Hr) as [m ->].
    rewrite emit_bind. erewrite bind_inr by apply Hp. eexists _, _; split_and!; reflexivity.
Qed.

(** A column that is kept and may be processed ends up reportable. *)
Lemma cleaned_reportable c :
  keeps c = true → cleanable c → reportable (convert_column (fill_column c)).
Proof.
  unfold cleanable, keeps. intros Hk Hcl. apply negb_true_iff in Hk.
  destruct c as [xs|xs]; simpl; [done|].
  destruct Hcl as [Hf|[?|Hcl]]; [apply negb_false_iff in Hf; congruence|done|]. simpl in Hk, Hcl.
  destruct (SeriesFacts.mode_first_Some String.le (dropna xs)) as [m Hm];
    [by apply kept_has_value|]. rewrite Hm.
  destruct (to_numeric_cells _); [done|]. simpl.
  apply kept_has_value; [|by rewrite SeriesFacts.length_fillna].
  rewrite SeriesFacts.isnull_sum_fillna. unfold more_than_half_missing.
  apply bool_decide_eq_false. lia.
Qed.

(** [handle_missing_values] on a kept, processable column fills it. *)
Lemma handle_missing_values_fill w col c :
  frame_get (w_state w) col = Some c → keeps c = true → cleanable c →
  ∃ w1, handle_missing_values col w = (inr true, w1) ∧
        w_state w1 = frame_set (w_state w) col (fill_column c) ∧ w_input w1 = w_input w.
Proof.
  intros Hg Hk Hcl. rewrite (handle_missing_values_run w col c Hg).
  unfold keeps, cleanable in *. apply negb_true_iff in Hk. rewrite Hk.
  destruct c as [xs|xs]; [by eexists|].
  destruct Hcl as [Hf|[?|Hcl]]; [apply negb_false_iff in Hf; congruence|done|].
  destruct (SeriesFacts.mode_first_Some String.le (dropna xs)) as [m Hm];
    [by apply kept_has_value|]. simpl. rewrite Hm. by eexists.
Qed.

Lemma classify_and_calculate_run w col c :
  frame_get (w_state w) col = Some c → cleanable c →
  ∃ r w', classify_and_calculate col w = (inr r, w') ∧
          w_state w' = clean_column (w_state w) col ∧ w_input w' = w_input w.
Proof.
  intros Hget Hcl. unfold classify_and_calculate, clean_column. rewrite Hget.
  destruct (keeps c) eqn:Hk.
  2: { pose proof (handle_missing_values_run w col c Hget) as Hh. unfold keeps in Hk.
       apply negb_false_iff in Hk. rewrite Hk in Hh.
       erewrite bind_inr by exact Hh. simpl. by do 2 eexists. }
  destruct (handle_missing_values_fill w col c Hget Hk Hcl) as (w1 & Hh1 & Hs1 & Hi1).
  erewrite bind_inr by exact Hh1. cbn [negb].
  assert (frame_get (w_state w1) col = Some (fill_column c)) as Hg1
    by (rewrite Hs1; apply FrameFacts.frame_get_set_eq).
  destruct (check_data_types_run w1 col _ Hg1) as (w2 & Hc & Hs2 & Hi2).
  erewrite bind_inr by exact Hc.
  assert (frame_get (w_state w2) col = Some (convert_column (fill_column c))) as Hg2
    by (rewrite Hs2; apply FrameFacts.frame_get_set_eq).
  destruct (report_central_run w2 col _ Hg2 (cleaned_reportable c Hk Hcl))
    as (r & w3 & Hr & Hs3 & Hi3).
  exists r, w3. split; [done|]. rewrite Hs3, Hs2, Hs1, Hi3, Hi2, Hi1.
  split; [apply FrameFacts.frame_set_set|done].
Qed.

(** ** The effect of one step, and of the loop, on the frame *)

Lemma clean_get_ne df col col' :
  col ≠ col' → frame_get (clean_column df col) col' = frame_get df col'.
Proof.
  intros Hne. unfold clean_column. destruct (frame_get df col) as [c|]; [|done].
  destruct (keeps c); [by apply FrameFacts.frame_get_set_ne|].
  rewrite FrameFacts.frame_get_drop. by rewrite decide_False.
Qed.

Lemma clean_get_eq df col :
  frame_get (clean_column df col) col = frame_get df col ≫= cleaned.
Proof.
  unfold clean_column, cleaned. destruct (frame_get df col) as [c|] eqn:Hg; simpl; [|done].
  destruct (keeps c); [apply FrameFacts.frame_get_set_eq|].
  rewrite FrameFacts.frame_get_drop. by rewrite decide_True.
Qed.

Lemma clean_columns df col :
  columns (clean_column df col) =
  filter (λ k, k = col → is_Some (frame_get df col ≫= cleaned)) (columns df).
Proof.
  unfold clean_column, cleaned. destruct (frame_get df col) as [c|] eqn:Hg; simpl.
  - destruct (keeps c).
    + rewrite FrameFacts.columns_set_in.
      * symmetry. apply filter_all_true. intros k _ _. by eexists.
      * apply list_elem_of_fmap. exists (col, c). split; [done|]. by apply FrameFacts.frame_get_elem.
    + rewrite FrameFacts.columns_drop. apply list_filter_iff. intros k. split.
      * intros Hk ->. done.
      * intros Hk ->. by apply is_Some_None in Hk; [|done].
  - symmetry. apply filter_all_true. intros k Hk ->.
    apply FrameFacts.frame_get_None in Hg. done.
Qed.

Lemma foldl_clean_get (cols : list string) df k :
  NoDup cols →
  frame_get (foldl clean_column df cols) k =
  if decide (k ∈ cols) then frame_get df k ≫= cleaned else frame_get df k.
Proof.
  revert df. induction cols as [|x cols IH]; intros df Hnd; cbn [foldl];
    [by rewrite decide_False by set_solver|].
  apply NoDup_cons in Hnd as [Hx Hnd]. rewrite IH by done.
  destruct (decide (k = x)) as [->|Hne].
  - rewrite decide_False, decide_True by set_solver. apply clean_get_eq.
  - rewrite clean_get_ne by congruence. repeat case_decide; set_solver.
Qed.

Lemma foldl_clean_columns (cols : list string) df :
  NoDup cols →
  columns (foldl clean_column df cols) =
  filter (λ k, k ∈ cols → is_Some (frame_get df k ≫= cleaned)) (columns df).
Proof.
  revert df. induction cols as [|x cols IH]; intros df Hnd; simpl.
  { symmetry. apply filter_all_true. intros k _ ?%not_elem_of_nil. done. }
  apply NoDup_cons in Hnd as [Hx Hnd]. rewrite IH, clean_columns, list_filter_filter by done.
  apply list_filter_iff. intros k. destruct (decide (k = x)) as [->|Hne].
  - rewrite clean_get_eq, elem_of_cons. naive_solver.
  - rewrite clean_get_ne, elem_of_cons by congruence. naive_solver.
Qed.


Lemma convert_column_len c : col_len (convert_column c) = col_len c.
Proof.
  destruct c as [xs|xs]; simpl; [done|].
  destruct (to_numeric_cells xs) eqn:E; simpl; [|done]. by apply to_numeric_cells_spec.
Qed.

Lemma convert_column_isnull c : col_isnull_sum (convert_column c) = 0 ↔ col_isnull_sum c = 0.
Proof.
  destruct c as [xs|xs]; simpl; [done|].
  destruct (to_numeric_cells xs) eqn:E; simpl; [|done].
  rewrite !SeriesFacts.isnull_sum_0. apply to_numeric_cells_spec in E as [_ ->]. done.
Qed.

Lemma fill_column_len c : col_len (fill_column c) = col_len c.
Proof. destruct c; simpl; apply SeriesFacts.length_fillna. Qed.

(** Filling a kept column leaves no missing cell. *)
Lemma fill_column_isnull c : keeps c = true → col_isnull_sum (fill_column c) = 0.
Proof.
  unfold keeps. rewrite negb_true_iff. intros Hk.
  destruct c as [xs|xs]; simpl in *; (destruct xs as [|x xs']; [done|]);
    assert (dropna (x :: xs') ≠ []) as Hd by (apply kept_has_value; [done|simpl; lia]).
  - destruct (median (dropna (x :: xs'))) as [m|] eqn:Hm.
    + apply SeriesFacts.isnull_sum_fillna.
    + by apply SeriesFacts.median_None in Hm.
  - destruct (SeriesFacts.mode_first_Some String.le (dropna (x :: xs'))) as [m ->]; [done|].
    apply SeriesFacts.isnull_sum_fillna.
Qed.

Lemma cleaned_spec c c' :
  cleaned c = Some c' → col_len c' = col_len c ∧ col_isnull_sum c' = 0.
Proof.
  unfold cleaned. destruct (keeps c) eqn:Hk; intros Hc; simplify_eq. split.
  - by rewrite convert_column_len, fill_column_len.
  - apply convert_column_isnull. by apply fill_column_isnull.
Qed.

Lemma rectangular_clean n df col : rectangular n df → rectangular n (clean_column df col).
Proof.
  unfold rectangular, clean_column. intros Hr.
  destruct (frame_get df col) as [c|] eqn:Hg; [|done].
  destruct (keeps c); [|by apply FrameFacts.Forall_frame_drop].
  apply FrameFacts.Forall_frame_set; [done|]. simpl.
  rewrite convert_column_len, fill_column_len.
  apply FrameFacts.frame_get_elem in Hg. rewrite Forall_forall in Hr. by apply (Hr (col, c)).
Qed.

(** The loop of [classify_columns] over a list of labels that are all
    present and processable. *)
Lemma for_each_clean_run (cols : list string) w :
  NoDup cols →
  (∀ col, col ∈ cols → ∃ c, frame_get (w_state w) col = Some c ∧ cleanable c) →
  ∃ w', for_each cols (λ col, emit (EvProcessing col);; _ ← classify_and_calculate col; mret tt) w
          = (inr tt, w') ∧
        w_state w' = foldl clean_column (w_state w) cols ∧ w_input w' = w_input w.
Proof.
  revert w. induction cols as [|x cols IH]; intros w Hnd Hall; simpl; [by eexists|].
  apply NoDup_cons in Hnd as [Hx Hnd].
  destruct (Hall x ltac:(left)) as (c & Hg & Hc).
  destruct (classify_and_calculate_run (mk_world (w_state w) (w_input w) (w_log w ++ [EvProcessing x]))
              x c Hg Hc) as (r & w1 & Hrun & Hs1 & Hi1).
  assert ((emit (EvProcessing x);; _ ← classify_and_calculate x; mret tt) w = (inr tt, w1)) as Hb.
  { erewrite bind_inr by reflexivity. erewrite bind_inr by exact Hrun. reflexivity. }
  erewrite bind_inr by exact Hb.
  destruct (IH w1) as (w' & Hw' & Hs' & Hi'); [done| |].
  - intros col Hcol. destruct (Hall col ltac:(by right)) as (c' & Hg' & Hc').
    exists c'. split; [|done]. rewrite Hs1. simpl. rewrite clean_get_ne; [done|set_solver].
  - exists w'. split; [done|]. rewrite Hs', Hs1, Hi', Hi1. done.
Qed.


(** C1 [classify_columns] terminates without raising on every frame
    with distinct labels and at least one row, and leaves [self.df]
    equal to the abstract cleanup [clean_column] applied to each
    original label in turn; it reads no input. *)
Theorem classify_columns_total (df : frame) n i l :
  NoDup (columns df) → rectangular (S n) df →
  ∃ w', classify_columns (mk_world df i l) = (inr tt, w') ∧
        w_state w' = foldl clean_column df (columns df) ∧ w_input w' = i.
Proof.
  intros Hnd Hr. unfold classify_columns. erewrite bind_inr by reflexivity.
  apply (for_each_clean_run _ (mk_world df i l)); [done|].
  intros col Hcol. destruct (FrameFacts.frame_get_in df col Hcol) as [c Hg].
  exists c. split; [done|]. right; right.
  rewrite (FrameFacts.rectangular_get _ _ _ _ Hr Hg). done.
Qed.

(** C4 What the cleanup loop leaves: exactly the original columns with at
    most half of their cells missing, in their original order; every
    remaining column keeps the row count and has no missing cell. *)
Theorem clean_loop_invariant (df : frame) n :
  NoDup (columns df) → rectangular n df →
  let df' := foldl clean_column df (columns df) in
  columns df' = filter (λ k, keeps <$> frame_get df k = Some true) (columns df) ∧
  rectangular n df' ∧ Forall (λ p, col_isnull_sum p.2 = 0) df'.
Proof.
  intros Hnd Hr df'.
  assert (columns df' = filter (λ k, keeps <$> frame_get df k = Some true) (columns df)) as Hcols.
  { unfold df'. rewrite foldl_clean_columns by done. apply filter_ext_in. intros k Hk.
    destruct (FrameFacts.frame_get_in df k Hk) as [c Hg]. rewrite Hg. unfold cleaned. simpl.
    destruct (keeps c); simpl; split; try done.
    intros H. by destruct (H Hk). }
  assert (∀ k, frame_get df' k = frame_get df k ≫= cleaned) as Hget.
  { intros k. unfold df'. rewrite foldl_clean_get by done. case_decide as Hk; [done|].
    destruct (frame_get df k) eqn:Hg; [|done]. exfalso. apply Hk.
    apply list_elem_of_fmap. exists (k, c). split; [done|]. by apply FrameFacts.frame_get_elem. }
  assert (NoDup (columns df')) as Hnd' by (rewrite Hcols; by apply NoDup_filter).
  assert (∀ p, p ∈ df' → ∃ c, frame_get df p.1 = Some c ∧ cleaned c = Some p.2) as Hsrc.
  { intros [k v] Hp. assert (frame_get df' k = Some v) as Hv by (apply dict_get_elem; [exact Hnd'|exact Hp]).
    rewrite Hget in Hv. simpl. destruct (frame_get df k) as [c|] eqn:Hg; simplify_eq/=. by exists c. }
  split_and!; [done| |]; apply Forall_forall; intros p Hp;
    destruct (Hsrc p Hp) as (c & Hg & Hc); apply cleaned_spec in Hc as [Hlen Hnull]; [|done].
  rewrite Hlen. by apply (FrameFacts.rectangular_get _ df p.1).
Qed.


(** A kept column is replaced by its filled version. *)
Lemma handle_missing_values_kept w col c :
  frame_get (w_state w) col = Some c → keeps c = true → col_len c ≠ 0 →
  ∃ w', handle_missing_values col w = (inr true, w') ∧
        w_state w' = frame_set (w_state w) col (fill_column c).
Proof.
  intros Hg Hk Hn. rewrite (handle_missing_values_run _ _ c) by done.
  unfold keeps in Hk. apply negb_true_iff in Hk. rewrite Hk.
  destruct c as [xs|xs]; [by eexists|]. simpl in *.
  destruct (SeriesFacts.mode_first_Some String.le (dropna xs)) as [m Hm];
    [by apply kept_has_value|]. rewrite Hm. eexists. split; [done|]. simpl. unfold fill_column. by rewrite ?Hm.
Qed.

(** C2 The missing-value policy of [handle_missing_values] on a column
    with at least one row: it returns [False] exactly when more than 50%
    of the cells are missing, and the column is then gone from the frame;
    otherwise the column stays, with its dtype and length, and no
    missing cell. *)
Theorem handle_missing_values_policy w col c :
  frame_get (w_state w) col = Some c → col_len c ≠ 0 →
  ∃ b w', handle_missing_values col w = (inr b, w') ∧
    (b = false ↔ 50 * col_len c < 100 * col_isnull_sum c) ∧
    (b = false → frame_get (w_state w') col = None) ∧
    (b = true → ∃ c', frame_get (w_state w') col = Some c' ∧
                      is_numeric_dtype c' = is_numeric_dtype c ∧
                      col_len c' = col_len c ∧ col_isnull_sum c' = 0).
Proof.
  intros Hg Hn. destruct (keeps c) eqn:Hk.
  - destruct (handle_missing_values_kept w col c) as (w' & Hrun & Hs); [done..|].
    exists true, w'. pose proof Hk as Hkeep. unfold keeps, more_than_half_missing in Hk.
    rewrite negb_true_iff, bool_decide_eq_false in Hk. split_and!; [done| |done|].
    + split; [done|]. intros. exfalso. apply Hk. split; [done|lia].
    + intros _. exists (fill_column c). rewrite Hs, FrameFacts.frame_get_set_eq.
      split_and!; [done|by destruct c|apply fill_column_len|by apply fill_column_isnull, Hkeep].
  - rewrite (handle_missing_values_run _ _ c) by done.
    unfold keeps in Hk. apply negb_false_iff in Hk. rewrite Hk.
    unfold more_than_half_missing in Hk. rewrite bool_decide_eq_true in Hk.
    do 2 eexists. split_and!; [done|split; [intros _; lia|done]| |done].
    intros _. simpl. rewrite FrameFacts.frame_get_drop. by rewrite decide_True.
Qed.

(** C3 The values [handle_missing_values] imputes, for a column with at
    least one row and at most half of it missing: a numeric column gets
    the median of its present values in every missing cell; an object
    column gets [mode()[0]], a present value of maximal frequency and the
    least such value in string order.  Present cells are kept. *)
Theorem imputation_values w col c :
  frame_get (w_state w) col = Some c → col_len c ≠ 0 →
  100 * col_isnull_sum c ≤ 50 * col_len c →
  ∃ w', handle_missing_values col w = (inr true, w') ∧
  match c with
  | NumCol xs => ∃ m, median (dropna xs) = Some m ∧
      frame_get (w_state w') col = Some (NumCol (fillna (Some m) xs))
  | ObjCol xs => ∃ m, frame_get (w_state w') col = Some (ObjCol (fillna (Some m) xs)) ∧
      m ∈ dropna xs ∧
      (∀ y, y ∈ dropna xs → occurrences y (dropna xs) ≤ occurrences m (dropna xs)) ∧
      (∀ y, y ∈ dropna xs → occurrences y (dropna xs) = occurrences m (dropna xs) →
            String.le m y)
  end.
Proof.
  intros Hg Hn Hhalf.
  assert (keeps c = true) as Hk.
  { unfold keeps, more_than_half_missing. apply negb_true_iff, bool_decide_eq_false. lia. }
  destruct (handle_missing_values_kept w col c) as (w' & Hrun & Hs); [done..|].
  exists w'. split; [done|]. rewrite Hs, FrameFacts.frame_get_set_eq.
  unfold keeps in Hk. apply negb_true_iff in Hk.
  destruct c as [xs|xs]; simpl in *.
  - destruct (median (dropna xs)) as [m|] eqn:Hm; [by exists m|].
    apply SeriesFacts.median_None in Hm. by apply kept_has_value in Hm.
  - destruct (mode_first String.le (dropna xs)) as [m|] eqn:Hm.
    + exists m. split; [done|]. by apply (SeriesFacts.mode_first_spec String.le).
    + destruct (SeriesFacts.mode_first_Some String.le (dropna xs)); [|congruence].
      by apply kept_has_value.
Qed.

(** A text column with no rows makes [classify_and_calculate] raise
    [KeyError: 0]: [mode()] of an empty Series is empty, and [[0]] is a
    label lookup on its [RangeIndex]; the frame is left unchanged. *)
Lemma classify_and_calculate_empty_text w col :
  frame_get (w_state w) col = Some (ObjCol []) →
  classify_and_calculate col w = (inl (KeyError "0"), w).
Proof.
  intros Hg. unfold classify_and_calculate. eapply bind_inl.
  rewrite (handle_missing_values_run _ _ _ Hg). reflexivity.
Qed.

(** C11 The report of [classify_and_calculate] on a present column, on
    every branch: a numeric column with more than 10 distinct values
    gets its mean and a histogram, one with at most 10 its median and a
    box plot of the column by itself, a text column the least of its
    modes and a bar chart, and a text column with no value raises
    [KeyError: 0] ([mode()[0]] on an empty result).  Each result is the value it prints, and nothing but
    the log changes. *)
Theorem report_central_branches w col c :
  frame_get (w_state w) col = Some c →
  let after evs := mk_world (w_state w) (w_input w) (w_log w ++ evs) in
  (∀ xs, c = NumCol xs → 10 < col_nunique c →
     report_central col w = (inr (Some (CNum (mean (dropna xs)))),
       after [EvMean col (mean (dropna xs)); PlotHistogram col])) ∧
  (∀ xs, c = NumCol xs → col_nunique c ≤ 10 →
     report_central col w = (inr (Some (CNum (median (dropna xs)))),
       after [EvMedianOrdinal col (median (dropna xs)); PlotBoxplot col col])) ∧
  (∀ xs m, c = ObjCol xs → mode_first String.le (dropna xs) = Some m →
     report_central col w = (inr (Some (CStr m)), after [EvModeNominal col m; PlotBarChart col])) ∧
  (∀ xs, c = ObjCol xs → dropna xs = [] → report_central col w = (inl (KeyError "0"), w)).
Proof.
  intros Hg after. unfold report_central. rewrite (get_col_bind _ _ c) by done.
  pose proof (λ e, plot_runs (mk_world (w_state w) (w_input w) (w_log w ++ [e])) col col c c Hg Hg)
    as Hp.
  split_and!; intros xs; [intros ->..|intros m ->|intros ->]; intros H; simpl in *;
    rewrite ?bool_decide_true by lia; rewrite ?bool_decide_false by lia; rewrite ?H;
    try done; rewrite emit_bind; erewrite bind_inr by apply Hp;
    unfold after; simpl; by rewrite <-app_assoc.
Qed.



(** [classify_columns] reads no input and always finishes. *)
Lemma classify_columns_consumes : consumes classify_columns.
Proof.
  unfold classify_columns, classify_and_calculate, check_data_types, handle_missing_values,
    report_central, plot_histogram, plot_boxplot, plot_bar_chart,
    get_col, set_col.
  solve_consumes.
Qed.

Lemma classify_columns_no_oof : no_oof classify_columns.
Proof.
  unfold classify_columns, classify_and_calculate, check_data_types, handle_missing_values,
    report_central, plot_histogram, plot_boxplot, plot_bar_chart,
    get_col, set_col.
  solve_no_oof.
Qed.

End WithParser.
End Inspection.

#[export] Hint Resolve Inspection.classify_columns_consumes : consumes.
#[export] Hint Resolve Inspection.classify_columns_no_oof : no_oof.

(** ** The theorems at the example table, with no text cell parsing as a number *)

Lemma classify_columns_total_witness :
  NoDup (columns example_frame) ∧ rectangular 3 example_frame ∧
  ∃ w', Inspection.classify_columns (λ _, None) (mk_world example_frame [] []) = (inr tt, w') ∧
        w_state w' = foldl (Inspection.clean_column (λ _, None)) example_frame
                           (columns example_frame) ∧ w_input w' = [].
Proof.
  assert (NoDup (columns example_frame)) as Hnd by eval_decide.
  assert (rectangular 3 example_frame) as Hr by (repeat constructor).
  split_and!; [exact Hnd|exact Hr|exact (Inspection.classify_columns_total _ _ 2 [] [] Hnd Hr)].
Defined.

Lemma handle_missing_values_policy_witness :
  frame_get example_frame "age" = Some example_ages ∧ col_len example_ages ≠ 0 ∧
  ∃ b w', Inspection.handle_missing_values "age" (mk_world example_frame [] []) = (inr b, w') ∧
    (b = false ↔ 50 * col_len example_ages < 100 * col_isnull_sum example_ages).
Proof.
  assert (frame_get example_frame "age" = Some example_ages) as Hg by reflexivity.
  assert (col_len example_ages ≠ 0) as Hn by (vm_compute; lia).
  split_and!; [exact Hg|exact Hn|].
  destruct (Inspection.handle_missing_values_policy (mk_world example_frame [] [])
              "age" example_ages Hg Hn) as (b & w' & Hrun & Hb & _).
  by exists b, w'.
Defined.

Lemma imputation_values_witness :
  frame_get example_frame "city" = Some example_cities ∧ col_len example_cities ≠ 0 ∧
  100 * col_isnull_sum example_cities ≤ 50 * col_len example_cities ∧
  ∃ w', Inspection.handle_missing_values "city" (mk_world example_frame [] []) = (inr true, w').
Proof.
  assert (frame_get example_frame "city" = Some example_cities) as Hg by reflexivity.
  assert (col_len example_cities ≠ 0) as Hn by (vm_compute; lia).
  assert (100 * col_isnull_sum example_cities ≤ 50 * col_len example_cities) as Hh
    by (vm_compute; lia).
  split_and!; [exact Hg|exact Hn|exact Hh|].
  destruct (Inspection.imputation_values (mk_world example_frame [] [])
              "city" example_cities Hg Hn Hh) as (w' & Hrun & _).
  by exists w'.
Defined.


Lemma clean_loop_invariant_witness :
  NoDup (columns example_frame) ∧ rectangular 3 example_frame ∧
  Forall (λ p, col_isnull_sum p.2 = 0)
    (foldl (Inspection.clean_column (λ _, None)) example_frame (columns example_frame)).
Proof.
  assert (NoDup (columns example_frame)) as Hnd by eval_decide.
  assert (rectangular 3 example_frame) as Hr by (repeat constructor).
  split_and!; [exact Hnd|exact Hr|].
  exact (proj2 (proj2 (Inspection.clean_loop_invariant (λ _, None) _ _ Hnd Hr))).
Defined.


Lemma report_central_branches_witness :
  let xs := [Some (Qc_of_Z 22); Some (Qc_of_Z 25); None] in
  frame_get example_frame "age" = Some (NumCol xs) ∧ col_nunique (NumCol xs) ≤ 10 ∧
  Inspection.report_central "age" (mk_world example_frame [] []) =
    (inr (Some (CNum (median (dropna xs)))),
     mk_world example_frame [] [EvMedianOrdinal "age" (median (dropna xs)); PlotBoxplot "age" "age"]).
Proof.
  intros xs. assert (frame_get example_frame "age" = Some (NumCol xs)) as Hg by reflexivity.
  assert (col_nunique (NumCol xs) ≤ 10) as Hn by (vm_compute; lia).
  split_and!; [exact Hg|exact Hn|].
  exact (proj1 (proj2 (Inspection.report_central_branches (mk_world example_frame [] []) _ _ Hg)) xs eq_refl Hn).
Defined.
