(* ===== verification/Sentiment.v ===== *)
(** * Sentiment: the class [SentimentAnalysis] of [src/sentiment_analysis.py]

    The three NLP backends are parameters of the section: VADER's
    compound score of a text, TextBlob's polarity and subjectivity, and
    the transformers pipeline, which is [None] when the library is not
    installed (the module-level [try: from transformers import pipeline
    except ImportError: pipeline = None]).  The labellers and the loops
    that build the score and label lists are modelled as the code writes
    them; the theorems give each labeller's thresholds, show that every
    loop labels each row independently of the others, and show the
    [ImportError] of the missing pipeline.  The object holds the table
    ([sentiment_analysis]); [get_text_columns] is translated as its two
    loops and proved equal to the summary of the object columns written
    out in one pass.  A string is a list of bytes, so the length of an
    entry is Python's [len] for ASCII text only. *)

From S2P Require Import Prelude Frame Effects.
Import Series DataFrame.

(** ['positive'], ['neutral'], ['negative']. *)
Inductive sentiment : Type := Positive | Neutral | Negative.

#[export] Instance sentiment_eq_dec : EqDecision sentiment.
Proof. solve_decision. Defined.

Module Sentiment.
Section Backends.
Context (vader_compound : string → Qc)
        (textblob : string → Qc * Qc)
        (pipeline : option (string → string * Qc)).

(** The rows of a text column after [dropna()]. *)
Definition text_rows (xs : list (option string)) : list string := dropna xs.

(** [if score >= 0.05 ... elif score <= -0.05 ... else ...] *)
Definition vader_label (score : Qc) : sentiment :=
  if bool_decide (Qcle (Q2Qc (5 # 100)) score) then Positive
  else if bool_decide (Qcle score (Q2Qc (-5 # 100))) then Negative
  else Neutral.

Definition vader_sentiment_analysis (data : list string) : list Qc * list sentiment :=
  foldl (λ acc entry,
           let score := vader_compound entry in
           (acc.1 ++ [score], acc.2 ++ [vader_label score])) ([], []) data.

(** [if score > 0 ... elif score == 0 ... else ...] *)
Definition textblob_label (score : Qc) : sentiment :=
  if bool_decide (Qclt 0 score) then Positive
  else if bool_decide (score = 0%Qc) then Neutral
  else Negative.

Definition textblob_sentiment_analysis (data : list string)
    : list Qc * list sentiment * list Qc :=
  foldl (λ acc entry,
           let score := (textblob entry).1 in
           (acc.1.1 ++ [score], acc.1.2 ++ [textblob_label score],
            acc.2 ++ [(textblob entry).2])) ([], [], []) data.

(** [if label in ['4 stars', '5 stars'] ... elif label == '3 stars' ... else ...] *)
Definition distilbert_label (label : string) : sentiment :=
  if py_in label ["4 stars"; "5 stars"]%string then Positive
  else if bool_decide (label = "3 stars"%string) then Neutral
  else Negative.

Definition distilbert_sentiment_analysis (data : list string)
    : exn + (list Qc * list sentiment) :=
  match pipeline with
  | None => inl ImportError
  | Some sentiment_pipeline =>
      inr (foldl (λ acc entry,
                    let result := sentiment_pipeline entry in
                    (acc.1 ++ [result.2], acc.2 ++ [distilbert_label result.1])) ([], []) data)
  end.

(** [sa = SentimentAnalysis(df)]: the object stores the table. *)
Record sentiment_analysis : Type := mk_sentiment_analysis { sa_df : frame }.

(** [self.df[column].dtype == 'object'] *)
Definition dtype_is_object (c : option column) : bool :=
  match c with Some (ObjCol _) => true | _ => false end.

(** The first loop of [get_text_columns]: the names of the object
    columns, in column order. *)
Definition text_columns (sa : sentiment_analysis) : list string :=
  filter (λ column, dtype_is_object (frame_get (sa_df sa) column) = true) (columns (sa_df sa)).

(** One row of the result: the name, [df[col].dropna().apply(len).mean()]
    (NaN when no entry is present) and [df[col].nunique()]. *)
Definition text_column_row (col : string) (xs : list (option string)) : string * option Qc * nat :=
  (col, mean (map (λ s, Qc_of_Z (Z.of_nat (String.length s))) (dropna xs)), nunique xs).

(** [get_text_columns]: the second loop reads [self.df[col]] again for
    each collected name and appends its row to [result_data]. *)
Definition get_text_columns (sa : sentiment_analysis) : list (string * option Qc * nat) :=
  omap (λ col, match frame_get (sa_df sa) col with
               | Some (ObjCol xs) => Some (text_column_row col xs)
               | _ => None
               end) (text_columns sa).

(** ** Each loop is a row-wise map *)

Lemma foldl_append2 {A B C} (f : A → B) (g : A → C) (data : list A) (b0 : list B) (c0 : list C) :
  foldl (λ acc e, (acc.1 ++ [f e], acc.2 ++ [g e])) (b0, c0) data =
  (b0 ++ map f data, c0 ++ map g data).
Proof.
  revert b0 c0. induction data as [|e data IH]; intros b0 c0; simpl; [by rewrite !app_nil_r|].
  rewrite IH, <-!app_assoc. done.
Qed.

Lemma foldl_append3 {A B C D} (f : A → B) (g : A → C) (h : A → D) (data : list A)
    (b0 : list B) (c0 : list C) (d0 : list D) :
  foldl (λ acc e, (acc.1.1 ++ [f e], acc.1.2 ++ [g e], acc.2 ++ [h e])) (b0, c0, d0) data =
  (b0 ++ map f data, c0 ++ map g data, d0 ++ map h data).
Proof.
  revert b0 c0 d0. induction data as [|e data IH]; intros b0 c0 d0; simpl; [by rewrite !app_nil_r|].
  rewrite IH, <-!app_assoc. done.
Qed.


(** Closing the impossible cases of a threshold comparison. *)
Ltac vader_close :=
  exfalso; repeat match goal with H : _ ∧ _ |- _ => destruct H end;
  first [ match goal with H : Qclt ?x ?y, H' : Qcle ?y ?x |- _ => exact (Qclt_not_le _ _ H H') end
        | contradiction ].

(** C15 The three labellings of the spec.  VADER: a compound score is
    ['positive'] exactly when it is at least 0.05, ['negative'] exactly
    when it is at most -0.05, and ['neutral'] strictly in between.
    TextBlob: a polarity is ['neutral'] exactly when it is 0,
    ['positive'] exactly when above 0, ['negative'] exactly when below 0.
    Transformers: ['4 stars'] and ['5 stars'] are ['positive'], ['3 stars']
    is ['neutral'], and every other label, including an unexpected one,
    is ['negative']. *)
Theorem sentiment_labels_spec (score polarity : Qc) (label : string) :
  ((vader_label score = Positive ↔ Qcle (Q2Qc (5 # 100)) score) ∧
   (vader_label score = Negative ↔ Qcle score (Q2Qc (-5 # 100))) ∧
   (vader_label score = Neutral ↔
      Qclt (Q2Qc (-5 # 100)) score ∧ Qclt score (Q2Qc (5 # 100)))) ∧
  ((textblob_label polarity = Neutral ↔ polarity = 0%Qc) ∧
   (textblob_label polarity = Positive ↔ Qclt 0 polarity) ∧
   (textblob_label polarity = Negative ↔ Qclt polarity 0)) ∧
  ((distilbert_label label = Positive ↔ label = "4 stars"%string ∨ label = "5 stars"%string) ∧
   (distilbert_label label = Neutral ↔ label = "3 stars"%string)).
Proof.
  split_and; [|split].
  - unfold vader_label.
    set (a := Q2Qc (5 # 100)). set (b := Q2Qc (-5 # 100)).
    assert (Qclt b a) as Hba by reflexivity.
    case_bool_decide as Ha; [|case_bool_decide as Hb].
    + assert (¬ Qcle score b) by (intros ?; apply (Qclt_not_le _ _ Hba); by trans score).
      split_and!; split; intros; try done; vader_close.
    + assert (Qclt score a) by (by apply Qcnot_le_lt).
      split_and!; split; intros; try done; vader_close.
    + split_and!; split; intros; try done; try (split; by apply Qcnot_le_lt); vader_close.
  - unfold textblob_label. case_bool_decide as Hp; [|case_bool_decide as Hz].
    + assert (polarity ≠ 0%Qc) by (intros ->; exact (Qclt_not_le _ _ Hp (Qcle_refl _))).
      assert (¬ Qclt polarity 0) by (intros Hn; apply (Qclt_not_le _ _ Hp), Qclt_le_weak, Hn).
      split_and!; split; intros; try done; vader_close.
    + subst. split_and!; split; intros; try done; exfalso; exact (Qclt_not_le _ _ H (Qcle_refl _)).
    + assert (Qclt polarity 0) as Hn.
      { destruct (Qcle_lt_or_eq polarity 0) as [|]; [by apply Qcnot_lt_le|done|done]. }
      split_and!; split; intros; try done; vader_close.
  - unfold distilbert_label, py_in. repeat case_bool_decide; set_solver.
Qed.


(** C16 [get_text_columns] collects the object columns in a first loop
    and reads each again in a second one; on a table with distinct
    labels the result is the one-pass summary: one row per object
    column, in column order, with its own mean entry length and
    [nunique()], and no row for a numeric column. *)
Theorem get_text_columns_summary (df : frame) :
  NoDup (columns df) →
  get_text_columns (mk_sentiment_analysis df) =
    omap (λ p, match p.2 with
               | ObjCol xs =>
                   Some (p.1, mean (map (λ s, Qc_of_Z (Z.of_nat (String.length s))) (dropna xs)),
                         nunique xs)
               | NumCol _ => None
               end) df.
Proof.
  intros Hnd. unfold get_text_columns, text_columns. simpl.
  rewrite omap_filter. unfold columns. rewrite omap_map.
  apply omap_ext_in. intros [n c] Hin. simpl. unfold frame_get.
  rewrite (dict_get_elem df n c Hnd Hin). by destruct c.
Qed.

End Backends.
End Sentiment.

Lemma get_text_columns_summary_witness :
  NoDup (columns example_frame) ∧
  Sentiment.get_text_columns (Sentiment.mk_sentiment_analysis example_frame) =
    [("city", mean (map (λ s, Qc_of_Z (Z.of_nat (String.length s))) ["Oslo"; "Rome"; "Oslo"]), 2)]%string.
Proof.
  assert (NoDup (columns example_frame)) as Hnd by eval_decide.
  split; [exact Hnd|]. rewrite (Sentiment.get_text_columns_summary _ Hnd). reflexivity.
Defined.
