(* ===== verification/Select.v ===== *)
(** * Select: the analysis objects and the variable selectors of [DataAnalysis1] and [DataAnalysis2]

    An analysis object holds [self.df] and [self.column_types] (record
    [analysis]); [init1] and [init2] are the two [__init__] methods, and
    [new_analysis2] adds the printing that [DataAnalysis2]'s
    [list_column_types] does.

    Both filter the dict [self.column_types] by a label and then read
    lines from standard input until one names an eligible column.  The
    reading loop [read_valid] recurses on the remaining input lines, so
    it is total: it returns the first eligible line, or raises
    [EOFError] once the input is exhausted, which is how an unbounded
    [while True: input()] ends on a finite input.  The theorems give the
    selected column, the lines consumed, the skip and error paths, and
    that a selector with nothing eligible and no skip never returns. *)

From S2P Require Import Prelude Frame Classify Effects.
Import Series DataFrame.

Module Select.

(** The state of a [DataAnalysis1] or [DataAnalysis2] object. *)
Record analysis : Type := mk_analysis {
  an_df : frame;
  column_types : list (string * col_type)
}.

(** [DataAnalysis1.__init__]: [self.df = df; self.column_types = self.list_column_types()]. *)
Definition init1 (df : frame) : analysis := mk_analysis df (Analysis1.list_column_types df).

(** [DataAnalysis2.__init__]. *)
Definition init2 (df : frame) : analysis := mk_analysis df (Analysis2.list_column_types df).
Section WithState.
Context {S : Type}.

(** The end of [DataAnalysis2.list_column_types]: [print("Column
    Classifications:")] and one line per entry of the dict. *)
Definition print_column_types (column_types : list (string * col_type)) : M S unit :=
  emit (EvColumnTypes column_types).

(** [DataAnalysis2(df)]: [__init__] calls [list_column_types], which
    prints the dict it returns. *)
Definition new_analysis2 (df : frame) : M S analysis :=
  let da2 := init2 df in
  print_column_types (column_types da2);;
  mret da2.

(** [[col for col, col_type in self.column_types.items() if col_type == data_type]] *)
Definition available_vars (types : list (string * col_type)) (data_type : col_type) : list string :=
  map fst (filter (λ p, p.2 = data_type) types).

(** The prompt loop: read a line; return it if it is eligible, otherwise
    emit [on_invalid] and read again. *)
Fixpoint read_valid (avail : list string) (on_invalid : list event) (inp : list string)
    (w : world S) : (exn + string) * world S :=
  match inp with
  | [] => (inl EOFError, mk_world (w_state w) [] (w_log w))
  | line :: rest =>
      if py_in line avail then (inr line, mk_world (w_state w) rest (w_log w))
      else read_valid avail on_invalid rest (mk_world (w_state w) rest (w_log w ++ on_invalid))
  end.

Definition prompt_until (avail : list string) (on_invalid : list event) : M S string :=
  λ w, read_valid avail on_invalid (w_input w) w.

(** [DataAnalysis1.select_variable]: skips only when allowed and nothing
    is eligible, then loops with ["Invalid choice. Please try again."]. *)
Definition select_variable1 (types : list (string * col_type)) (data_type : col_type)
    (allow_skip : bool) : M S (option string) :=
  let available := available_vars types data_type in
  if allow_skip && bool_decide (available = []) then mret None else
  emit (EvAvailable available);;
  selected_var ← prompt_until available [EvInvalidChoice];
  mret (Some selected_var).

(** [self.df[col].nunique() <= max_categories] *)
Definition nunique_at_most (df : frame) (m : nat) (col : string) : bool :=
  match frame_get df col with
  | Some c => bool_decide (col_nunique c ≤ m)
  | None => false
  end.

(** [DataAnalysis2.select_variable]: an optional bound on the number of
    categories, a [ValueError] when nothing is eligible and skipping is
    not allowed, then the same prompt loop (the re-prompt text is part
    of the prompt, so nothing else is printed). *)
Definition select_variable2 (df : frame) (types : list (string * col_type)) (data_type : col_type)
    (max_categories : option nat) (allow_skip : bool) : M S (option string) :=
  let available_columns := available_vars types data_type in
  let available_columns :=
    match max_categories with
    | Some m => filter (λ col, nunique_at_most df m col = true) available_columns
    | None => available_columns
    end in
  if bool_decide (available_columns = []) then
    if allow_skip then mret None
    else raise (ValueError "No columns available with the specified data type and max categories.")
  else
    emit (EvAvailable available_columns);;
    selected_column ← prompt_until available_columns [];
    mret (Some selected_column).


(** ** The prompt loop *)

Lemma read_valid_first (avail : list string) (evs : list event) pre x post (w : world S) :
  Forall (λ l, l ∉ avail) pre → x ∈ avail →
  read_valid avail evs (pre ++ x :: post) w =
  (inr x, mk_world (w_state w) post (w_log w ++ concat (replicate (length pre) evs))).
Proof.
  revert w. induction pre as [|l pre IH]; intros w Hpre Hx; simpl.
  - rewrite (proj2 (py_in_true _ _) Hx), app_nil_r. done.
  - apply Forall_cons in Hpre as [Hl Hpre].
    destruct (py_in l avail) eqn:E; [apply py_in_true in E; done|].
    rewrite IH by done. simpl. by rewrite app_assoc.
Qed.

Lemma read_valid_eof (avail : list string) (evs : list event) inp (w : world S) :
  Forall (λ l, l ∉ avail) inp →
  read_valid avail evs inp w =
  (inl EOFError, mk_world (w_state w) [] (w_log w ++ concat (replicate (length inp) evs))).
Proof.
  revert w. induction inp as [|l inp IH]; intros w Hinp; simpl; [by rewrite app_nil_r|].
  apply Forall_cons in Hinp as [Hl Hinp].
  destruct (py_in l avail) eqn:E; [apply py_in_true in E; done|].
  rewrite IH by done. simpl. by rewrite app_assoc.
Qed.

Lemma elem_of_available_vars types data_type col :
  col ∈ available_vars types data_type ↔ (col, data_type) ∈ types.
Proof.
  unfold available_vars. rewrite list_elem_of_fmap. setoid_rewrite list_elem_of_filter.
  split; [intros ([k t] & -> & Ht & ?); simpl in *; by subst|intros ?; by exists (col, data_type)].
Qed.

(** An eligible first line is selected at once. *)
Lemma select_variable1_pick types data_type allow_skip x post (s : S) l :
  x ∈ available_vars types data_type →
  select_variable1 types data_type allow_skip (mk_world s (x :: post) l) =
  (inr (Some x), mk_world s post (l ++ [EvAvailable (available_vars types data_type)])).
Proof.
  intros Hx. unfold select_variable1.
  rewrite (bool_decide_eq_false_2 (available_vars types data_type = [])), andb_false_r
    by (intros Hnil; rewrite Hnil in Hx; by apply not_elem_of_nil in Hx).
  erewrite bind_inr by reflexivity. erewrite bind_inr.
  2: { unfold prompt_until. simpl. by rewrite (proj2 (py_in_true _ _) Hx). }
  done.
Qed.

(** C17 [DataAnalysis1.select_variable] returns the first input line that
    names a column of the requested label: the ineligible lines before it
    are each answered with ["Invalid choice"], the lines after it are
    left unread, and the returned column carries the label in
    [column_types].  With no column of the label it never returns a
    column: with [allow_skip] it returns [None] without reading, and
    otherwise it rejects every input line and only stops when the input
    ends ([EOFError]). *)
Theorem select_variable1_spec types data_type allow_skip (s : S) l :
  (∀ pre x post,
     Forall (λ line, line ∉ available_vars types data_type) pre →
     x ∈ available_vars types data_type →
     select_variable1 types data_type allow_skip (mk_world s (pre ++ x :: post) l) =
     (inr (Some x), mk_world s post (l ++ EvAvailable (available_vars types data_type)
                                          :: concat (replicate (length pre) [EvInvalidChoice])))
     ∧ (x, data_type) ∈ types) ∧
  (available_vars types data_type = [] → ∀ inp,
     select_variable1 types data_type allow_skip (mk_world s inp l) =
     if allow_skip then (inr None, mk_world s inp l)
     else (inl EOFError, mk_world s [] (l ++ EvAvailable [] ::
                                            concat (replicate (length inp) [EvInvalidChoice])))).
Proof.
  unfold select_variable1. split.
  - intros pre x post Hpre Hx. split; [|by apply elem_of_available_vars].
    rewrite (bool_decide_eq_false_2 (available_vars types data_type = [])), andb_false_r
      by (intros Hnil; rewrite Hnil in Hx; by apply not_elem_of_nil in Hx).
    erewrite bind_inr by reflexivity. erewrite bind_inr.
    2: { unfold prompt_until. simpl. by apply read_valid_first. }
    simpl. by rewrite <-app_assoc.
  - intros Hnil inp. rewrite Hnil. destruct allow_skip; [done|].
    simpl. erewrite bind_inr by reflexivity. erewrite bind_inl.
    2: { unfold prompt_until. simpl. apply read_valid_eof. apply Forall_forall.
         intros ? _ ?%not_elem_of_nil. done. }
    simpl. by rewrite <-app_assoc.
Qed.

(** [DataAnalysis2.select_variable] with an eligible column: it prints
    the eligible columns and returns the first line naming one; its
    re-prompt prints nothing. *)
Lemma select_variable2_first_valid (df : frame) types data_type max_categories allow_skip
    pre x post (s : S) l :
  let avail := match max_categories with
               | Some m => filter (λ col, nunique_at_most df m col = true)
                                  (available_vars types data_type)
               | None => available_vars types data_type end in
  Forall (λ line, line ∉ avail) pre → x ∈ avail →
  select_variable2 df types data_type max_categories allow_skip (mk_world s (pre ++ x :: post) l) =
    (inr (Some x), mk_world s post (l ++ [EvAvailable avail])).
Proof.
  intros avail Hpre Hx. unfold select_variable2. fold avail.
  rewrite bool_decide_false by (intros Hnil; rewrite Hnil in Hx; by apply not_elem_of_nil in Hx).
  erewrite bind_inr by reflexivity. erewrite bind_inr.
  2: { unfold prompt_until. simpl. by apply read_valid_first. }
  simpl. f_equal. f_equal. rewrite <-app_assoc. f_equal. by induction (length pre).
Qed.

(** C18 [DataAnalysis2.select_variable] computes the eligible columns
    (the label's columns, cut to those with at most [m] distinct values
    under [max_categories = Some m]).  With none eligible it returns
    [None] when skipping is allowed and otherwise raises [ValueError],
    in both cases before reading any input.  Otherwise it prints the
    eligible columns and returns the first input line that names one,
    the lines before it rejected silently and the lines after it left
    unread.  Whatever it returns has the requested label and the bound,
    and the only other exception is [EOFError]. *)
Theorem select_variable2_spec (df : frame) types data_type max_categories allow_skip (w : world S) :
  let avail := match max_categories with
               | Some m => filter (λ col, nunique_at_most df m col = true)
                                  (available_vars types data_type)
               | None => available_vars types data_type end in
  (avail = [] →
   select_variable2 df types data_type max_categories allow_skip w =
     if allow_skip then (inr None, w)
     else (inl (ValueError "No columns available with the specified data type and max categories."), w)) ∧
  (∀ pre x post (s : S) l,
     Forall (λ line, line ∉ avail) pre → x ∈ avail →
     select_variable2 df types data_type max_categories allow_skip (mk_world s (pre ++ x :: post) l) =
       (inr (Some x), mk_world s post (l ++ [EvAvailable avail]))) ∧
  (∀ r w', select_variable2 df types data_type max_categories allow_skip w = (inr (Some r), w') →
     (r, data_type) ∈ types ∧
     (∀ m, max_categories = Some m → ∃ c, frame_get df r = Some c ∧ col_nunique c ≤ m)) ∧
  (∀ e w', select_variable2 df types data_type max_categories allow_skip w = (inl e, w') →
     e = EOFError ∨
     (allow_skip = false ∧ w' = w ∧
      e = ValueError "No columns available with the specified data type and max categories.")).
Proof.
  intros avail. unfold select_variable2. fold avail.
  split; [intros ->; rewrite bool_decide_true by done; by destruct allow_skip|].
  split; [intros pre x post s l; apply select_variable2_first_valid|].
  assert (∀ r, r ∈ avail → (r, data_type) ∈ types ∧
     (∀ m, max_categories = Some m → ∃ c, frame_get df r = Some c ∧ col_nunique c ≤ m)) as Havail.
  { intros r Hr. unfold avail in Hr. destruct max_categories as [m|].
    - apply list_elem_of_filter in Hr as [Hm Hr]. split; [by apply elem_of_available_vars|].
      intros m' [= <-]. unfold nunique_at_most in Hm.
      destruct (frame_get df r) as [c|]; [|done]. exists c. split; [done|]. by case_bool_decide.
    - split; [by apply elem_of_available_vars|done]. }
  case_bool_decide as Hnil.
  { destruct allow_skip; split; intros ???; unfold raise in *; simplify_eq/=; auto. }
  erewrite bind_inr by reflexivity. unfold prompt_until. simpl.
  generalize (mk_world (w_state w) (w_input w) (w_log w ++ [EvAvailable avail])) as w1.
  intros w1.
  assert (∀ inp w1 r w', read_valid avail [] inp w1 = (inr r, w') → r ∈ avail) as Hr.
  { induction inp as [|line rest IH]; intros w0 r w' Hrv; simpl in Hrv; [done|].
    destruct (py_in line avail) eqn:E; [simplify_eq; by apply py_in_true|eauto]. }
  assert (∀ inp w1 e w', read_valid avail [] inp w1 = (inl e, w') → e = EOFError) as He.
  { induction inp as [|line rest IH]; intros w0 e w' Hrv; simpl in Hrv; [by simplify_eq|].
    destruct (py_in line avail); [done|eauto]. }
  unfold mbind, M_bind. destruct (read_valid avail [] (w_input w1) w1) as [[e|r] w2] eqn:Hrv;
    split; intros ?? Hrun; unfold mret, M_ret in Hrun; simplify_eq/=; eauto.
Qed.

(** ** The selectors read only the lines they answer and always finish *)

Lemma read_valid_consumes avail evs inp (w : world S) :
  suffix (w_input (read_valid avail evs inp w).2) inp ∧
  (read_valid avail evs inp w).1 ≠ inl OutOfFuel.
Proof.
  revert w. induction inp as [|l inp IH]; intros w; simpl; [done|].
  destruct (py_in l avail); simpl; [split; [by apply suffix_cons_r|done]|].
  destruct (IH (mk_world (w_state w) inp (w_log w ++ evs))) as [Hs Hn].
  split; [by apply suffix_cons_r|done].
Qed.

Lemma prompt_until_consumes avail evs : consumes (prompt_until avail evs).
Proof. intros w. apply read_valid_consumes. Qed.

Lemma prompt_until_no_oof avail evs : no_oof (prompt_until avail evs).
Proof.
  intros w w' Hr. destruct (read_valid_consumes avail evs (w_input w) w) as [_ Hn].
  unfold prompt_until in Hr. by rewrite Hr in Hn.
Qed.

#[local] Hint Resolve prompt_until_consumes prompt_until_no_oof : consumes no_oof.

Lemma select_variable1_consumes types data_type allow_skip :
  consumes (select_variable1 types data_type allow_skip).
Proof. unfold select_variable1. solve_consumes. Qed.

Lemma select_variable1_no_oof types data_type allow_skip :
  no_oof (select_variable1 types data_type allow_skip).
Proof. unfold select_variable1. solve_no_oof. Qed.

Lemma select_variable2_consumes df types data_type max_categories allow_skip :
  consumes (select_variable2 df types data_type max_categories allow_skip).
Proof. unfold select_variable2. solve_consumes. Qed.

Lemma select_variable2_no_oof df types data_type max_categories allow_skip :
  no_oof (select_variable2 df types data_type max_categories allow_skip).
Proof. unfold select_variable2. solve_no_oof. Qed.

End WithState.
End Select.

#[export] Hint Resolve Select.select_variable1_consumes Select.select_variable2_consumes
  Select.prompt_until_consumes : consumes.
#[export] Hint Resolve Select.select_variable1_no_oof Select.select_variable2_no_oof
  Select.prompt_until_no_oof : no_oof.

(** ** The theorems at an example classification *)

Lemma select_variable1_spec_witness :
  Forall (λ line, line ∉ Select.available_vars [("age", Interval); ("city", Nominal)] Interval)
    ["city"]%string ∧
  "age"%string ∈ Select.available_vars [("age", Interval); ("city", Nominal)] Interval ∧
  (∃ w', Select.select_variable1 [("age", Interval); ("city", Nominal)] Interval false
           (mk_world tt ["city"; "age"; "1"]%string []) = (inr (Some "age"%string), w')) ∧
  Select.available_vars [("city", Nominal)] Interval = [] ∧
  Select.select_variable1 [("city", Nominal)] Interval false (mk_world tt ["age"]%string []) =
    (inl EOFError, mk_world tt [] [EvAvailable []; EvInvalidChoice]).
Proof.
  assert (Forall (λ line, line ∉ Select.available_vars [("age", Interval); ("city", Nominal)]
                                    Interval) ["city"]%string) as Hpre
    by (repeat constructor; eval_decide).
  assert ("age"%string ∈ Select.available_vars [("age", Interval); ("city", Nominal)] Interval)
    as Hx by eval_decide.
  assert (Select.available_vars [("city", Nominal)] Interval = []) as Hnil by reflexivity.
  split_and!; [exact Hpre|exact Hx| |exact Hnil|].
  - eexists. exact (proj1 (proj1 (Select.select_variable1_spec _ _ false tt [])
                             ["city"]%string _ ["1"]%string Hpre Hx)).
  - exact (proj2 (Select.select_variable1_spec _ _ false tt []) Hnil ["age"]%string).
Defined.

Lemma select_variable2_spec_witness :
  let types := [("age", Interval); ("city", Nominal)]%string in
  Forall (λ line, line ∉ filter (λ col, Select.nunique_at_most example_frame 2 col = true)
                          (Select.available_vars types Nominal)) ["age"]%string ∧
  "city"%string ∈ filter (λ col, Select.nunique_at_most example_frame 2 col = true)
                    (Select.available_vars types Nominal) ∧
  Select.select_variable2 (S:=unit) example_frame types Nominal (Some 2) false
    (mk_world tt ["age"; "city"]%string []) =
    (inr (Some "city"%string), mk_world tt [] [EvAvailable ["city"]%string]) ∧
  filter (λ col, Select.nunique_at_most example_frame 1 col = true)
    (Select.available_vars types Nominal) = [] ∧
  Select.select_variable2 (S:=unit) example_frame types Nominal (Some 1) false (mk_world tt [] []) =
    (inl (ValueError "No columns available with the specified data type and max categories."),
     mk_world tt [] []).
Proof.
  intros types.
  assert (Forall (λ line, line ∉ filter (λ col, Select.nunique_at_most example_frame 2 col = true)
                                  (Select.available_vars types Nominal)) ["age"]%string) as Hpre
    by (repeat constructor; eval_decide).
  assert ("city"%string ∈ filter (λ col, Select.nunique_at_most example_frame 2 col = true)
                            (Select.available_vars types Nominal)) as Hx by eval_decide.
  assert (filter (λ col, Select.nunique_at_most example_frame 1 col = true)
            (Select.available_vars types Nominal) = []) as Hnil by (vm_compute; reflexivity).
  split_and!; [exact Hpre|exact Hx| |exact Hnil|].
  - exact (proj1 (proj2 (Select.select_variable2_spec example_frame types Nominal (Some 2) false
                           (mk_world tt [] []))) ["age"]%string _ [] tt [] Hpre Hx).
  - exact (proj1 (Select.select_variable2_spec example_frame types Nominal (Some 1) false
                    (mk_world tt [] [])) Hnil).
Defined.
