(* ===== verification/Grouping.v ===== *)
(** * Grouping: the pandas row selections the tests are called on

    The cells of a column as keys ([value]), the rows where two columns
    are both present ([df[[x, k]].dropna()], [present_pairs]), [groupby]
    with its sorted distinct keys ([group_keys], [groups_of],
    [groupby_dropna]) and [pd.crosstab] ([crosstab]), for the test
    dispatchers of [src/data_analysis1.py] and [src/data_analysis2.py].
    Its lemmas (the groups partition the complete rows, the groups of
    [t_test_or_mannwhitney] refine those of [hypothesis_test], the
    crosstab keeps every complete row and has no zero margin) are used
    by the dispatch theorems of Stats.v and the menu theorems of Menu.v. *)

From S2P Require Import Prelude Frame.
Import Series DataFrame.

(** A cell as a [groupby] or [crosstab] key. *)
Inductive value : Type := VNum (q : Qc) | VStr (s : string).

#[export] Instance value_eq_dec : EqDecision value.
Proof. solve_decision. Defined.

(** The order pandas sorts the group keys in; a column holds one kind. *)
Definition value_le (a b : value) : Prop :=
  match a, b with
  | VNum x, VNum y => Qcle x y
  | VStr x, VStr y => String.le x y
  | VNum _, VStr _ => True
  | VStr _, VNum _ => False
  end.

#[export] Instance value_le_dec : RelDecision value_le.
Proof. intros [] []; simpl; apply _. Defined.

(** The cells of a column as keys. *)
Definition column_values (c : column) : list (option value) :=
  match c with
  | NumCol xs => map (fmap VNum) xs
  | ObjCol xs => map (fmap VStr) xs
  end.

Module Grouping.

(** [df[[x, k]].dropna()]: the rows where both cells are present. *)
Fixpoint present_pairs {A B} (xs : list (option A)) (ks : list (option B)) : list (A * B) :=
  match xs, ks with
  | Some x :: xs', Some k :: ks' => (x, k) :: present_pairs xs' ks'
  | _ :: xs', _ :: ks' => present_pairs xs' ks'
  | _, _ => []
  end.

(** The keys of a [groupby]: distinct, sorted, missing keys left out. *)
Definition group_keys (ks : list value) : list value :=
  merge_sort value_le (remove_dups ks).

(** [[group[x].values for name, group in rows.groupby(k)]] *)
Definition groups_of (rows : list (Qc * value)) : list (list Qc) :=
  map (λ k, map fst (filter (λ r : Qc * value, r.2 = k) rows)) (group_keys (map snd rows)).

(** The cells of [x] in the rows whose key is [k]. *)
Fixpoint group_cells (k : value) (xs : list (option Qc)) (ks : list (option value))
    : list (option Qc) :=
  match xs, ks with
  | x :: xs', k' :: ks' =>
      if decide (k' = Some k) then x :: group_cells k xs' ks' else group_cells k xs' ks'
  | _, _ => []
  end.

(** [[group[x].dropna() for name, group in df.groupby(k)]] *)
Definition groupby_dropna (xs : list (option Qc)) (ks : list (option value)) : list (list Qc) :=
  map (λ k, dropna (group_cells k xs ks)) (group_keys (dropna ks)).

(** The number of rows holding the pair of keys [(r, c)]. *)
Definition pair_count (rows : list (value * value)) (r c : value) : nat :=
  length (filter (λ p, p = (r, c)) rows).

(** A contingency table: the index and column labels and the counts,
    one list per index label. *)
Record table : Type := mk_table {
  tab_index : list value;
  tab_columns : list value;
  tab_counts : list (list nat)
}.

(** [pd.crosstab(a, b)]: the rows where both cells are present
    ([dropna=True] drops a missing key on either side), indexed by the
    sorted distinct keys of [a] and of [b], each cell the number of rows
    with that pair. *)
Definition crosstab (a b : list (option value)) : table :=
  let rows := present_pairs a b in
  let index := group_keys (map fst rows) in
  let cols := group_keys (map snd rows) in
  mk_table index cols (map (λ r, map (λ c, pair_count rows r c) cols) index).

End Grouping.

(** ** The key order is a total order *)

#[export] Instance value_le_po : base.PartialOrder value_le.
Proof.
  split; [split|].
  - intros [x|x]; simpl; [apply Qcle_refl|reflexivity].
  - intros [x|x] [y|y] [z|z]; simpl; intros H1 H2; try done; [eapply Qcle_trans|etrans]; eauto.
  - intros [x|x] [y|y]; simpl; intros H1 H2; try done; f_equal;
      [by apply Qcle_antisym|by apply (anti_symm String.le)].
Qed.

#[export] Instance value_le_total : Total value_le.
Proof. intros [x|x] [y|y]; simpl; auto; [apply Qc_le_total|apply String.le_total]. Qed.

Module GroupingFacts.
Import Grouping.

Lemma NoDup_group_keys l : NoDup (group_keys l).
Proof. unfold group_keys. rewrite merge_sort_Permutation. apply NoDup_remove_dups. Qed.

Lemma elem_of_group_keys l x : x ∈ group_keys l ↔ x ∈ l.
Proof. unfold group_keys. by rewrite merge_sort_Permutation, elem_of_remove_dups. Qed.

(** Keeping some keys of a [groupby] gives the keys of the kept rows. *)
Lemma filter_group_keys (Q : value → Prop) `{∀ x, Decision (Q x)} l l' :
  (∀ x, x ∈ l ∧ Q x ↔ x ∈ l') → filter Q (group_keys l) = group_keys l'.
Proof.
  intros Hl. unfold group_keys. rewrite filter_merge_sort by apply _.
  apply merge_sort_set_eq; [apply _..|apply NoDup_filter, NoDup_remove_dups|apply NoDup_remove_dups|].
  intros x. rewrite list_elem_of_filter, !elem_of_remove_dups, <-Hl. tauto.
Qed.

(** A group is empty exactly when no row has its key. *)
Lemma group_nonempty {A} (rows : list (A * value)) k :
  map fst (filter (λ r : A * value, r.2 = k) rows) ≠ [] ↔ k ∈ map snd rows.
Proof.
  rewrite list_elem_of_fmap. split.
  - intros Hne. destruct (filter _ rows) as [|r rs] eqn:E; [done|].
    assert (r ∈ filter (λ r : A * value, r.2 = k) rows) as [Hk Hr]%list_elem_of_filter
      by (rewrite E; left). by exists r.
  - intros (r & -> & Hr) Hnil. apply map_eq_nil in Hnil.
    by apply (filter_nil_not_elem_of _ _ r Hnil).
Qed.

Lemma group_cells_pairs k xs ks :
  dropna (group_cells k xs ks) = map fst (filter (λ r : Qc * value, r.2 = k) (present_pairs xs ks)).
Proof.
  revert ks. induction xs as [|x xs IH]; intros [|k' ks]; [done|done|by destruct x|].
  destruct x as [x|], k' as [k'|]; simpl; rewrite ?filter_cons;
    repeat case_decide; simplify_eq/=; rewrite ?IH; done.
Qed.

Lemma present_keys {A B} (xs : list (option A)) (ks : list (option B)) k :
  k ∈ map snd (present_pairs xs ks) → k ∈ dropna ks.
Proof.
  revert ks. induction xs as [|x xs IH]; intros [|k' ks] Hk; try destruct x;
    simpl in Hk; try by apply not_elem_of_nil in Hk.
  all: destruct k'; simpl in *; rewrite ?elem_of_cons in *; naive_solver.
Qed.

(** The keys of a [groupby] or [crosstab] cover its rows. *)
Lemma group_keys_cover {A} (f : A → value) (rows : list A) p :
  p ∈ rows → f p ∈ group_keys (map f rows).
Proof. intros Hp. apply elem_of_group_keys, list_elem_of_fmap. by exists p. Qed.

(** The rows of a column paired with itself. *)
Lemma present_pairs_diag {A} (a : list (option A)) :
  present_pairs a a = map (λ x, (x, x)) (dropna a).
Proof. induction a as [|[x|] a IH]; simpl; by rewrite ?IH. Qed.

(** A cell of the table counts the rows of one key among those of the
    other, from either side. *)
Lemma pair_count_by_index rows r c :
  pair_count rows r c =
    length (filter (λ p : value * value, p.2 = c) (filter (λ p, p.1 = r) rows)).
Proof.
  unfold pair_count. rewrite list_filter_filter. f_equal.
  apply list_filter_iff. intros [x y]. simpl. naive_solver.
Qed.

Lemma pair_count_by_column rows r c :
  pair_count rows r c =
    length (filter (λ p : value * value, p.1 = r) (filter (λ p, p.2 = c) rows)).
Proof.
  unfold pair_count. rewrite list_filter_filter. f_equal.
  apply list_filter_iff. intros [x y]. simpl. naive_solver.
Qed.

(** The margins of a contingency table are the value counts of each
    side among its rows. *)
Lemma row_margin rows r :
  sum_list_with (pair_count rows r) (group_keys (map snd rows)) =
    length (filter (λ p : value * value, p.1 = r) rows).
Proof.
  rewrite (sum_list_with_ext_in _ _ _ (λ c _, pair_count_by_index rows r c)).
  apply (count_by_keys snd); [apply NoDup_group_keys|].
  intros p [_ Hp]%list_elem_of_filter. by apply group_keys_cover.
Qed.

Lemma column_margin rows c :
  sum_list_with (λ r, pair_count rows r c) (group_keys (map fst rows)) =
    length (filter (λ p : value * value, p.2 = c) rows).
Proof.
  rewrite (sum_list_with_ext_in _ _ _ (λ r _, pair_count_by_column rows r c)).
  apply (count_by_keys fst); [apply NoDup_group_keys|].
  intros p [_ Hp]%list_elem_of_filter. by apply group_keys_cover.
Qed.

(** A key of the table labels at least one row. *)
Lemma margin_pos (f : value * value → value) rows k :
  k ∈ group_keys (map f rows) → 0 < length (filter (λ p, f p = k) rows).
Proof.
  intros (p & -> & Hp)%elem_of_group_keys%list_elem_of_fmap. by apply (filter_length_pos _ _ p).
Qed.

End GroupingFacts.

Section GroupingTheorems.
Import Grouping GroupingFacts.

(** [groupby] on the rows with both cells present splits them into one
    non-empty group per distinct key. *)
Lemma groups_partition (rows : list (Qc * value)) :
  concat (groups_of rows) ≡ₚ map fst rows ∧
  Forall (λ g, g ≠ []) (groups_of rows) ∧
  length (groups_of rows) = length (remove_dups (map snd rows)).
Proof.
  unfold groups_of. split_and!.
  - rewrite <-(concat_filter_keys rows (group_keys (map snd rows))) at 2.
    + by rewrite concat_map, map_map.
    + apply NoDup_group_keys.
    + intros r Hr. apply elem_of_group_keys, list_elem_of_fmap. by exists r.
  - apply Forall_forall. intros g (k & -> & Hk)%list_elem_of_fmap.
    by apply group_nonempty, elem_of_group_keys.
  - rewrite length_map. unfold group_keys. by rewrite merge_sort_Permutation.
Qed.

(** The groups of [t_test_or_mannwhitney] are those of [hypothesis_test]
    plus an empty group for each key whose continuous cells are all
    missing. *)
Lemma groupby_dropna_refines (xs : list (option Qc)) (ks : list (option value)) :
  filter (λ g, g ≠ []) (groupby_dropna xs ks) = groups_of (present_pairs xs ks).
Proof.
  unfold groupby_dropna, groups_of. rewrite filter_map_comm.
  rewrite (map_ext (λ k, dropna (group_cells k xs ks))
                   (λ k, map fst (filter (λ r : Qc * value, r.2 = k) (present_pairs xs ks))))
    by (intros k; exact (group_cells_pairs k xs ks)).
  f_equal. rewrite (filter_ext_in _ (λ k, map fst (filter (λ r : Qc * value, r.2 = k)
                                                    (present_pairs xs ks)) ≠ []))
    by (intros; by rewrite group_cells_pairs).
  apply filter_group_keys. intros k. rewrite group_nonempty.
  split; [tauto|]. intros Hk. split; [by apply (present_keys xs)|done].
Qed.

(** The contingency table of [chi_square_test] is well formed and
    loses no row: one count list per index label, each as long as the
    column labels, and the counts add up to the number of rows where
    both cells are present. *)
Lemma crosstab_shape_total (a b : list (option value)) :
  let t := crosstab a b in
  length (tab_counts t) = length (tab_index t) ∧
  Forall (λ row, length row = length (tab_columns t)) (tab_counts t) ∧
  sum_list_with sum_list (tab_counts t) = length (present_pairs a b).
Proof.
  simpl. split_and!; [by rewrite length_map| |].
  - apply Forall_forall. intros row (r & -> & _)%list_elem_of_fmap. by rewrite length_map.
  - rewrite sum_list_with_map, <-(count_by_keys fst _ (group_keys (map fst (present_pairs a b))));
      [|apply NoDup_group_keys|intros; by apply group_keys_cover].
    apply sum_list_with_ext_in. intros r _. simpl. by rewrite sum_list_with_map, <-row_margin.
Qed.

(** Every margin of the contingency table is the value count of its
    label among the rows where both cells are present, and none is zero,
    so each expected frequency [chi2_contingency] computes from them
    (row sum times column sum over the total) is positive. *)
Lemma crosstab_margins (a b : list (option value)) :
  let rows := present_pairs a b in
  let t := crosstab a b in
  Forall2 (λ r row, sum_list row = length (filter (λ p : value * value, p.1 = r) rows) ∧
                    0 < sum_list row) (tab_index t) (tab_counts t) ∧
  (∀ j c, tab_columns t !! j = Some c →
     let col_sum := sum_list_with (λ row, default 0 (row !! j)) (tab_counts t) in
     col_sum = length (filter (λ p : value * value, p.2 = c) rows) ∧ 0 < col_sum).
Proof.
  intros rows t. split.
  - apply Forall2_fmap_r, Forall_Forall2_diag, Forall_forall. intros r Hr.
    simpl. rewrite sum_list_with_map. change (id ∘ ?g) with g. fold rows. rewrite row_margin. split; [done|]. by apply (margin_pos fst).
  - intros j c Hj col_sum. unfold col_sum, t in *. simpl in *. rewrite sum_list_with_map.
    rewrite (sum_list_with_ext_in _ (λ r, pair_count rows r c)).
    + rewrite column_margin. split; [done|]. apply (margin_pos snd).
      by apply list_elem_of_lookup_2 in Hj.
    + intros r _. simpl. by rewrite list_lookup_fmap, Hj.
Qed.

(** The crosstab of a column with itself is diagonal: both labels are
    the sorted distinct values of the column, and the only non-zero
    counts are the value counts on the diagonal. *)
Lemma crosstab_same_column (a : list (option value)) :
  let K := group_keys (dropna a) in
  crosstab a a =
    mk_table K K (map (λ r, map (λ c, if decide (r = c)
                                      then length (filter (λ x, x = r) (dropna a)) else 0) K) K).
Proof.
  unfold crosstab. rewrite present_pairs_diag, !map_map. simpl. rewrite !map_id.
  f_equal. apply map_ext. intros r. apply map_ext. intros c. unfold pair_count.
  rewrite filter_map_comm, length_map. case_decide as Hrc.
  - subst. f_equal. apply list_filter_iff. naive_solver.
  - induction (dropna a) as [|x l IH]; [done|]. rewrite filter_cons. case_decide; naive_solver.
Qed.

(** One group of [t_test_or_mannwhitney] per distinct present key. *)
Lemma length_groupby_dropna (xs : list (option Qc)) (ks : list (option value)) :
  length (groupby_dropna xs ks) = length (remove_dups (dropna ks)).
Proof. unfold groupby_dropna, group_keys. by rewrite length_map, merge_sort_Permutation. Qed.

End GroupingTheorems.
