(* ===== verification/Stats.v ===== *)
(** * Stats: the test dispatchers of [DataAnalysis1] and [DataAnalysis2]

    The statistical tests themselves are calls into [scipy.stats]; they
    are the fields of the class [StatsLib], and the dispatchers of
    [src/data_analysis1.py] ([check_normality], [check_skewness],
    [hypothesis_test]) and [src/data_analysis2.py] ([check_normality],
    [perform_regression], [t_test_or_mannwhitney], [chi_square_test])
    are proved against that interface.  What the code itself decides is
    modelled: which rows reach a test (the [dropna] calls, the pandas
    [groupby] and [crosstab] of Grouping.v, the truncation of the
    regression samples), which of two tests runs, and the exceptions on the way
    (a missing column, the arity of [ttest_ind] on the unpacked groups, the truth
    value of the critical-value array that [stats.anderson(...)[:2]]
    puts where a p-value is expected). *)

From S2P Require Import Prelude Frame Effects Grouping.
From Stdlib Require Import Qcabs.
Import Series DataFrame.


(** The interface of [scipy.stats] the dispatchers call.  [anderson]
    returns the statistic and the array of critical values (the
    significance levels are cut off by [[:2]]); for [dist='norm'] that
    array has five entries. *)
Class StatsLib := {
  shapiro : list Qc → Qc * Qc;
  anderson : list Qc → Qc * list Qc;
  anderson_critical_values xs : length (anderson xs).2 = 5;
  skew : list Qc → option Qc;
  kruskal : list (list Qc) → Qc * Qc;
  f_oneway : list (list Qc) → Qc * Qc;
  ttest_ind : list Qc → list Qc → Qc * Qc;
  mannwhitneyu : list Qc → list Qc → Qc * Qc;
  linregress : list Qc → list Qc → Qc * Qc * Qc * Qc * Qc;
  chi2_contingency : list (list nat) → Qc * Qc
}.


(** A stand-in for [scipy.stats] used by the examples: constant
    results, and five critical values as [anderson(dist='norm')] has. *)
Definition example_stats : StatsLib := {|
  shapiro _ := (Qc_of_Z 1, Q2Qc (1 # 2));
  anderson _ := (Qc_of_Z 1, [Qc_of_Z 0; Qc_of_Z 0; Qc_of_Z 0; Qc_of_Z 0; Qc_of_Z 0]);
  anderson_critical_values _ := eq_refl;
  skew _ := None;
  kruskal _ := (Qc_of_Z 0, Qc_of_Z 1);
  f_oneway _ := (Qc_of_Z 0, Qc_of_Z 1);
  ttest_ind _ _ := (Qc_of_Z 0, Qc_of_Z 1);
  mannwhitneyu _ _ := (Qc_of_Z 0, Qc_of_Z 1);
  linregress _ _ := (Qc_of_Z 0, Qc_of_Z 0, Qc_of_Z 0, Qc_of_Z 1, Qc_of_Z 0);
  chi2_contingency _ := (Qc_of_Z 0, Qc_of_Z 1)
|}.

Section Tests.
Context `{StatsLib} {S : Type}.
Import Grouping.

(** [self.df[col]], or [KeyError]. *)
Definition lookup_col (df : frame) (col : string) : M S column :=
  match frame_get df col with
  | Some c => mret c
  | None => raise (KeyError col)
  end.

(** The numeric cells of a column a numeric test is called on. *)
Definition numeric_cells (c : column) : M S (list (option Qc)) :=
  match c with
  | NumCol xs => mret xs
  | ObjCol _ => raise TypeError
  end.

(** [DataAnalysis1.plot_qq_histogram]: a Q-Q plot and a histogram of
    [data] side by side, titled; only the drawing is observable. *)
Definition plot_qq_histogram (data : list (option Qc)) (title : string) : M S unit :=
  emit (PlotQQHistogram title).

(** [DataAnalysis1.check_normality]: [if len(data) <= size_limit: shapiro else: anderson]. *)
Definition check_normality1 (size_limit : nat) (data : list (option Qc)) : M S (Qc * pvalue) :=
  let data := dropna data in
  let '(stat, p_value, test_name) :=
    if bool_decide (length data ≤ size_limit)
    then let r := shapiro data in (r.1, PValue r.2, ShapiroWilk)
    else let r := anderson data in (r.1, CriticalValues r.2, AndersonDarling) in
  emit (EvTest test_name stat p_value);;
  mret (stat, p_value).

(** [DataAnalysis2.check_normality]: [if len(data) > size_limit: anderson else: shapiro]. *)
Definition check_normality2 (size_limit : nat) (data : list (option Qc)) : M S (Qc * pvalue) :=
  let data := dropna data in
  let '(stat, p_value, test_name) :=
    if bool_decide (size_limit < length data)
    then let r := anderson data in (r.1, CriticalValues r.2, AndersonDarling)
    else let r := shapiro data in (r.1, PValue r.2, ShapiroWilk) in
  emit (EvTest test_name stat p_value);;
  mret (stat, p_value).

(** [abs(skewness) > 1], where a NaN skewness compares false. *)
Definition skewed_of (skewness : option Qc) : bool :=
  match skewness with
  | Some v => bool_decide (Qclt 1 (Qcabs v))
  | None => false
  end.

Definition check_skewness (data : list (option Qc)) : M S bool :=
  let skewness := skew (dropna data) in
  emit (EvSkewness skewness);;
  mret (skewed_of skewness).

(** [DataAnalysis1.hypothesis_test].  Selecting the same column twice
    makes [groupby] refuse a two-dimensional grouper. *)
Definition hypothesis_test (df : frame) (continuous_var categorical_var : string)
    (skewed : bool) (null_hyp : string) : M S (Qc * Qc) :=
  xc ← lookup_col df continuous_var;
  kc ← lookup_col df categorical_var;
  if bool_decide (continuous_var = categorical_var)
  then raise (ValueError "Grouper for the column not 1-dimensional")
  else
  xs ← numeric_cells xc;
  let groups := groups_of (present_pairs xs (column_values kc)) in
  let '(stat, p_value, test_name) :=
    if skewed then let r := kruskal groups in (r.1, r.2, KruskalWallis)
    else let r := f_oneway groups in (r.1, r.2, ANOVA) in
  emit (EvTest test_name stat (PValue p_value));;
  mret (stat, p_value).

(** [if normality_test[1] > 0.05]: a number compares; an array is true
    or false only when it has one element, any other array raises. *)
Definition normal_enough (p : pvalue) : M S bool :=
  match p with
  | PValue q => mret (bool_decide (Qclt (Q2Qc (5 # 100)) q))
  | CriticalValues [c] => mret (bool_decide (Qclt (Q2Qc (5 # 100)) c))
  | CriticalValues _ =>
      raise (ValueError "The truth value of an array with more than one element is ambiguous")
  end.

(** [stats.ttest_ind] and [stats.mannwhitneyu], called on the unpacked groups, take
    the two samples positionally; any other number of groups is a
    call error. *)
Definition two_sample (test : list Qc → list Qc → Qc * Qc) (groups : list (list Qc))
    : M S (Qc * Qc) :=
  match groups with
  | [a; b] => mret (test a b)
  | _ => raise TypeError
  end.

(** [DataAnalysis2.t_test_or_mannwhitney]. *)
Definition t_test_or_mannwhitney (df : frame) (continuous_var categorical_var : string)
    : M S unit :=
  kc ← lookup_col df categorical_var;
  xc ← lookup_col df continuous_var;
  xs ← numeric_cells xc;
  let groups := groupby_dropna xs (column_values kc) in
  '(_, normality_p) ← check_normality2 2000 xs;
  normal_enough normality_p ≫= λ normal : bool,
  '(stat, p_value) ← two_sample (if normal then ttest_ind else mannwhitneyu) groups;
  emit (EvTest (if normal then TTest else MannWhitneyU) stat (PValue p_value)).

(** [DataAnalysis2.perform_regression]: each column's [dropna()], both
    cut to the shorter length, then [linregress]. *)
Definition regression_samples (xs ys : list (option Qc)) : list Qc * list Qc :=
  let X := dropna xs in
  let Y := dropna ys in
  let min_length := Nat.min (length X) (length Y) in
  (take min_length X, take min_length Y).

Definition perform_regression (df : frame) (x_var y_var : string) : M S unit :=
  xc ← lookup_col df x_var;
  yc ← lookup_col df y_var;
  xs ← numeric_cells xc;
  ys ← numeric_cells yc;
  let XY := regression_samples xs ys in
  let '(slope, intercept, r_value, p_value, std_err) := linregress XY.1 XY.2 in
  emit (EvRegression slope intercept (r_value * r_value)%Qc p_value std_err).

(** [DataAnalysis2.chi_square_test]: [chi2_contingency] of the
    [pd.crosstab] of the two columns (only its counts matter to the
    test). *)
Definition chi_square_test (df : frame) (categorical_var_1 categorical_var_2 : string)
    : M S unit :=
  c1 ← lookup_col df categorical_var_1;
  c2 ← lookup_col df categorical_var_2;
  let contingency_table := crosstab (column_values c1) (column_values c2) in
  let r := chi2_contingency (tab_counts contingency_table) in
  emit (EvTest ChiSquare r.1 (PValue r.2)).

End Tests.


Section TestFacts.
Context `{StatsLib} {S : Type}.
Import Grouping GroupingFacts.
Implicit Types (w : world S).

Lemma lookup_col_run df col c w :
  frame_get df col = Some c → (lookup_col df col : M S column) w = (inr c, w).
Proof. intros Hc. unfold lookup_col. by rewrite Hc. Qed.


(** C8 The normality dispatch: both [check_normality] methods run
    Shapiro-Wilk on the non-missing values when there are at most
    [size_limit] of them and Anderson-Darling otherwise, report the test
    they ran, and return its statistic with the p-value or, for
    Anderson-Darling, the critical-value array in its place; the two
    methods, written with opposite conditions, agree on every input. *)
Theorem normality_dispatch (size_limit : nat) (data : list (option Qc)) w :
  let xs := dropna data in
  let r := if bool_decide (length xs ≤ size_limit)
           then ((shapiro xs).1, PValue (shapiro xs).2, ShapiroWilk)
           else ((anderson xs).1, CriticalValues (anderson xs).2, AndersonDarling) in
  check_normality2 size_limit data w = check_normality1 size_limit data w ∧
  check_normality1 size_limit data w =
    (inr (r.1.1, r.1.2),
     mk_world (w_state w) (w_input w) (w_log w ++ [EvTest r.2 r.1.1 r.1.2])).
Proof.
  unfold check_normality1, check_normality2. simpl.
  case_bool_decide; case_bool_decide; try lia; split; reflexivity.
Qed.

(** C19 [hypothesis_test] on two distinct columns, the continuous one
    numeric, runs Kruskal-Wallis exactly when the column was found
    skewed and ANOVA otherwise, and reports the test it ran.  The groups
    it passes are those of [groupby] on the rows where both cells are
    present: one non-empty group per distinct key, together a
    permutation of the continuous values of those rows. *)
Theorem hypothesis_test_dispatch df cv cat xs kc (skewed : bool) null_hyp w :
  frame_get df cv = Some (NumCol xs) → frame_get df cat = Some kc → cv ≠ cat →
  let rows := present_pairs xs (column_values kc) in
  let groups := groups_of rows in
  let r := if skewed then kruskal groups else f_oneway groups in
  hypothesis_test df cv cat skewed null_hyp w =
    (inr r, mk_world (w_state w) (w_input w)
              (w_log w ++ [EvTest (if skewed then KruskalWallis else ANOVA) r.1 (PValue r.2)])) ∧
  concat groups ≡ₚ map fst rows ∧ Forall (λ g, g ≠ []) groups ∧
  length groups = length (remove_dups (map snd rows)).
Proof.
  intros Hx Hk Hne rows groups r. split; [|apply groups_partition]. unfold hypothesis_test.
  erewrite bind_inr by (apply lookup_col_run; eassumption).
  erewrite bind_inr by (apply lookup_col_run; eassumption).
  rewrite (bool_decide_eq_false_2 (cv = cat)) by exact Hne. simpl.
  unfold mbind, M_bind, mret, M_ret, emit. simpl.
  by destruct skewed; [destruct (kruskal _)|destruct (f_oneway _)].
Qed.

(** Opening a [t_test_or_mannwhitney] run whose two columns are found,
    the continuous one numeric. *)
Ltac t_test_open Hk Hx :=
  unfold t_test_or_mannwhitney;
  erewrite bind_inr by (by apply lookup_col_run, Hk);
  erewrite bind_inr by (by apply lookup_col_run, Hx);
  unfold check_normality2, mbind, M_bind, mret, M_ret, emit; simpl.

(** C28 [t_test_or_mannwhitney] on a continuous column with more than
    2000 non-missing values always raises [ValueError]: the normality
    check then returns Anderson-Darling's five critical values where a
    p-value is expected, and [if normality_test[1] > 0.05] asks for the
    truth value of that array. *)
Theorem t_test_large_sample_raises df cv cat xs kc w :
  frame_get df cat = Some kc → frame_get df cv = Some (NumCol xs) →
  2000 < length (dropna xs) →
  ∃ w', t_test_or_mannwhitney df cv cat w =
    (inl (ValueError "The truth value of an array with more than one element is ambiguous"), w').
Proof.
  intros Hk Hx Hlen. t_test_open Hk Hx. rewrite bool_decide_eq_true_2 by done. simpl.
  pose proof (anderson_critical_values (dropna xs)) as Hcv.
  destruct (anderson (dropna xs)).2 as [|c [|c' cs]]; simpl in Hcv; try lia. eauto.
Qed.

(** C20 On at most 2000 non-missing values [t_test_or_mannwhitney] runs
    Shapiro-Wilk, then the t-test when its p-value exceeds 0.05 and
    Mann-Whitney U otherwise, on the [groupby] groups; any number of
    groups other than two is a [TypeError].  There is one group per
    distinct present key, and leaving out the empty ones (a key whose
    continuous cells are all missing) gives exactly the groups of
    [hypothesis_test] on the same columns. *)
Theorem t_test_dispatch df cv cat xs kc w :
  frame_get df cat = Some kc → frame_get df cv = Some (NumCol xs) →
  length (dropna xs) ≤ 2000 →
  let groups := groupby_dropna xs (column_values kc) in
  let sw := shapiro (dropna xs) in
  let normal := bool_decide (Qclt (Q2Qc (5 # 100)) sw.2) in
  let log1 := w_log w ++ [EvTest ShapiroWilk sw.1 (PValue sw.2)] in
  t_test_or_mannwhitney df cv cat w =
    match groups with
    | [a; b] =>
        let r := (if normal then ttest_ind else mannwhitneyu) a b in
        (inr tt, mk_world (w_state w) (w_input w)
                   (log1 ++ [EvTest (if normal then TTest else MannWhitneyU) r.1 (PValue r.2)]))
    | _ => (inl TypeError, mk_world (w_state w) (w_input w) log1)
    end ∧
  length groups = length (remove_dups (dropna (column_values kc))) ∧
  filter (λ g, g ≠ []) groups = groups_of (present_pairs xs (column_values kc)).
Proof.
  intros Hk Hx Hlen. cbv zeta.
  split; [|split; [apply length_groupby_dropna|apply groupby_dropna_refines]].
  t_test_open Hk Hx. rewrite bool_decide_eq_false_2 by lia. simpl.
  destruct (groupby_dropna xs (column_values kc)) as [|a [|b [|c gs]]]; simpl; try done.
  by case_bool_decide; [destruct (ttest_ind a b)|destruct (mannwhitneyu a b)]; simpl; rewrite <-app_assoc.
Qed.

(** C27 [chi_square_test] on two present columns hands [chi2_contingency]
    the counts of [pd.crosstab] of the two columns and reports its
    result.  That table is well formed and loses no row: one count list
    per index label, each as long as the column labels, the counts adding
    up to the number of rows where both cells are present.  Every row and
    column margin is the value count of its label among those rows and
    is positive, so no expected frequency (row sum times column sum over
    the total) is zero. *)
Theorem chi_square_test_table df c1 c2 k1 k2 w :
  frame_get df c1 = Some k1 → frame_get df c2 = Some k2 →
  let rows := present_pairs (column_values k1) (column_values k2) in
  let t := crosstab (column_values k1) (column_values k2) in
  let r := chi2_contingency (tab_counts t) in
  chi_square_test df c1 c2 w =
    (inr tt, mk_world (w_state w) (w_input w) (w_log w ++ [EvTest ChiSquare r.1 (PValue r.2)])) ∧
  length (tab_counts t) = length (tab_index t) ∧
  Forall (λ row, length row = length (tab_columns t)) (tab_counts t) ∧
  sum_list_with sum_list (tab_counts t) = length rows ∧
  Forall2 (λ k row, sum_list row = length (filter (λ p : value * value, p.1 = k) rows) ∧
                    0 < sum_list row) (tab_index t) (tab_counts t) ∧
  (∀ j c, tab_columns t !! j = Some c →
     let col_sum := sum_list_with (λ row, default 0 (row !! j)) (tab_counts t) in
     col_sum = length (filter (λ p : value * value, p.2 = c) rows) ∧ 0 < col_sum).
Proof.
  intros H1 H2 rows t r.
  destruct (crosstab_shape_total (column_values k1) (column_values k2)) as (Hl & Hrow & Htot).
  destruct (crosstab_margins (column_values k1) (column_values k2)) as (Hr & Hc).
  split_and!; [|exact Hl|exact Hrow|exact Htot|exact Hr|exact Hc].
  unfold chi_square_test.
  erewrite bind_inr by (apply lookup_col_run; eassumption).
  erewrite bind_inr by (apply lookup_col_run; eassumption).
  reflexivity.
Qed.

(** C22 [perform_regression] hands [linregress] two samples of the same
    length, the shorter of the two non-missing counts: prefixes of each
    column's non-missing values taken separately. *)
Theorem regression_samples_spec (xs ys : list (option Qc)) :
  let XY := regression_samples xs ys in
  length XY.1 = length XY.2 ∧
  length XY.1 = Nat.min (length (dropna xs)) (length (dropna ys)) ∧
  XY.1 `prefix_of` dropna xs ∧ XY.2 `prefix_of` dropna ys.
Proof.
  unfold regression_samples. simpl. rewrite !length_take.
  split_and!; [lia|lia|apply prefix_take..].
Qed.

Lemma dropna_present_pairs (xs ys : list (option Qc)) :
  Forall2 (λ x y, is_Some x ↔ is_Some y) xs ys →
  dropna xs = map fst (present_pairs xs ys) ∧ dropna ys = map snd (present_pairs xs ys).
Proof.
  induction 1 as [|[x|] [y|] xs ys Hxy _ IH]; simpl; try done.
  - destruct IH as [-> ->]. done.
  - exfalso. destruct Hxy as [Hs _]. by destruct Hs.
  - exfalso. destruct Hxy as [_ Hs]. by destruct Hs.
Qed.

(** C23 When the two columns are missing in the same rows, the
    truncation is harmless: [linregress] receives exactly the rows of
    the frame where both cells are present, each [x] paired with the [y]
    of its own row. *)
Theorem regression_aligned (xs ys : list (option Qc)) :
  Forall2 (λ x y, is_Some x ↔ is_Some y) xs ys →
  regression_samples xs ys =
    (map fst (present_pairs xs ys), map snd (present_pairs xs ys)).
Proof.
  intros Hxy. destruct (dropna_present_pairs xs ys Hxy) as [Hx Hy].
  unfold regression_samples. rewrite Hx, Hy, !length_map, Nat.min_id, !take_ge; [done|..];
    by rewrite length_map.
Qed.

Lemma dropna_map_Some_app {A} (p : list A) (rest : list (option A)) :
  dropna (map Some p ++ rest) = p ++ dropna rest.
Proof. induction p as [|x p IH]; simpl; by rewrite ?IH. Qed.

(** C29 When a cell of [x] is missing in a row where [y] is present, the
    separate [dropna] calls and the truncation pair values of different
    rows: if the rows before it are complete in both columns ([n] of
    them), [x] is missing in row [n] where [y] holds [b], and [x] holds
    [a] in row [n + 1], then [linregress] receives [a] and [b] as its
    [n]-th pair although they were never in the same row. *)
Theorem regression_misaligned (p q : list Qc) a b c (xs ys : list (option Qc)) :
  length p = length q →
  let X := map Some p ++ None :: Some a :: xs in
  let Y := map Some q ++ Some b :: Some c :: ys in
  (regression_samples X Y).1 !! length p = Some a ∧
  (regression_samples X Y).2 !! length p = Some b.
Proof.
  intros Hl X Y. unfold regression_samples, X, Y. rewrite !dropna_map_Some_app. simpl.
  rewrite !lookup_take, !lookup_app_r by lia.
  replace (length p - length q) with 0 by lia. rewrite Nat.sub_diag.
  split; (rewrite decide_True; [done|rewrite !length_app; simpl; lia]).
Qed.

End TestFacts.

(** ** The dispatchers read no input and always finish *)
Section TestRuns.
Context `{StatsLib} {S : Type}.

Lemma lookup_col_consumes df col : consumes (lookup_col (S:=S) df col).
Proof. unfold lookup_col. solve_consumes. Qed.
Lemma numeric_cells_consumes c : consumes (numeric_cells (S:=S) c).
Proof. unfold numeric_cells. solve_consumes. Qed.
Lemma lookup_col_no_oof df col : no_oof (lookup_col (S:=S) df col).
Proof. unfold lookup_col. solve_no_oof. Qed.
Lemma numeric_cells_no_oof c : no_oof (numeric_cells (S:=S) c).
Proof. unfold numeric_cells. solve_no_oof. Qed.

#[local] Hint Resolve lookup_col_consumes numeric_cells_consumes : consumes.
#[local] Hint Resolve lookup_col_no_oof numeric_cells_no_oof : no_oof.

Lemma check_normality1_consumes size_limit data : consumes (check_normality1 (S:=S) size_limit data).
Proof. unfold check_normality1, check_skewness, hypothesis_test, t_test_or_mannwhitney,
    check_normality2, normal_enough, two_sample, perform_regression, chi_square_test. solve_consumes. Qed.
Lemma check_normality1_no_oof size_limit data : no_oof (check_normality1 (S:=S) size_limit data).
Proof. unfold check_normality1, check_skewness, hypothesis_test, t_test_or_mannwhitney,
    check_normality2, normal_enough, two_sample, perform_regression, chi_square_test. solve_no_oof. Qed.
Lemma check_skewness_consumes data : consumes (check_skewness (S:=S) data).
Proof. unfold check_normality1, check_skewness, hypothesis_test, t_test_or_mannwhitney,
    check_normality2, normal_enough, two_sample, perform_regression, chi_square_test. solve_consumes. Qed.
Lemma check_skewness_no_oof data : no_oof (check_skewness (S:=S) data).
Proof. unfold check_normality1, check_skewness, hypothesis_test, t_test_or_mannwhitney,
    check_normality2, normal_enough, two_sample, perform_regression, chi_square_test. solve_no_oof. Qed.
Lemma hypothesis_test_consumes df x y skewed h : consumes (hypothesis_test (S:=S) df x y skewed h).
Proof. unfold check_normality1, check_skewness, hypothesis_test, t_test_or_mannwhitney,
    check_normality2, normal_enough, two_sample, perform_regression, chi_square_test. solve_consumes. Qed.
Lemma hypothesis_test_no_oof df x y skewed h : no_oof (hypothesis_test (S:=S) df x y skewed h).
Proof. unfold check_normality1, check_skewness, hypothesis_test, t_test_or_mannwhitney,
    check_normality2, normal_enough, two_sample, perform_regression, chi_square_test. solve_no_oof. Qed.
Lemma t_test_or_mannwhitney_consumes df x y : consumes (t_test_or_mannwhitney (S:=S) df x y).
Proof. unfold check_normality1, check_skewness, hypothesis_test, t_test_or_mannwhitney,
    check_normality2, normal_enough, two_sample, perform_regression, chi_square_test. solve_consumes. Qed.
Lemma t_test_or_mannwhitney_no_oof df x y : no_oof (t_test_or_mannwhitney (S:=S) df x y).
Proof. unfold check_normality1, check_skewness, hypothesis_test, t_test_or_mannwhitney,
    check_normality2, normal_enough, two_sample, perform_regression, chi_square_test. solve_no_oof. Qed.
Lemma perform_regression_consumes df x y : consumes (perform_regression (S:=S) df x y).
Proof. unfold check_normality1, check_skewness, hypothesis_test, t_test_or_mannwhitney,
    check_normality2, normal_enough, two_sample, perform_regression, chi_square_test. solve_consumes. Qed.
Lemma perform_regression_no_oof df x y : no_oof (perform_regression (S:=S) df x y).
Proof. unfold check_normality1, check_skewness, hypothesis_test, t_test_or_mannwhitney,
    check_normality2, normal_enough, two_sample, perform_regression, chi_square_test. solve_no_oof. Qed.
Lemma chi_square_test_consumes df x y : consumes (chi_square_test (S:=S) df x y).
Proof. unfold check_normality1, check_skewness, hypothesis_test, t_test_or_mannwhitney,
    check_normality2, normal_enough, two_sample, perform_regression, chi_square_test. solve_consumes. Qed.
Lemma chi_square_test_no_oof df x y : no_oof (chi_square_test (S:=S) df x y).
Proof. unfold check_normality1, check_skewness, hypothesis_test, t_test_or_mannwhitney,
    check_normality2, normal_enough, two_sample, perform_regression, chi_square_test. solve_no_oof. Qed.

End TestRuns.

#[export] Hint Resolve check_normality1_consumes check_skewness_consumes hypothesis_test_consumes t_test_or_mannwhitney_consumes perform_regression_consumes chi_square_test_consumes : consumes.
#[export] Hint Resolve check_normality1_no_oof check_skewness_no_oof hypothesis_test_no_oof t_test_or_mannwhitney_no_oof perform_regression_no_oof chi_square_test_no_oof : no_oof.
#[export] Hint Resolve lookup_col_consumes numeric_cells_consumes : consumes.
#[export] Hint Resolve lookup_col_no_oof numeric_cells_no_oof : no_oof.

(** ** The theorems at example tables *)

Lemma hypothesis_test_dispatch_witness :
  frame_get example_frame "age" = Some example_ages ∧ frame_get example_frame "city" = Some example_cities ∧
  "age"%string ≠ "city"%string ∧
  ∃ r, @hypothesis_test example_stats unit example_frame "age" "city" true "equal means"
         (mk_world tt [] []) = (inr r, mk_world tt [] [EvTest KruskalWallis r.1 (PValue r.2)]).
Proof.
  assert (frame_get example_frame "age" = Some (NumCol [Some (Qc_of_Z 22); Some (Qc_of_Z 25); None]))
    as Hx by reflexivity.
  assert (frame_get example_frame "city" = Some example_cities) as Hk by reflexivity.
  assert ("age"%string ≠ "city"%string) as Hne by eval_decide.
  split_and!; [exact Hx|exact Hk|exact Hne|].
  eexists. exact (proj1 (@hypothesis_test_dispatch example_stats unit _ _ _ _ _ true _
                           (mk_world tt [] []) Hx Hk Hne)).
Defined.

Lemma t_test_large_sample_raises_witness :
  let df := [("score", NumCol (repeat (Some (Qc_of_Z 1)) 2001));
             ("group", ObjCol (repeat (Some "a") 2001))]%string in
  2000 < length (dropna (repeat (Some (Qc_of_Z 1)) 2001)) ∧
  ∃ w', @t_test_or_mannwhitney example_stats unit df "score" "group" (mk_world tt [] []) =
    (inl (ValueError "The truth value of an array with more than one element is ambiguous"), w').
Proof.
  intros df.
  assert (2000 < length (dropna (repeat (Some (Qc_of_Z 1)) 2001))) as Hlen by (vm_compute; lia).
  split; [exact Hlen|].
  exact (@t_test_large_sample_raises example_stats unit df "score" "group" _ _ _
           eq_refl eq_refl Hlen).
Defined.

Lemma t_test_dispatch_witness :
  let df := [("score", NumCol [Some (Qc_of_Z 1); Some (Qc_of_Z 2)]);
             ("group", ObjCol [Some "a"; Some "b"])]%string in
  length (dropna [Some (Qc_of_Z 1); Some (Qc_of_Z 2)]) ≤ 2000 ∧
  @t_test_or_mannwhitney example_stats unit df "score" "group" (mk_world tt [] []) =
    (inr tt, mk_world tt [] [EvTest ShapiroWilk (Qc_of_Z 1) (PValue (Q2Qc (1 # 2)));
                             EvTest TTest (Qc_of_Z 0) (PValue (Qc_of_Z 1))]).
Proof.
  intros df.
  assert (length (dropna [Some (Qc_of_Z 1); Some (Qc_of_Z 2)]) ≤ 2000) as Hlen by (simpl; lia).
  split; [exact Hlen|].
  rewrite (proj1 (@t_test_dispatch example_stats unit df "score" "group" _ _ _ eq_refl eq_refl Hlen)).
  vm_compute. reflexivity.
Defined.

Lemma regression_aligned_witness :
  Forall2 (λ x y : option Qc, is_Some x ↔ is_Some y)
    [Some (Qc_of_Z 1); None] [Some (Qc_of_Z 5); None] ∧
  regression_samples [Some (Qc_of_Z 1); None] [Some (Qc_of_Z 5); None] =
    ([Qc_of_Z 1], [Qc_of_Z 5]).
Proof.
  assert (Forall2 (λ x y : option Qc, is_Some x ↔ is_Some y)
            [Some (Qc_of_Z 1); None] [Some (Qc_of_Z 5); None]) as Hxy.
  { repeat constructor; by intros [? ?]. }
  split; [exact Hxy|]. rewrite (regression_aligned _ _ Hxy). reflexivity.
Defined.

Lemma chi_square_test_table_witness :
  let df := [("a", ObjCol [Some "x"; Some "y"; None]); ("b", ObjCol [Some "u"; None; Some "v"])]%string in
  frame_get df "a" = Some (ObjCol [Some "x"; Some "y"; None]%string) ∧
  frame_get df "b" = Some (ObjCol [Some "u"; None; Some "v"]%string) ∧
  sum_list_with sum_list
    (Grouping.tab_counts (Grouping.crosstab (column_values (ObjCol [Some "x"; Some "y"; None]%string))
                          (column_values (ObjCol [Some "u"; None; Some "v"]%string)))) = 1.
Proof.
  intros df.
  assert (frame_get df "a" = Some (ObjCol [Some "x"; Some "y"; None]%string)) as H1 by reflexivity.
  assert (frame_get df "b" = Some (ObjCol [Some "u"; None; Some "v"]%string)) as H2 by reflexivity.
  split_and!; [exact H1|exact H2|].
  rewrite (proj1 (proj2 (proj2 (proj2 (@chi_square_test_table example_stats unit df "a" "b" _ _
                                          (mk_world tt [] []) H1 H2))))).
  reflexivity.
Defined.

(** [x = [1, NaN, 3]] and [y = [10, 20, 30]]: the pair (3, 20). *)
Lemma regression_misaligned_witness :
  length [Qc_of_Z 1] = length [Qc_of_Z 10] ∧
  (regression_samples [Some (Qc_of_Z 1); None; Some (Qc_of_Z 3)]
                      [Some (Qc_of_Z 10); Some (Qc_of_Z 20); Some (Qc_of_Z 30)]).1 !! 1 = Some (Qc_of_Z 3) ∧
  (regression_samples [Some (Qc_of_Z 1); None; Some (Qc_of_Z 3)]
                      [Some (Qc_of_Z 10); Some (Qc_of_Z 20); Some (Qc_of_Z 30)]).2 !! 1 = Some (Qc_of_Z 20).
Proof.
  assert (length [Qc_of_Z 1] = length [Qc_of_Z 10]) as Hl by reflexivity.
  split; [exact Hl|].
  exact (regression_misaligned [Qc_of_Z 1] [Qc_of_Z 10] (Qc_of_Z 3) (Qc_of_Z 20) (Qc_of_Z 30) [] [] Hl).
Defined.
