(* ===== verification/Menu.v ===== *)
(** * Menu: the interactive program of [src/main.py]

    [main] reads a file path, loads the table and runs the main menu
    ([script] is the [__main__] entry that runs it on standard input); each
    of the four sub-menus builds its analysis object from the loaded
    table and runs its own [while True] loop.  The libraries the menus
    call directly ([pd.read_csv], [pd.to_numeric], the Series methods
    [corr], [std], [kurt], [skew], the sentiment backends) are the
    fields of the class [Runtime]; the [scipy.stats] calls go through
    [StatsLib].  The program state of [main] is [unit]: the loaded table
    is never changed by [main], and [data_inspection_menu] works on a
    copy ([with_state]).  Every loop is [while_], so the theorems show
    that the whole program terminates on every finite input, and they
    give the menu paths that re-prompt, exit, or end the program with
    an exception.  The composition theorems follow one menu option
    through the components it calls: the Data Inspection loop keeps the
    cleaned copy and draws only on columns of the right dtype (by the
    [stays_at] rules of Effects.v), option 2 of Statistical Analysis 1
    chains the selectors, [check_skewness] and [hypothesis_test], and the
    sentiment menu prints row-aligned tables.  A concrete session shows
    that the inspection's cleaning is not seen by the analyses. *)

From S2P Require Import Prelude Frame Classify Effects Inspection Sentiment Select Grouping Stats.
From Stdlib Require Import Qcabs.
Import Series DataFrame.

(** The libraries [main.py] and its classes call, besides [scipy.stats]. *)
Class Runtime := {
  read_csv : string → option frame;
  to_numeric : string → option Qc;
  series_corr : list (option Qc) → list (option Qc) → option Qc;
  series_std : list (option Qc) → option Qc;
  series_kurt : list (option Qc) → option Qc;
  series_skew : list (option Qc) → option Qc;
  vader_compound : string → Qc;
  textblob : string → Qc * Qc;
  pipeline : option (string → string * Qc)
}.

(** A stand-in runtime used by the examples: the example table loads, no
    text parses as a number, and the transformers library is absent. *)
Definition example_runtime : Runtime := {|
  read_csv _ := Some example_frame;
  to_numeric _ := None;
  series_corr _ _ := None;
  series_std _ := None;
  series_kurt _ := None;
  series_skew _ := None;
  vader_compound _ := Qc_of_Z 0;
  textblob _ := (Qc_of_Z 0, Qc_of_Z 0);
  pipeline := None
|}.

(** The label strings the sentiment analyses append. *)
Definition sentiment_label (s : sentiment) : string :=
  match s with
  | Positive => "positive"
  | Neutral => "neutral"
  | Negative => "negative"
  end.

Module Menu.
Section Menus.
Context `{StatsLib} `{Runtime}.

(** A name [select_variable] returned; [None] comes only from a skip,
    which the calls below do not allow, and [df[None]] is a [KeyError]. *)
Definition selected {St} (o : option string) : M St string :=
  match o with
  | Some c => mret c
  | None => raise (KeyError "None")
  end.

(** [di.df[col]] of a numeric column. *)
Definition numeric_series (col : string) : M frame (list (option Qc)) :=
  df ← get; c ← lookup_col df col; numeric_cells c.

(** Options 4 to 6 of the inspection menu: one numeric column, one statistic. *)
Definition report_statistic (name : string) (f : list (option Qc) → option Qc) : M frame unit :=
  df ← get;
  let numeric_cols := Inspection.numeric_columns df in
  emit (EvColumns numeric_cols);;
  col ← input;
  if py_in col numeric_cols then
    xs ← numeric_series col; emit (EvStatistic name col (f xs))
  else emit EvInvalidColumn.

(** One iteration of the loop of [data_inspection_menu]. *)
Definition inspection_body : M frame bool :=
  emit (EvMenu InspectionMenu);;
  choice ← input;
  if bool_decide (choice = "1") then
    df ← get;
    let numeric_cols := Inspection.numeric_columns df in
    emit (EvColumns numeric_cols);;
    x_col ← input; y_col ← input;
    (if py_in x_col numeric_cols && py_in y_col numeric_cols
     then Inspection.plot_scatter x_col y_col else emit EvInvalidColumns);;
    mret true
  else if bool_decide (choice = "2") then
    df ← get;
    let numeric_cols := Inspection.numeric_columns df in
    let ordinal_cols := Inspection.ordinal_columns df in
    emit (EvColumns numeric_cols);; emit (EvColumns ordinal_cols);;
    num_col ← input; ord_col ← input;
    (if py_in num_col numeric_cols && py_in ord_col ordinal_cols
     then Inspection.plot_boxplot ord_col num_col else emit EvInvalidColumns);;
    mret true
  else if bool_decide (choice = "3") then
    df ← get;
    let numeric_cols := Inspection.numeric_columns df in
    emit (EvColumns numeric_cols);;
    col1 ← input; col2 ← input;
    (if py_in col1 numeric_cols && py_in col2 numeric_cols then
       xs ← numeric_series col1; ys ← numeric_series col2;
       emit (EvCorrelation col1 col2 (series_corr xs ys))
     else emit EvInvalidColumns);;
    mret true
  else if bool_decide (choice = "4") then
    report_statistic "Standard Deviation" series_std;; mret true
  else if bool_decide (choice = "5") then
    report_statistic "Kurtosis" series_kurt;; mret true
  else if bool_decide (choice = "6") then
    report_statistic "Skewness" series_skew;; mret true
  else if bool_decide (choice = "7") then mret false
  else emit EvInvalidChoice;; mret true.

(** What the inspection menu may draw or compute on the table [df]: a
    scatter plot, a correlation or a statistic of numeric columns, a box
    plot of a numeric column by an ordinal (text) one. *)
Definition safe_event (df : frame) (e : event) : Prop :=
  match e with
  | PlotScatter x y | EvCorrelation x y _ =>
      x ∈ Inspection.numeric_columns df ∧ y ∈ Inspection.numeric_columns df
  | PlotBoxplot x y => x ∈ Inspection.ordinal_columns df ∧ y ∈ Inspection.numeric_columns df
  | EvStatistic _ col _ => col ∈ Inspection.numeric_columns df
  | _ => True
  end.

(** [di = DataInspection(); di.df = df.copy(); di.classify_columns()],
    then the loop. *)
Definition data_inspection_menu (df : frame) : M unit unit :=
  with_state df (Inspection.classify_columns to_numeric;; while_ inspection_body).

(** One iteration of the loop of [data_analysis1_menu]; [if categorical_var:]
    is false for [None] and for the empty name. *)
Definition analysis1_body (df : frame) (types : list (string * col_type)) : M unit bool :=
  emit (EvMenu Analysis1Menu);;
  choice ← input;
  if bool_decide (choice = "1") then
    continuous_var ← Select.select_variable1 types Interval false;
    cv ← selected continuous_var;
    c ← lookup_col df cv; xs ← numeric_cells c;
    plot_qq_histogram xs cv;;
    check_normality1 2000 xs;;
    mret true
  else if bool_decide (choice = "2") then
    continuous_var ← Select.select_variable1 types Interval false;
    categorical_var ← Select.select_variable1 types Nominal true;
    cv ← selected continuous_var;
    c ← lookup_col df cv; xs ← numeric_cells c;
    skewed ← check_skewness xs;
    null_hyp ← input;
    (match categorical_var with
     | Some cat =>
         if bool_decide (cat ≠ "") then hypothesis_test df cv cat skewed null_hyp;; mret tt
         else emit EvNoCategorical
     | None => emit EvNoCategorical
     end);;
    mret true
  else if bool_decide (choice = "3") then mret false
  else emit EvInvalidChoice;; mret true.

(** [da1 = DataAnalysis1(df)], then the loop. *)
Definition data_analysis1_menu (df : frame) : M unit unit :=
  let da1 := Select.init1 df in
  while_ (analysis1_body (Select.an_df da1) (Select.column_types da1)).

(** One iteration of the loop of [data_analysis2_menu]. *)
Definition analysis2_body (df : frame) (types : list (string * col_type)) : M unit bool :=
  emit (EvMenu Analysis2Menu);;
  choice ← input;
  if bool_decide (choice = "1") then
    x_var ← Select.select_variable2 df types Interval None false;
    y_var ← Select.select_variable2 df types Interval None false;
    x ← selected x_var; y ← selected y_var;
    perform_regression df x y;;
    mret true
  else if bool_decide (choice = "2") then
    continuous_var ← Select.select_variable2 df types Interval None false;
    categorical_var ← Select.select_variable2 df types Nominal (Some 2) false;
    cv ← selected continuous_var; cat ← selected categorical_var;
    t_test_or_mannwhitney df cv cat;;
    mret true
  else if bool_decide (choice = "3") then
    categorical_var_1 ← Select.select_variable2 df types Nominal None false;
    categorical_var_2 ← Select.select_variable2 df types Nominal None false;
    c1 ← selected categorical_var_1; c2 ← selected categorical_var_2;
    chi_square_test df c1 c2;;
    mret true
  else if bool_decide (choice = "4") then mret false
  else emit EvInvalidChoice;; mret true.

(** [da2 = DataAnalysis2(df)], which prints the classification it
    builds, then the menu loop on [da2]'s attributes. *)
Definition data_analysis2_menu (df : frame) : M unit unit :=
  da2 ← Select.new_analysis2 df;
  while_ (analysis2_body (Select.an_df da2) (Select.column_types da2)).

(** [sentiment_analysis_menu]: no loop; an [ImportError] of the
    transformers backend is caught and reported. *)
Definition sentiment_analysis_menu (df : frame) : M unit unit :=
  let sa := Sentiment.mk_sentiment_analysis df in
  emit (EvTextColumns (Sentiment.get_text_columns sa));;
  column_name ← input;
  if negb (py_in column_name (columns df)) then emit EvInvalidColumnName
  else match frame_get df column_name with
  | Some (ObjCol cells) =>
      analysis_type ← input;
      let data := Sentiment.text_rows cells in
      if bool_decide (analysis_type = "1") then
        let r := Sentiment.vader_sentiment_analysis vader_compound data in
        emit (EvSentimentTable data r.1 (map sentiment_label r.2) None)
      else if bool_decide (analysis_type = "2") then
        let r := Sentiment.textblob_sentiment_analysis textblob data in
        emit (EvSentimentTable data r.1.1 (map sentiment_label r.1.2) (Some r.2))
      else if bool_decide (analysis_type = "3") then
        match Sentiment.distilbert_sentiment_analysis pipeline data with
        | inl _ => emit EvTransformersMissing
        | inr r => emit (EvSentimentTable data r.1 (map sentiment_label r.2) None)
        end
      else emit EvInvalidAnalysis
  | _ => emit EvNotText
  end.

(** One iteration of the main loop. *)
Definition main_body (df : frame) : M unit bool :=
  emit (EvMenu MainMenu);;
  choice ← input;
  if bool_decide (choice = "1") then data_inspection_menu df;; mret true
  else if bool_decide (choice = "2") then data_analysis1_menu df;; mret true
  else if bool_decide (choice = "3") then data_analysis2_menu df;; mret true
  else if bool_decide (choice = "4") then sentiment_analysis_menu df;; mret true
  else if bool_decide (choice = "5") then emit EvExit;; mret false
  else emit EvInvalidChoice;; mret true.

(** [main()]: a load failure prints and calls [sys.exit(1)]. *)
Definition main : M unit unit :=
  file_path ← input;
  match read_csv file_path with
  | Some df => emit EvLoaded;; while_ (main_body df)
  | None => emit EvLoadError;; raise (SystemExit 1)
  end.

(** [if __name__ == "__main__": main()]: the program run on its standard
    input, with nothing printed yet. *)
Definition script (stdin : list string) : (exn + unit) * world unit :=
  main (mk_world tt stdin []).

(** ** Every loop reads a line per iteration, so the program terminates *)

Ltac unfold_menus :=
  unfold main, main_body, sentiment_analysis_menu, data_analysis2_menu, Select.new_analysis2, Select.print_column_types, analysis2_body,
    data_analysis1_menu, analysis1_body, data_inspection_menu, inspection_body,
    report_statistic, numeric_series, selected.

Lemma inspection_body_run : consumes inspection_body ∧ no_oof inspection_body ∧ shrinks inspection_body.
Proof.
  unfold_menus. split_and!; [solve_consumes|solve_no_oof|apply shrinks_emit_input; solve_consumes].
Qed.

Lemma analysis1_body_run df types :
  consumes (analysis1_body df types) ∧ no_oof (analysis1_body df types) ∧ shrinks (analysis1_body df types).
Proof.
  unfold_menus. split_and!; [solve_consumes|solve_no_oof|apply shrinks_emit_input; solve_consumes].

Qed.

Lemma analysis2_body_run df types :
  consumes (analysis2_body df types) ∧ no_oof (analysis2_body df types) ∧ shrinks (analysis2_body df types).
Proof.
  unfold_menus. split_and!; [solve_consumes|solve_no_oof|apply shrinks_emit_input; solve_consumes].
Qed.

Lemma submenus_run df :
  (consumes (data_inspection_menu df) ∧ no_oof (data_inspection_menu df)) ∧
  (consumes (data_analysis1_menu df) ∧ no_oof (data_analysis1_menu df)) ∧
  (consumes (data_analysis2_menu df) ∧ no_oof (data_analysis2_menu df)) ∧
  (consumes (sentiment_analysis_menu df) ∧ no_oof (sentiment_analysis_menu df)).
Proof.
  destruct inspection_body_run as (?&?&?).
  destruct (analysis1_body_run df (Analysis1.list_column_types df)) as (?&?&?).
  pose proof (λ d t, proj1 (analysis2_body_run d t)).
  pose proof (λ d t, proj1 (proj2 (analysis2_body_run d t))).
  pose proof (λ d t, proj2 (proj2 (analysis2_body_run d t))).
  unfold data_inspection_menu, data_analysis1_menu, data_analysis2_menu, Select.new_analysis2, Select.print_column_types, sentiment_analysis_menu.
  split_and!; solve [solve_consumes | solve_no_oof].
Qed.

Lemma main_body_run df :
  consumes (main_body df) ∧ no_oof (main_body df) ∧ shrinks (main_body df).
Proof.
  destruct (submenus_run df) as ((?&?)&(?&?)&(?&?)&(?&?)).
  unfold main_body. split_and!; [solve_consumes|solve_no_oof|apply shrinks_emit_input; solve_consumes].
Qed.

(** C7 The program always terminates: on every input, a finite list of
    lines, [main] ends normally or with one of the program's own
    exceptions, never by exhausting the iteration bound of a
    [while True] loop. *)
Theorem main_terminates w w' : main w ≠ (inl OutOfFuel, w').
Proof.
  revert w w'. change (no_oof main).
  unfold main. solve_no_oof. apply while_no_oof; apply main_body_run.
Qed.

Lemma main_loop_step df w :
  while_ (main_body df) w =
    (main_body df ≫= λ continue : bool, if continue then while_ (main_body df) else mret tt) w.
Proof. destruct (main_body_run df) as (?&?&?). by apply while_unfold. Qed.

Ltac run_step := unfold mbind, M_bind, mret, M_ret, emit, input, raise; simpl.

(** A present column passes the test [column_name not in df.columns]. *)
Lemma frame_get_py_in df col c : frame_get df col = Some c → py_in col (columns df) = true.
Proof.
  intros Hg. apply py_in_true. destruct (decide (col ∈ columns df)) as [|Hn]; [done|].
  apply FrameFacts.frame_get_None in Hn. congruence.
Qed.

(** C24 The paths of a session: a file that does not load is reported
    and the script exits with status 1 before any menu; a loaded table
    is reported and the main menu loop runs on it.  In that loop an
    invalid choice is never fatal: the program prints the menu and
    "Invalid choice", and goes on with the next line exactly as if it
    had started there; choice 5 prints the exit message and ends the
    program normally. *)
Theorem main_session path c rest (u : unit) l :
  (read_csv path = None →
   script (path :: rest) = (inl (SystemExit 1), mk_world tt rest [EvLoadError])) ∧
  (∀ df, read_csv path = Some df →
   script (path :: rest) = while_ (main_body df) (mk_world tt rest [EvLoaded])) ∧
  (∀ df, c ∉ ["1"; "2"; "3"; "4"; "5"] →
   while_ (main_body df) (mk_world u (c :: rest) l) =
   while_ (main_body df) (mk_world u rest (l ++ [EvMenu MainMenu; EvInvalidChoice]))) ∧
  (∀ df, while_ (main_body df) (mk_world u ("5" :: rest) l) =
    (inr tt, mk_world u rest (l ++ [EvMenu MainMenu; EvExit]))).
Proof.
  split_and!; [intros Hr|intros df Hr|intros df Hc|intros df].
  - unfold script, main. run_step. by rewrite Hr.
  - unfold script, main. run_step. by rewrite Hr.
  - rewrite main_loop_step; unfold main_body; run_step.
    rewrite !bool_decide_eq_false_2 by set_solver. simpl. by rewrite <-app_assoc.
  - rewrite main_loop_step; unfold main_body; run_step. by rewrite <-app_assoc.
Qed.

(** C30 Statistical Analysis 2 with no nominal column ends the program:
    choosing the chi-square test (option 3 of the sub-menu) makes
    [select_variable] raise [ValueError], which no caller catches, so
    the exception leaves [main] right after the menus are printed. *)
Theorem analysis2_no_nominal_crashes df (u : unit) rest l :
  Select.available_vars (Analysis2.list_column_types df) Nominal = [] →
  while_ (main_body df) (mk_world u ("3" :: "3" :: rest) l) =
    (inl (ValueError "No columns available with the specified data type and max categories."),
     mk_world u rest (l ++ [EvMenu MainMenu; EvColumnTypes (Analysis2.list_column_types df);
                            EvMenu Analysis2Menu])).
Proof.
  intros Hnil. rewrite main_loop_step.
  unfold main_body, data_analysis2_menu, Select.new_analysis2, Select.print_column_types. run_step.
  destruct (analysis2_body_run df (Analysis2.list_column_types df)) as (?&?&?).
  rewrite while_unfold by done. unfold analysis2_body, Select.select_variable2. run_step.
  rewrite Hnil. simpl. by rewrite <-!app_assoc.
Qed.

(** C31 Statistical Analysis 1 with no interval column never returns to
    a menu: choosing the normality test (option 1 of the sub-menu)
    enters the selection loop with nothing to select, which answers
    every remaining line with "Invalid choice" and ends only when the
    input does, with [EOFError]. *)
Theorem analysis1_no_interval_locks df (u : unit) rest l :
  Select.available_vars (Analysis1.list_column_types df) Interval = [] →
  while_ (main_body df) (mk_world u ("2" :: "1" :: rest) l) =
    (inl EOFError,
     mk_world u [] (l ++ [EvMenu MainMenu; EvMenu Analysis1Menu; EvAvailable []] ++
                      concat (replicate (length rest) [EvInvalidChoice]))).
Proof.
  intros Hnil. rewrite main_loop_step. unfold main_body, data_analysis1_menu. run_step.
  destruct (analysis1_body_run df (Analysis1.list_column_types df)) as (?&?&?).
  rewrite while_unfold by done. unfold analysis1_body, Select.select_variable1. run_step.
  rewrite Hnil. simpl. unfold Select.prompt_until. simpl.
  rewrite Select.read_valid_eof by (apply Forall_forall; intros ? _ ?%not_elem_of_nil; done).
  simpl. by rewrite <-!app_assoc.
Qed.

(** C25 Without the transformers library, choosing DistilBERT on a text
    column is not fatal: the [ImportError] is caught, the program prints
    that the library is missing and returns to the main menu. *)
Theorem distilbert_missing_recovers df (u : unit) col cells rest l :
  pipeline = None → frame_get df col = Some (ObjCol cells) →
  while_ (main_body df) (mk_world u ("4" :: col :: "3" :: rest) l) =
  while_ (main_body df)
    (mk_world u rest (l ++ [EvMenu MainMenu; EvTextColumns (Sentiment.get_text_columns (Sentiment.mk_sentiment_analysis df));
                            EvTransformersMissing])).
Proof.
  intros Hp Hcol. rewrite main_loop_step. unfold main_body, sentiment_analysis_menu. run_step.
  rewrite (frame_get_py_in _ _ _ Hcol), Hcol. simpl. unfold Sentiment.distilbert_sentiment_analysis. rewrite Hp. simpl.
  by rewrite <-!app_assoc.
Qed.

(** The conditions the inspection menu checks before drawing. *)
Ltac safe_side :=
  simpl; try done;
  repeat match goal with H : (_ && _) = true |- _ => apply andb_true_iff in H as [? ?] end;
  repeat match goal with H : py_in _ _ = true |- _ => apply py_in_true in H end;
  try split; assumption.

(** C9 The Data Inspection menu never changes the cleaned table and only
    draws or computes on columns of the right kind: whatever the input,
    and whether its loop ends normally or by an exception, every scatter
    plot, correlation and statistic it produces is on numeric columns of
    the table, and every box plot is of a numeric column by a text one. *)
Theorem inspection_loop_safe (df : frame) w r w' :
  w_state w = df → while_ inspection_body w = (r, w') →
  w_state w' = df ∧ ∃ evs, w_log w' = w_log w ++ evs ∧ Forall (safe_event df) evs.
Proof.
  revert w r w'. change (stays_at df (safe_event df) (while_ inspection_body)).
  apply stays_while. unfold inspection_body, report_statistic, numeric_series,
    Inspection.plot_scatter, Inspection.plot_boxplot, Inspection.get_col, lookup_col, numeric_cells.
  solve_stays safe_side.
Qed.

(** C13 Option 2 of Statistical Analysis 1 composes the selectors, the
    skewness check and the test dispatch as the code reads: on an
    interval column and a nominal column chosen at the first prompt,
    it prints both candidate lists and the skewness of the interval
    column's present values, then runs Kruskal-Wallis exactly when
    that skewness exceeds 1 in absolute value and ANOVA otherwise, on
    the [groupby] groups of the two chosen columns, and stays in the
    menu. *)
Theorem analysis1_skewness_picks_test df cv cat xs kc hyp rest (u : unit) l :
  NoDup (columns df) →
  frame_get df cv = Some (NumCol xs) → Analysis1.classify_column (NumCol xs) = Interval →
  frame_get df cat = Some kc → Analysis1.classify_column kc = Nominal → cat ≠ "" →
  let types := Analysis1.list_column_types df in
  let skewness := skew (dropna xs) in
  let skewed := match skewness with Some v => bool_decide (Qclt 1 (Qcabs v)) | None => false end in
  let groups := Grouping.groups_of (Grouping.present_pairs xs (column_values kc)) in
  let r := if skewed then kruskal groups else f_oneway groups in
  analysis1_body df types (mk_world u ("2" :: cv :: cat :: hyp :: rest) l) =
    (inr true, mk_world u rest
       (l ++ [EvMenu Analysis1Menu; EvAvailable (Select.available_vars types Interval);
              EvAvailable (Select.available_vars types Nominal); EvSkewness skewness;
              EvTest (if skewed then KruskalWallis else ANOVA) r.1 (PValue r.2)])).
Proof.
  intros Hnd Hx Hix Hk Hnk Hne types skewness skewed groups r.
  assert (∀ col c t, frame_get df col = Some c → Analysis1.classify_column c = t →
            col ∈ Select.available_vars types t) as Havail.
  { intros col c t Hg <-. apply Select.elem_of_available_vars, dict_get_Some_elem.
    by apply analysis1_lookup. }
  assert (cv ≠ cat) as Hcc by (intros ->; congruence).
  unfold analysis1_body. run_step.
  rewrite (Select.select_variable1_pick _ _ _ _ _ _ _ (Havail _ _ _ Hx Hix)). simpl.
  rewrite (Select.select_variable1_pick _ _ _ _ _ _ _ (Havail _ _ _ Hk Hnk)). simpl.
  unfold selected, lookup_col, numeric_cells, check_skewness, hypothesis_test.
  rewrite Hx. run_step. rewrite bool_decide_true by done.
  rewrite (lookup_col_run _ _ _ _ Hx), (lookup_col_run _ _ _ _ Hk), bool_decide_false by done.
  simpl.
  unfold r, skewed, skewness, groups, skewed_of.
  destruct (match skew (dropna xs) with Some v => _ | None => _ end); simpl;
    [destruct (kruskal _)|destruct (f_oneway _)]; by rewrite <-!app_assoc.
Qed.

(** C12 The sentiment menu prints, for each of the three analyses, a
    table whose rows line up: on a text column, the row of each
    non-missing text holds that text, its own score and the label of
    its own score, for VADER, for TextBlob (with its subjectivity), and
    for DistilBERT when the transformers pipeline is installed. *)
Theorem sentiment_menu_tables df (u : unit) col cells rest l :
  frame_get df col = Some (ObjCol cells) →
  let rows := Sentiment.text_rows cells in
  let shown evs :=
    (inr tt, mk_world u rest (l ++ EvTextColumns (Sentiment.get_text_columns (Sentiment.mk_sentiment_analysis df)) :: evs)) in
  sentiment_analysis_menu df (mk_world u (col :: "1" :: rest) l) =
    shown [EvSentimentTable rows (map vader_compound rows)
             (map (λ t, sentiment_label (Sentiment.vader_label (vader_compound t))) rows) None] ∧
  sentiment_analysis_menu df (mk_world u (col :: "2" :: rest) l) =
    shown [EvSentimentTable rows (map (λ t, (textblob t).1) rows)
             (map (λ t, sentiment_label (Sentiment.textblob_label (textblob t).1)) rows)
             (Some (map (λ t, (textblob t).2) rows))] ∧
  (∀ p, pipeline = Some p →
   sentiment_analysis_menu df (mk_world u (col :: "3" :: rest) l) =
    shown [EvSentimentTable rows (map (λ t, (p t).2) rows)
             (map (λ t, sentiment_label (Sentiment.distilbert_label (p t).1)) rows) None]).
Proof.
  intros Hcol rows shown. unfold sentiment_analysis_menu. run_step.
  rewrite (frame_get_py_in _ _ _ Hcol), Hcol. simpl.
  unfold Sentiment.vader_sentiment_analysis, Sentiment.textblob_sentiment_analysis,
    Sentiment.distilbert_sentiment_analysis.
  split_and!; [..|intros p ->];
    rewrite ?Sentiment.foldl_append2, ?Sentiment.foldl_append3; simpl; by rewrite ?list_fmap_compose, <-?app_assoc, ?map_map.
Qed.

(** C26 A CSV file with a header only crashes the program from Data
    Inspection: when the first column of the table is a text column with
    no rows, choosing option 1 of the main menu prints that the column
    is processed and then ends the whole program with [KeyError: 0],
    from [mode()[0]] in [handle_missing_values], which nothing catches. *)
Theorem header_only_text_crashes name df' (u : unit) rest l :
  while_ (main_body ((name, ObjCol []) :: df')) (mk_world u ("1" :: rest) l) =
    (inl (KeyError "0"), mk_world u rest (l ++ [EvMenu MainMenu; EvProcessing name])).
Proof.
  rewrite main_loop_step. unfold main_body, data_inspection_menu, with_state. run_step.
  unfold Inspection.classify_columns. run_step. run_step.
  rewrite Inspection.classify_and_calculate_empty_text;
    [by rewrite <-app_assoc|unfold frame_get; simpl; by rewrite decide_True].
Qed.

(** C21 Option 3 of Statistical Analysis 2 lets the same nominal column
    be chosen twice: typing its name at both prompts runs the chi-square
    test of the column against itself, on the diagonal crosstab whose
    labels are the column's sorted distinct values and whose only
    non-zero counts are their value counts, and the menu goes on. *)
Theorem chi_square_same_column df cat kc (u : unit) rest l :
  NoDup (columns df) → frame_get df cat = Some kc → Analysis2.classify_column kc = Nominal →
  let types := Analysis2.list_column_types df in
  let avail := Select.available_vars types Nominal in
  let vals := dropna (column_values kc) in
  let K := Grouping.group_keys vals in
  let counts := map (λ r, map (λ c, if decide (r = c)
                                    then length (filter (λ x, x = r) vals) else 0) K) K in
  let r := chi2_contingency counts in
  analysis2_body df types (mk_world u ("3" :: cat :: cat :: rest) l) =
    (inr true, mk_world u rest (l ++ [EvMenu Analysis2Menu; EvAvailable avail; EvAvailable avail;
                                      EvTest ChiSquare r.1 (PValue r.2)])).
Proof.
  intros Hnd Hk Hnom types avail vals K counts r.
  assert (cat ∈ avail) as Hcat.
  { apply Select.elem_of_available_vars, dict_get_Some_elem. rewrite <-Hnom.
    by apply analysis2_lookup. }
  unfold analysis2_body. run_step.
  rewrite (Select.select_variable2_first_valid df types Nominal None false [] cat (cat :: rest))
    by (constructor || exact Hcat).
  simpl. rewrite (Select.select_variable2_first_valid df types Nominal None false [] cat rest)
    by (constructor || exact Hcat).
  simpl. unfold selected, chi_square_test. run_step.
  rewrite (lookup_col_run _ _ _ _ Hk). simpl. rewrite (lookup_col_run _ _ _ _ Hk). simpl.
  pose proof (f_equal Grouping.tab_counts (crosstab_same_column (column_values kc))) as Hd.
  simpl in Hd. rewrite Hd. by rewrite <-!app_assoc.
Qed.

End Menus.
End Menu.

(** Data Inspection cleans a copy of the table ([di.df = df.copy()]):
    in a session that opens it on a table whose column ["x"] is more
    than half missing, the inspection drops ["x"], yet Statistical
    Analysis 2, opened next from the main menu, still classifies ["x"],
    because every sub-menu receives the table as loaded. *)
Theorem inspection_cleans_a_copy :
  let df := [("x", NumCol [Some (Qc_of_Z 1); None; None])]%string in
  while_ (@Menu.main_body example_stats example_runtime df)
    (mk_world tt ["1"; "7"; "3"; "4"; "5"]%string []) =
  (inr tt, mk_world tt []
     [EvMenu MainMenu; EvProcessing "x"; EvDropped "x"; EvMenu InspectionMenu;
      EvMenu MainMenu; EvColumnTypes [("x", NumericOrdinal)]; EvMenu Analysis2Menu;
      EvMenu MainMenu; EvExit]%string).
Proof. vm_compute. reflexivity. Qed.

(** ** The theorems at example sessions *)

Lemma main_session_witness :
  (@read_csv example_runtime) "data.csv"%string = Some example_frame ∧
  ("6"%string ∉ ["1"; "2"; "3"; "4"; "5"]%string) ∧
  @Menu.script example_stats example_runtime ["data.csv"; "6"; "5"]%string =
    (inr tt, mk_world tt [] [EvLoaded; EvMenu MainMenu; EvInvalidChoice; EvMenu MainMenu; EvExit]).
Proof.
  assert ((@read_csv example_runtime) "data.csv"%string = Some example_frame) as Hr by reflexivity.
  assert ("6"%string ∉ ["1"; "2"; "3"; "4"; "5"]%string) as Hc by eval_decide.
  pose proof (@Menu.main_session example_stats example_runtime "data.csv" "6" ["6"; "5"]%string tt [])
    as (_ & Hload & _ & _).
  pose proof (@Menu.main_session example_stats example_runtime "data.csv" "6" ["5"]%string tt
                [EvLoaded]) as (_ & _ & Hinv & _).
  pose proof (@Menu.main_session example_stats example_runtime "data.csv" "6" []%string tt
                [EvLoaded; EvMenu MainMenu; EvInvalidChoice]) as (_ & _ & _ & Hexit).
  split_and!; [exact Hr|exact Hc|].
  rewrite (Hload _ Hr), (Hinv _ Hc). exact (Hexit _).
Defined.

Lemma analysis2_no_nominal_crashes_witness :
  Select.available_vars (Analysis2.list_column_types [("age", example_ages)]%string) Nominal = [] ∧
  ∃ w', while_ (@Menu.main_body example_stats example_runtime [("age", example_ages)]%string)
          (mk_world tt ["3"; "3"]%string []) =
        (inl (ValueError "No columns available with the specified data type and max categories."), w').
Proof.
  assert (Select.available_vars (Analysis2.list_column_types [("age", example_ages)]%string)
            Nominal = []) as Hnil by reflexivity.
  split; [exact Hnil|]. eexists.
  exact (@Menu.analysis2_no_nominal_crashes example_stats example_runtime _ tt [] [] Hnil).
Defined.

Lemma analysis1_no_interval_locks_witness :
  Select.available_vars (Analysis1.list_column_types example_frame) Interval = [] ∧
  while_ (@Menu.main_body example_stats example_runtime example_frame)
    (mk_world tt ["2"; "1"; "3"; "5"]%string []) =
  (inl EOFError, mk_world tt [] [EvMenu MainMenu; EvMenu Analysis1Menu; EvAvailable [];
                                 EvInvalidChoice; EvInvalidChoice]).
Proof.
  assert (Select.available_vars (Analysis1.list_column_types example_frame) Interval = [])
    as Hnil by reflexivity.
  split; [exact Hnil|].
  exact (@Menu.analysis1_no_interval_locks example_stats example_runtime _ tt ["3"; "5"]%string [] Hnil).
Defined.

Lemma distilbert_missing_recovers_witness :
  (@pipeline example_runtime) = None ∧
  frame_get example_frame "city" = Some example_cities ∧
  while_ (@Menu.main_body example_stats example_runtime example_frame)
    (mk_world tt ["4"; "city"; "3"; "5"]%string []) =
  while_ (@Menu.main_body example_stats example_runtime example_frame)
    (mk_world tt ["5"]%string [EvMenu MainMenu; EvTextColumns (Sentiment.get_text_columns (Sentiment.mk_sentiment_analysis example_frame));
                               EvTransformersMissing]).
Proof.
  assert ((@pipeline example_runtime) = None) as Hp by reflexivity.
  assert (frame_get example_frame "city" = Some (ObjCol [Some "Oslo"; Some "Rome"; Some "Oslo"]%string))
    as Hg by reflexivity.
  split_and!; [exact Hp|exact Hg|].
  exact (@Menu.distilbert_missing_recovers example_stats example_runtime _ tt _ _ ["5"]%string [] Hp Hg).
Defined.

Lemma inspection_loop_safe_witness :
  let w := mk_world example_frame ["1"; "age"; "age"; "2"; "age"; "city"; "7"]%string [] in
  w_state w = example_frame ∧
  w_state (while_ (@Menu.inspection_body example_runtime) w).2 = example_frame ∧
  ∃ evs, w_log (while_ (@Menu.inspection_body example_runtime) w).2 = w_log w ++ evs ∧
         Forall (Menu.safe_event example_frame) evs.
Proof.
  intros w. assert (w_state w = example_frame) as Hs by reflexivity.
  split; [exact Hs|].
  destruct (while_ (@Menu.inspection_body example_runtime) w) as [r w'] eqn:E.
  exact (@Menu.inspection_loop_safe example_runtime example_frame w r w' Hs E).
Defined.

Lemma sentiment_menu_tables_witness :
  frame_get example_frame "city" = Some example_cities ∧
  @Menu.sentiment_analysis_menu example_runtime example_frame (mk_world tt ["city"; "1"]%string []) =
    (inr tt, mk_world tt [] [EvTextColumns (Sentiment.get_text_columns (Sentiment.mk_sentiment_analysis example_frame));
       EvSentimentTable ["Oslo"; "Rome"; "Oslo"]%string (map (@vader_compound example_runtime) ["Oslo"; "Rome"; "Oslo"]%string)
         (map (λ t, Menu.sentiment_label (Sentiment.vader_label (@vader_compound example_runtime t))) ["Oslo"; "Rome"; "Oslo"]%string) None]).
Proof.
  assert (frame_get example_frame "city" = Some (ObjCol [Some "Oslo"; Some "Rome"; Some "Oslo"]%string))
    as Hg by reflexivity.
  split; [exact Hg|].
  exact (proj1 (@Menu.sentiment_menu_tables example_runtime example_frame tt "city" _ [] [] Hg)).
Defined.

(** Twenty distinct numbers and twenty distinct one-letter names: an
    interval and a nominal column for [DataAnalysis1]. *)
Lemma analysis1_skewness_picks_test_witness :
  let xs := map (λ n, Some (Qc_of_Z (Z.of_nat n))) (seq 0 20) in
  let kc := ObjCol (map (λ n, Some (String (Ascii.ascii_of_nat (65 + n)) EmptyString)) (seq 0 20)) in
  let df := [("x", NumCol xs); ("k", kc)]%string in
  NoDup (columns df) ∧
  frame_get df "x" = Some (NumCol xs) ∧ Analysis1.classify_column (NumCol xs) = Interval ∧
  frame_get df "k" = Some kc ∧ Analysis1.classify_column kc = Nominal ∧ "k"%string ≠ "" ∧
  ∃ w', @Menu.analysis1_body example_stats df (Analysis1.list_column_types df)
          (mk_world tt ["2"; "x"; "k"; "equal means"]%string []) = (inr true, w').
Proof.
  intros xs kc df.
  assert (NoDup (columns df)) as Hnd by eval_decide.
  assert (frame_get df "x" = Some (NumCol xs)) as Hx by reflexivity.
  assert (Analysis1.classify_column (NumCol xs) = Interval) as Hix by (vm_compute; reflexivity).
  assert (frame_get df "k" = Some kc) as Hk by reflexivity.
  assert (Analysis1.classify_column kc = Nominal) as Hnk by (vm_compute; reflexivity).
  assert ("k"%string ≠ "") as Hne by discriminate.
  split_and!; try assumption. eexists.
  exact (@Menu.analysis1_skewness_picks_test example_stats df "x" "k" xs kc "equal means" []
           tt [] Hnd Hx Hix Hk Hnk Hne).
Defined.

Lemma chi_square_same_column_witness :
  NoDup (columns example_frame) ∧
  frame_get example_frame "city" = Some example_cities ∧
  Analysis2.classify_column example_cities = Nominal ∧
  ∃ w', @Menu.analysis2_body example_stats example_frame (Analysis2.list_column_types example_frame)
          (mk_world tt ["3"; "city"; "city"]%string []) = (inr true, w').
Proof.
  assert (NoDup (columns example_frame)) as Hnd by eval_decide.
  assert (frame_get example_frame "city" = Some example_cities) as Hk by reflexivity.
  assert (Analysis2.classify_column example_cities = Nominal) as Hn by (vm_compute; reflexivity).
  split_and!; [exact Hnd|exact Hk|exact Hn|]. eexists.
  exact (@Menu.chi_square_same_column example_stats example_frame "city" example_cities tt [] []
           Hnd Hk Hn).
Defined.
